(** * The storj command line client: the queued transfer logic of [cli.c]

    A shallow embedding of the functions of [src/cli.c] that resolve a
    bucket name, enumerate the files of a bucket, walk a transfer list and
    hand single files to the bridge, with the properties the specification
    states about them; and of the functions that read the console (a
    password, a passphrase entered twice, the strength of a key, the answer
    to a question) and the address of the bridge, with what the code shows
    about them and about whole invocations.

    Conventions of the embedding.
    - A C string is the [string] of its characters before the terminating
      NUL; a [char *] that may be [NULL] is an [option string].  A pointer is
      modelled by the text it points to when it is assigned.  The arrays the
      source declares ([line[256][256]], [temp_path[1024]], [token[10]],
      [token[0x03]]) keep their sizes: a read or a write outside one of them
      is undefined behaviour.
    - An [int] is a [Z]; the arithmetic of the modelled code is the
      increment of the cursor, written with its 32-bit wrap-around, the
      counter of attempts and the numbers read from text.
    - The process state (the [cli_state_t] object, files, environment,
      console, the requests handed to the bridge, signal watchers) is one
      record threaded through a state monad whose computations may stop:
      [exit], undefined behaviour, a prompt that never gets an answer.
    - The files are a map from paths to nodes, looked up by the text of
      the path; a file that is created is added under its path, the
      directory it lies in being taken to exist and to be writable.  The
      console input is a sequence of characters, given as the list of the
      lines typed.
    - The bridge is the external collaborator of the specification: a call
      to one of its operations is recorded in the trace, and its completion
      callbacks are the events of the event loop. *)

From Stdlib Require Import ZArith Ascii String List Lia DecimalString.
From stdpp Require Import base option gmap strings list fin_maps.

Open Scope string_scope.
Open Scope list_scope.
Open Scope Z_scope.

(** ** Characters and C strings *)

Definition nl : string := String "010"%char EmptyString.
Definition newline : ascii := "010"%char.
Definition carriage_return : ascii := "013"%char.
Definition slash : ascii := "/"%char.
Definition colon : ascii := ":"%char.

(** [%s] of a [NULL] pointer, as the C library prints it. *)
Definition show_str (s : option string) : string :=
  match s with Some x => x | None => "(null)" end.

(** [%d]. *)
Definition show_int (z : Z) : string := NilZero.string_of_int (Z.to_int z).

(** [int] arithmetic: the value of an [int] expression after wrap-around. *)
Definition int_min : Z := -2147483648.
Definition int_max : Z := 2147483647.
Definition wrap_int (z : Z) : Z := (z + 2147483648) mod 4294967296 - 2147483648.

(** [strstr(str, sub)]: the offset of the first occurrence of [sub]. *)
Fixpoint strstr (str sub : string) : option nat :=
  if String.prefix sub str then Some 0%nat
  else match str with
       | EmptyString => None
       | String _ rest => S <$> strstr rest sub
       end.

(** [strrchr(s, c)] for a character [c] other than NUL: the suffix of [s]
    that starts at the last occurrence of [c]. *)
Fixpoint strrchr (s : string) (c : ascii) : option string :=
  match s with
  | EmptyString => None
  | String a rest =>
      match strrchr rest c with
      | Some r => Some r
      | None => if Ascii.eqb a c then Some s else None
      end
  end.

(** [p = strrchr(s, c); if (p) *p = '\0';]: the string cut at the last [c]. *)
Fixpoint cut_last (s : string) (c : ascii) : string :=
  match s with
  | EmptyString => EmptyString
  | String a rest =>
      match strrchr rest c with
      | Some _ => String a (cut_last rest c)
      | None => if Ascii.eqb a c then EmptyString else s
      end
  end.

(** [strtok]: one call on the text that is left.  Leading delimiters are
    skipped; [None] when nothing but delimiters is left, otherwise the token
    and the text after the delimiter that ended it. *)
Fixpoint skip_delim (d : ascii) (s : string) : string :=
  match s with
  | EmptyString => EmptyString
  | String a rest => if Ascii.eqb a d then skip_delim d rest else s
  end.

Fixpoint scan_token (d : ascii) (s : string) : string * string :=
  match s with
  | EmptyString => (EmptyString, EmptyString)
  | String a rest =>
      if Ascii.eqb a d then (EmptyString, rest)
      else let '(t, r) := scan_token d rest in (String a t, r)
  end.

Definition strtok (d : ascii) (s : string) : option (string * string) :=
  match skip_delim d s with
  | EmptyString => None
  | s' => Some (scan_token d s')
  end.

(** The loop of the source around [strtok]:
    [token[0] = strtok(s, d); while (token[i] != NULL) { i++; token[i] = strtok(NULL, d); }].
    Every call consumes a character, so [String.length s] rounds after the
    first call always reach the end. *)
Fixpoint tokenize_loop (fuel : nat) (d : ascii) (s : string) : list string :=
  match strtok d s with
  | None => []
  | Some (t, r) =>
      match fuel with
      | O => [t]
      | S fuel' => t :: tokenize_loop fuel' d r
      end
  end.

Definition tokenize (d : ascii) (s : string) : list string :=
  tokenize_loop (String.length s) d s.

(** [char line[256][256]]: the length of a row and the size of the array,
    which is the size [fgets] is given whatever the row it reads into. *)
Definition line_row : Z := 256.
Definition line_size : Z := 256 * 256.

(** A text stream read with [fgets(_, sizeof(line), _)]: the chunks [fgets]
    returns one after the other.  A chunk ends with the newline, or after
    [sizeof(line) - 1] characters when no newline has come, or with the
    text.  [room] is the number of characters the chunk can still take. *)
Fixpoint fgets_from (room : Z) (s : string) : list string :=
  match s with
  | EmptyString => []
  | String a rest =>
      if (Ascii.eqb a newline || (room <=? 1))%bool then
        String a EmptyString :: fgets_from (line_size - 1) rest
      else match fgets_from (room - 1) rest with
           | [] => [String a EmptyString]
           | l :: ls => String a l :: ls
           end
  end.

Definition split_lines (s : string) : list string := fgets_from (line_size - 1) s.

(** [fgets(line[i], sizeof(line), file)] stays inside [line] when the chunk
    and the zero that ends it fit between row [i] and the end of the array;
    no chunk fits from row 256 on. *)
Definition fits (i : Z) (chunk : string) : bool :=
  line_row * i + Z.of_nat (String.length chunk) + 1 <=? line_size.

Fixpoint rows_fit (i : Z) (lines : list string) : bool :=
  match lines with
  | [] => true
  | line :: rest => fits i line && rows_fit (i + 1) rest
  end.

(** [atoi]: optional white space, an optional sign, decimal digits.  A
    number an [int] cannot hold, for which C defines no result, is wrapped
    to 32 bits by [atoi] and refused by [atoi_int]. *)
Definition is_space (a : ascii) : bool :=
  let n := nat_of_ascii a in ((9 <=? n)%nat && (n <=? 13)%nat) || (n =? 32)%nat.

Definition digit_of (a : ascii) : option Z :=
  let n := nat_of_ascii a in
  if ((48 <=? n)%nat && (n <=? 57)%nat)%bool then Some (Z.of_nat n - 48) else None.

Fixpoint skip_space (s : string) : string :=
  match s with
  | String a rest => if is_space a then skip_space rest else s
  | EmptyString => EmptyString
  end.

Fixpoint digits_value (acc : Z) (s : string) : Z :=
  match s with
  | String a rest =>
      match digit_of a with
      | Some d => digits_value (10 * acc + d) rest
      | None => acc
      end
  | EmptyString => acc
  end.

Definition atoi (s : string) : Z :=
  match skip_space s with
  | String "-" rest => wrap_int (- digits_value 0 rest)
  | String "+" rest => wrap_int (digits_value 0 rest)
  | s' => wrap_int (digits_value 0 s')
  end.

(** [atoi] where C defines it: the number the text denotes when an [int]
    can hold it, and nothing when it cannot, where the behaviour is
    undefined; for the callers whose next step depends on the number. *)
Definition atoi_int (s : string) : option Z :=
  let value :=
    match skip_space s with
    | String "-" rest => - digits_value 0 rest
    | String "+" rest => digits_value 0 rest
    | s' => digits_value 0 s'
    end in
  if ((int_min <=? value) && (value <=? int_max))%bool then Some value else None.

(** ** The data of the program *)

(** [cli_state_t], the fields the modelled functions read or write. *)
Record cli_state_t := Build_cli_state {
  bucket_name : option string;
  bucket_id : option string;
  file_name : option string;
  file_path : option string;
  file_id : option string;
  total_files : Z;
  curr_up_file : Z;
  curr_cmd_req : option string;
  next_cmd_req : option string
}.

(** [memset(cli_state, 0x00, sizeof(cli_state_t))]. *)
Definition cli_state_zero : cli_state_t :=
  Build_cli_state None None None None None 0 0 None None.

Definition set_bucket_name v (c : cli_state_t) : cli_state_t :=
  let '(Build_cli_state x0 x1 x2 x3 x4 x5 x6 x7 x8) := c in
  Build_cli_state v x1 x2 x3 x4 x5 x6 x7 x8.
Definition set_bucket_id v (c : cli_state_t) : cli_state_t :=
  let '(Build_cli_state x0 x1 x2 x3 x4 x5 x6 x7 x8) := c in
  Build_cli_state x0 v x2 x3 x4 x5 x6 x7 x8.
Definition set_file_name v (c : cli_state_t) : cli_state_t :=
  let '(Build_cli_state x0 x1 x2 x3 x4 x5 x6 x7 x8) := c in
  Build_cli_state x0 x1 v x3 x4 x5 x6 x7 x8.
Definition set_file_path v (c : cli_state_t) : cli_state_t :=
  let '(Build_cli_state x0 x1 x2 x3 x4 x5 x6 x7 x8) := c in
  Build_cli_state x0 x1 x2 v x4 x5 x6 x7 x8.
Definition set_file_id v (c : cli_state_t) : cli_state_t :=
  let '(Build_cli_state x0 x1 x2 x3 x4 x5 x6 x7 x8) := c in
  Build_cli_state x0 x1 x2 x3 v x5 x6 x7 x8.
Definition set_total_files v (c : cli_state_t) : cli_state_t :=
  let '(Build_cli_state x0 x1 x2 x3 x4 x5 x6 x7 x8) := c in
  Build_cli_state x0 x1 x2 x3 x4 v x6 x7 x8.
Definition set_curr_up_file v (c : cli_state_t) : cli_state_t :=
  let '(Build_cli_state x0 x1 x2 x3 x4 x5 x6 x7 x8) := c in
  Build_cli_state x0 x1 x2 x3 x4 x5 v x7 x8.
Definition set_curr_cmd_req v (c : cli_state_t) : cli_state_t :=
  let '(Build_cli_state x0 x1 x2 x3 x4 x5 x6 x7 x8) := c in
  Build_cli_state x0 x1 x2 x3 x4 x5 x6 v x8.
Definition set_next_cmd_req v (c : cli_state_t) : cli_state_t :=
  let '(Build_cli_state x0 x1 x2 x3 x4 x5 x6 x7 x8) := c in
  Build_cli_state x0 x1 x2 x3 x4 x5 x6 x7 v.

(** [storj_upload_opts_t]; [opt_fd] is the path of the source file when
    [fopen] could open it. *)
Record storj_upload_opts_t := Build_upload_opts {
  prepare_frame_limit : Z;
  push_frame_limit : Z;
  push_shard_limit : Z;
  rs : bool;
  opt_bucket_id : option string;
  opt_file_name : option string;
  opt_fd : option string
}.

(** [storj_bucket_meta_t] and [storj_file_meta_t], read-only views the
    bridge returns. *)
Record storj_bucket_meta_t := Build_bucket_meta {
  b_id : string; b_name : string; b_created : string; b_decrypted : bool
}.

Record storj_file_meta_t := Build_file_meta {
  f_id : string; f_filename : string; f_size : Z; f_mimetype : string;
  f_created : string; f_decrypted : bool
}.

(** [get_buckets_request_t] and [list_files_request_t]: the arrays with
    their counts are lists. *)
Record get_buckets_request_t := Build_get_buckets_request {
  gb_status_code : Z; buckets : list storj_bucket_meta_t
}.
Definition total_buckets (req : get_buckets_request_t) : Z :=
  Z.of_nat (length (buckets req)).

Record list_files_request_t := Build_list_files_request {
  lf_status_code : Z; lf_bucket_id : string; files : list storj_file_meta_t
}.
Definition req_total_files (req : list_files_request_t) : Z :=
  Z.of_nat (length (files req)).

(** What [stat] finds at a path.  A directory carries what the recursive
    walk of [printdir] yields for it (the resolved paths of the entries that
    are not directories, in [readdir] order) and the directory [..] leads to. *)
Inductive special := IFBLK | IFCHR | IFIFO | IFLNK | IFSOCK | IFother.

Inductive node :=
| Reg (content : string)
| Dir (walk : list string) (dotdot : string)
| Special (kind : special).

(** What the program asks of its collaborators, in the order it asks:
    entries into the two transfer executors and operations of the bridge. *)
Inductive call :=
| Enter_upload_file (bucket file_path : option string)
| Enter_download_file (bucket file path : option string)
| Bridge_get_buckets
| Bridge_list_files (bucket : option string)
| Bridge_store_file (handle : nat) (opts : storj_upload_opts_t) (progress : bool)
| Bridge_resolve_file (handle : nat) (bucket file : option string)
    (dest : option string) (progress : bool)
| Bridge_store_file_cancel (handle : nat)
| Bridge_resolve_file_cancel (handle : nat).

(** An active [uv_signal_t] watcher for SIGINT: its handler and [data]. *)
Inductive handler := upload_handler | download_handler.
Record watcher := Build_watcher { w_handler : handler; w_data : option nat }.

Record world := Build_world {
  cli : cli_state_t;
  fs : gmap string node;
  cwd : string;
  environ : gmap string string;
  stdin : list string;
  stdout : list string;
  stderr : list string;
  log_level : Z;
  trace : list call;
  watchers : list watcher;
  handles : nat
}.

Definition with_cli (f : cli_state_t -> cli_state_t) (w : world) : world :=
  let '(Build_world x0 x1 x2 x3 x4 x5 x6 x7 x8 x9 x10) := w in
  Build_world (f x0) x1 x2 x3 x4 x5 x6 x7 x8 x9 x10.
Definition with_fs (f : gmap string node -> gmap string node) (w : world) : world :=
  let '(Build_world x0 x1 x2 x3 x4 x5 x6 x7 x8 x9 x10) := w in
  Build_world x0 (f x1) x2 x3 x4 x5 x6 x7 x8 x9 x10.
Definition with_cwd (d : string) (w : world) : world :=
  let '(Build_world x0 x1 x2 x3 x4 x5 x6 x7 x8 x9 x10) := w in
  Build_world x0 x1 d x3 x4 x5 x6 x7 x8 x9 x10.
Definition with_environ (f : gmap string string -> gmap string string) (w : world) : world :=
  let '(Build_world x0 x1 x2 x3 x4 x5 x6 x7 x8 x9 x10) := w in
  Build_world x0 x1 x2 (f x3) x4 x5 x6 x7 x8 x9 x10.
Definition with_stdin (l : list string) (w : world) : world :=
  let '(Build_world x0 x1 x2 x3 x4 x5 x6 x7 x8 x9 x10) := w in
  Build_world x0 x1 x2 x3 l x5 x6 x7 x8 x9 x10.
Definition with_stdout (f : list string -> list string) (w : world) : world :=
  let '(Build_world x0 x1 x2 x3 x4 x5 x6 x7 x8 x9 x10) := w in
  Build_world x0 x1 x2 x3 x4 (f x5) x6 x7 x8 x9 x10.
Definition with_stderr (f : list string -> list string) (w : world) : world :=
  let '(Build_world x0 x1 x2 x3 x4 x5 x6 x7 x8 x9 x10) := w in
  Build_world x0 x1 x2 x3 x4 x5 (f x6) x7 x8 x9 x10.
Definition with_trace (f : list call -> list call) (w : world) : world :=
  let '(Build_world x0 x1 x2 x3 x4 x5 x6 x7 x8 x9 x10) := w in
  Build_world x0 x1 x2 x3 x4 x5 x6 x7 (f x8) x9 x10.
Definition with_watchers (f : list watcher -> list watcher) (w : world) : world :=
  let '(Build_world x0 x1 x2 x3 x4 x5 x6 x7 x8 x9 x10) := w in
  Build_world x0 x1 x2 x3 x4 x5 x6 x7 x8 (f x9) x10.
Definition with_handles (n : nat) (w : world) : world :=
  let '(Build_world x0 x1 x2 x3 x4 x5 x6 x7 x8 x9 x10) := w in
  Build_world x0 x1 x2 x3 x4 x5 x6 x7 x8 x9 n.

(** ** Computations *)

(** Why a computation stops before it returns: [exit(status)]; undefined
    behaviour (a [NULL] or uninitialised pointer is dereferenced, an array
    is left, an assertion fails); a loop that never ends; death by
    SIGINT. *)
Inductive stop := Exit (status : Z) | Undefined | Hang | Killed.

Inductive outcome (A : Type) :=
| Val (a : A)
| Stop (s : stop).
Arguments Val {A} a.
Arguments Stop {A} s.

Definition M (A : Type) : Type := world -> outcome A * world.

Definition ret {A} (a : A) : M A := fun w => (Val a, w).
Definition bind {A B} (m : M A) (k : A -> M B) : M B :=
  fun w => match m w with
           | (Val a, w') => k a w'
           | (Stop s, w') => (Stop s, w')
           end.
Definition halt {A} (s : stop) : M A := fun w => (Stop s, w).

Notation "x <- m ;; k" := (bind m (fun x => k))
  (at level 100, m at next level, right associativity).
Notation "m ;; k" := (bind m (fun _ => k))
  (at level 100, right associativity).

Definition get {A} (f : world -> A) : M A := fun w => (Val (f w), w).
Definition modify (f : world -> world) : M unit := fun w => (Val tt, f w).
Definition when (b : bool) (m : M unit) : M unit := if b then m else ret tt.

Definition exit {A} (status : Z) : M A := halt (Exit status).
Definition printf (s : string) : M unit := modify (with_stdout (fun o => o ++ [s])).
Definition eprintf (s : string) : M unit := modify (with_stderr (fun o => o ++ [s])).
Definition record (c : call) : M unit := modify (with_trace (fun t => t ++ [c])).
Definition set_cli (f : cli_state_t -> cli_state_t) : M unit := modify (with_cli f).

(** [strcmp(a, b) == 0]; reading through a [NULL] pointer is undefined. *)
Definition strcmp0 (a b : option string) : M bool :=
  match a, b with
  | Some x, Some y => ret (String.eqb x y)
  | _, _ => halt Undefined
  end.

(** [a || b] and [a && b] with their left-to-right evaluation. *)
Definition orM (a b : M bool) : M bool := x <- a ;; if x then ret true else b.
Definition andM (a b : M bool) : M bool := x <- a ;; if x then b else ret false.

(** ** The file system and the console *)

(** Relative names are looked up from the working directory. *)
Definition abspath (dir p : string) : string :=
  if String.prefix "/" p then p else dir +:+ "/" +:+ p.

Definition stat (p : string) : M (option node) :=
  get (fun w => fs w !! abspath (cwd w) p).

(** [access(path, F_OK) != -1]. *)
Definition access (p : string) : M bool :=
  n <- stat p ;; ret (match n with Some _ => true | None => false end).

(** [unlink]: directories stay. *)
Definition unlink (p : string) : M unit :=
  n <- stat p ;;
  match n with
  | Some (Reg _) | Some (Special _) =>
      modify (fun w => with_fs (delete (abspath (cwd w) p)) w)
  | _ => ret tt
  end.

(** [remove(path) == 0] (the program only removes regular files). *)
Definition remove (p : string) : M bool :=
  n <- stat p ;;
  match n with
  | Some (Reg _) | Some (Special _) =>
      modify (fun w => with_fs (delete (abspath (cwd w) p)) w) ;; ret true
  | _ => ret false
  end.

(** [fopen(name, "r")]: the stream of lines, [None] for [NULL].  The program
    relies on [fopen] returning [NULL] for a [NULL] name. *)
Definition fopen_r (name : option string) : M (option (list string)) :=
  match name with
  | None => ret None
  | Some p =>
      n <- stat p ;;
      ret (match n with
           | Some (Reg c) => Some (split_lines c)
           | Some _ => Some []
           | None => None
           end)
  end.

(** [fopen(name, "w")] and [fopen(name, "w+")]: the file is created or
    emptied; a directory cannot be opened.  The directory the path lies in
    is taken to exist and to be writable: the file system records no
    directory for a file, and [fopen] fails here for no other reason than
    the one above.  The stream is its path: what is written to it is
    appended to the file at once (nothing reads the file before [fclose])
    and is lost once the file has been removed. *)
Definition fopen_w (p : string) : M (option string) :=
  n <- stat p ;;
  match n with
  | Some (Dir _ _) => ret None
  | _ => modify (fun w => with_fs (insert (abspath (cwd w) p) (Reg "")) w) ;;
         a <- get (fun w => abspath (cwd w) p) ;; ret (Some a)
  end.

Definition fputs (stream : string) (text : string) : M unit :=
  modify (fun w => match fs w !! stream with
                   | Some (Reg c) => with_fs (insert stream (Reg (c +:+ text))) w
                   | _ => w
                   end).

Definition getenv (name : string) : M (option string) :=
  get (fun w => environ w !! name).

(** The console input is the text of the elements of [stdin], one after
    the other: the next character of the input and the input that is
    left. *)
Fixpoint next_char (inp : list string) : option (ascii * list string) :=
  match inp with
  | [] => None
  | EmptyString :: rest => next_char rest
  | String a EmptyString :: rest => Some (a, rest)
  | String a s :: rest => Some (a, s :: rest)
  end.

(** The number of characters the input still holds. *)
Fixpoint input_chars (inp : list string) : nat :=
  match inp with
  | [] => 0%nat
  | s :: rest => (String.length s + input_chars rest)%nat
  end.

(** [BUFSIZ] of [<stdio.h>], the size of the buffers the program reads the
    console into: 8192 with the GNU C library. *)
Definition BUFSIZ : Z := 8192.

(** [fgets(line, size, stdin)]: the characters of the input up to the
    first newline, the newline included, and [size - 1] of them at most,
    which [room] counts down; the empty string at the end of the input,
    where [fgets] returns [NULL].  [fuel] is the number of characters the
    input holds. *)
Fixpoint fgets_loop (fuel : nat) (room : Z) (inp : list string) : string * list string :=
  match fuel with
  | O => (EmptyString, inp)
  | S fuel' =>
      if room <=? 0 then (EmptyString, inp)
      else match next_char inp with
           | None => (EmptyString, inp)
           | Some (a, rest) =>
               if Ascii.eqb a newline then (String a EmptyString, rest)
               else let '(s, r) := fgets_loop fuel' (room - 1) rest in (String a s, r)
           end
  end.

Definition fgets_stdin (size : Z) (inp : list string) : string * list string :=
  fgets_loop (input_chars inp) (size - 1) inp.

(** The bytes of a buffer read as a C string: what comes before the first
    zero byte. *)
Fixpoint until_zero (s : string) : string :=
  match s with
  | EmptyString => EmptyString
  | String a rest => if Ascii.eqb a zero then EmptyString else String a (until_zero rest)
  end.

(** [get_input(line)], with [line] a buffer of [BUFSIZ] bytes: what
    [fgets] reads, as a C string, cut at its last newline and then at its
    last carriage return; the empty string at the end of the input. *)
Definition get_input : M string :=
  inp <- get stdin ;;
  let '(chunk, rest) := fgets_stdin BUFSIZ inp in
  modify (with_stdin rest) ;;
  let line := until_zero chunk in
  ret (match line with
       | EmptyString => line
       | _ => cut_last (cut_last line newline) carriage_return
       end).

(** What [get_input] makes of the characters [fgets] has read. *)
Definition reply (chunk : string) : string :=
  cut_last (cut_last (until_zero chunk) newline) carriage_return.

(** A line as the console delivers it: characters other than the newline
    and then the newline, [BUFSIZ - 1] characters at most, so that one call
    of [fgets] reads it whole. *)
Fixpoint ends_line (s : string) : bool :=
  match s with
  | EmptyString => false
  | String a rest =>
      if Ascii.eqb a newline then match rest with EmptyString => true | _ => false end
      else ends_line rest
  end.

Definition console_line (line : string) : bool :=
  ends_line line && (Z.of_nat (String.length line) <? BUFSIZ).

(** ** Collaborators: the bridge and the signal watchers *)

Definition tab : string := String "009"%char EmptyString.

(** Modelled from the spec: the bridge's [listBuckets], here
    [storj_bridge_get_buckets(env, cli_state, get_bucket_id_callback)], is
    asynchronous; the call only queues the request and returns 0. *)
Definition storj_bridge_get_buckets : M Z :=
  record Bridge_get_buckets ;; ret 0.

(** Modelled from the spec: the bridge's [listFiles(bucketId)], here
    [storj_bridge_list_files(env, bucket_id, cli_state, list_files_callback)]. *)
Definition storj_bridge_list_files (bucket : option string) : M Z :=
  record (Bridge_list_files bucket) ;; ret 0.

(** Modelled from the spec: the bridge's [storeFile], which returns the
    handle of the transfer it has started. *)
Definition storj_bridge_store_file (opts : storj_upload_opts_t) (progress : bool) : M nat :=
  h <- get handles ;;
  modify (with_handles (S h)) ;;
  record (Bridge_store_file h opts progress) ;;
  ret h.

(** Modelled from the spec: the bridge's [resolveFile]. *)
Definition storj_bridge_resolve_file (bucket file dest : option string) (progress : bool) : M nat :=
  h <- get handles ;;
  modify (with_handles (S h)) ;;
  record (Bridge_resolve_file h bucket file dest progress) ;;
  ret h.

(** Modelled from the spec: the bridge's [cancel(TransferHandle)],
    best-effort and idempotent. *)
Definition storj_bridge_store_file_cancel (h : nat) : M unit :=
  record (Bridge_store_file_cancel h).
Definition storj_bridge_resolve_file_cancel (h : nat) : M unit :=
  record (Bridge_resolve_file_cancel h).

(** [uv_signal_init] and [uv_signal_start(sig, handler, SIGINT)]: a new
    active watcher; the result is its position among the watchers. *)
Definition uv_signal_start (h : handler) : M nat :=
  n <- get (fun w => length (watchers w)) ;;
  modify (with_watchers (fun ws => ws ++ [Build_watcher h None])) ;;
  ret n.

(** [sig->data = state]. *)
Definition set_sig_data (sig : nat) (state : nat) : M unit :=
  modify (with_watchers (fun ws =>
    match ws !! sig with
    | Some x => <[sig := Build_watcher (w_handler x) (Some state)]> ws
    | None => ws
    end)).

Definition watcher_eqb (a b : watcher) : bool :=
  match w_handler a, w_handler b with
  | upload_handler, upload_handler | download_handler, download_handler =>
      match w_data a, w_data b with
      | Some x, Some y => Nat.eqb x y
      | None, None => true
      | _, _ => false
      end
  | _, _ => false
  end.

(** [uv_signal_stop(req)] followed by [uv_close]: the watcher is gone. *)
Definition uv_signal_stop (req : watcher) : M Z :=
  modify (with_watchers (List.filter (fun x => negb (watcher_eqb x req)))) ;; ret 0.

(** ** The functions of [cli.c] *)

Definition CLI_NO_SUCH_FILE_OR_DIR : Z := 0.
Definition CLI_VALID_REGULAR_FILE : Z := 1.
Definition CLI_VALID_DIR : Z := 2.
Definition CLI_UNKNOWN_FILE_ATTR : Z := 3.
Definition CLI_UPLOAD_FILE_LOG_ERR : Z := 4.

Definition special_name (k : special) : string :=
  match k with
  | IFBLK => "block device"
  | IFCHR => "character device"
  | IFIFO => "FIFO/pipe"
  | IFLNK => "symlink"
  | IFSOCK => "socket"
  | IFother => "unknown?"
  end.

Definition perror (s : string) (reason : string) : M unit :=
  eprintf (s +:+ ": " +:+ reason +:+ nl).

Definition check_file_path (file_path : string) : M Z :=
  sb <- stat file_path ;;
  match sb with
  | None => perror "stat" "No such file or directory" ;; ret CLI_NO_SUCH_FILE_OR_DIR
  | Some (Dir _ _) => ret CLI_VALID_DIR
  | Some (Reg _) => ret CLI_VALID_REGULAR_FILE
  | Some (Special k) => printf (special_name k +:+ nl) ;; ret CLI_UNKNOWN_FILE_ATTR
  end.

Fixpoint fput_lines (fd : string) (l : list string) : M unit :=
  match l with
  | [] => ret tt
  | p :: rest => fputs fd (p +:+ nl) ;; fput_lines fd rest
  end.

(** [printdir(dir, 0, fd)].  The recursion over [readdir], [lstat] and
    [realpath] is the walk the file system records for the directory; the
    function enters the directory and leaves it through [..]. *)
Definition printdir (dir : string) (fd : string) : M unit :=
  sb <- stat dir ;;
  match sb with
  | Some (Dir walk dotdot) => fput_lines fd walk ;; modify (with_cwd dotdot)
  | _ => eprintf ("cannot open directory: " +:+ dir +:+ nl)
  end.

Definition file_exists (file_path : string) : M Z :=
  sb <- stat file_path ;;
  match sb with
  | None => perror "stat" "No such file or directory" ;; ret CLI_NO_SUCH_FILE_OR_DIR
  | Some (Dir _ _) =>
      printf ("file_path = " +:+ file_path +:+ nl +:+ nl) ;;
      printf ("directory" +:+ nl) ;;
      out_fd <- fopen_w "output.txt" ;;
      match out_fd with
      | None => ret CLI_UPLOAD_FILE_LOG_ERR
      | Some fd => printdir file_path fd ;; ret CLI_VALID_DIR
      end
  | Some (Reg _) => ret CLI_VALID_REGULAR_FILE
  | Some (Special k) => printf (special_name k +:+ nl) ;; ret CLI_UNKNOWN_FILE_ATTR
  end.

Definition strpos (str sub_str : string) : Z :=
  match strstr str sub_str with
  | None => -1
  | Some pos => Z.of_nat pos
  end.

(** The result is the returned count and the entries the call has written
    into [str_token], which the callers have zeroed: entry [k] is
    [tokens !! k].  [entries] is the number of entries of the array the
    caller hands over: the loop also writes the [NULL] that ends the tokens,
    into entry [count]. *)
Definition validate_cmd_tokenize (entries : nat) (cmd_str : string) : M (Z * list string) :=
  let sub_str := "storj://" in
  let r := strpos cmd_str sub_str in
  when (r =? -1)
    (printf ("Invalid Command Entry (" +:+ show_int r +:+ "), " +:+ nl
             +:+ "try ... stroj://<bucket_name>/<file_name>" +:+ nl)) ;;
  if r =? 0 then
    let str_token := tokenize slash cmd_str in
    if (length str_token <? entries)%nat then ret (Z.of_nat (length str_token), str_token)
    else halt Undefined
  else ret (r, []).

(** The branch of the source for systems other than Windows. *)
Definition get_filename_separator (file_path : option string) : M (option string) :=
  match file_path with
  | None => halt Undefined
  | Some p =>
      let file_name := strrchr p slash in
      let file_name := match file_name with None => Some p | Some _ => file_name end in
      match file_name with
      | None => ret None
      | Some f =>
          ret (Some (match f with
                     | String a rest => if Ascii.eqb a slash then rest else f
                     | EmptyString => f
                     end))
      end
  end.

Definition upload_signal_handler (req : watcher) : M unit :=
  match w_data req with
  | None => halt Undefined
  | Some state =>
      storj_bridge_store_file_cancel state ;;
      r <- uv_signal_stop req ;;
      when (negb (r =? 0)) (printf ("Unable to stop signal" +:+ nl))
  end.

Definition download_signal_handler (req : watcher) : M unit :=
  match w_data req with
  | None => halt Undefined
  | Some state =>
      storj_bridge_resolve_file_cancel state ;;
      r <- uv_signal_stop req ;;
      when (negb (r =? 0)) (printf ("Unable to stop signal" +:+ nl))
  end.

(** The transfer executor for uploads.  The result is
    [state->error_status] of the transfer the bridge has just accepted. *)
Definition upload_file (bucket file_path_arg : option string) : M Z :=
  record (Enter_upload_file bucket file_path_arg) ;;
  fd <- fopen_r file_path_arg ;;
  when (match fd with None => true | Some _ => false end)
    (printf ("Invalid file path: " +:+ show_str file_path_arg +:+ nl)) ;;
  file_name <- get_filename_separator file_path_arg ;;
  let file_name := match file_name with None => file_path_arg | Some _ => file_name end in
  prepare_frame_limit <- getenv "STORJ_PREPARE_FRAME_LIMIT" ;;
  push_frame_limit <- getenv "STORJ_PUSH_FRAME_LIMIT" ;;
  push_shard_limit <- getenv "STORJ_PUSH_SHARD_LIMIT" ;;
  rs <- getenv "STORJ_REED_SOLOMON" ;;
  let upload_opts :=
    Build_upload_opts
      (match prepare_frame_limit with Some s => atoi s | None => 1 end)
      (match push_frame_limit with Some s => atoi s | None => 64 end)
      (match push_shard_limit with Some s => atoi s | None => 64 end)
      (match rs with
       | None => true
       | Some s => if String.eqb s "false" then false else true
       end)
      bucket
      file_name
      (match fd with Some _ => file_path_arg | None => None end) in
  sig <- uv_signal_start upload_handler ;;
  level <- get log_level ;;
  state <- storj_bridge_store_file upload_opts (level =? 0) ;;
  set_sig_data sig state ;;
  ret 0.

(** The loop that asks until the answer is [y] or [n].  Every round reads
    a character at least until the input ends; from then on [get_input]
    keeps returning the empty string, so the loop never ends: that is the
    case in which the rounds run out. *)
Fixpoint overwrite_loop (rounds : nat) (path user_input : string) : M string :=
  if (negb (String.eqb user_input "y") && negb (String.eqb user_input "n"))%bool then
    match rounds with
    | O => halt Hang
    | S rounds' =>
        printf ("Would you like to overwrite [" +:+ path +:+ "]: [y/n] ") ;;
        user_input' <- get_input ;;
        overwrite_loop rounds' path user_input'
    end
  else ret user_input.

(** The transfer executor for downloads. *)
Definition download_file (bucket file path : option string) : M Z :=
  record (Enter_download_file bucket file path) ;;
  opened <-
    match path with
    | Some p =>
        present <- access p ;;
        declined <-
          (if present then
             printf ("Warning: File already exists at path [" +:+ p +:+ "]." +:+ nl) ;;
             n <- get (fun w => input_chars (stdin w)) ;;
             user_input <- overwrite_loop (S n) p "" ;;
             if String.eqb user_input "n" then
               printf (nl +:+ "Canceled overwriting of [" +:+ p +:+ "]." +:+ nl) ;;
               ret true
             else unlink p ;; ret false
           else ret false) ;;
        if declined then ret (inl 1)
        else fd <- fopen_w p ;; ret (inr (Some <$> fd))
    | None => ret (inr (Some None))
    end ;;
  match opened with
  | inl status => ret status
  | inr None =>
      printf ("Unable to open " +:+ show_str path +:+ ": Is a directory" +:+ nl) ;;
      ret 1
  | inr (Some fd) =>
      sig <- uv_signal_start download_handler ;;
      level <- get log_level ;;
      let progress :=
        (match path with Some _ => true | None => false end && (level =? 0))%bool in
      state <- storj_bridge_resolve_file bucket file fd progress ;;
      set_sig_data sig state ;;
      ret 0
  end.

(** [token[k]] of a zeroed token array after tokenizing. *)
Definition token (tokens : list string) (k : nat) : option string := tokens !! k.

(** The [fgets] loop of the download branch of [queue_next_cli_cmd]:
    [temp] is the last line read, without its newline, [i] the number of
    lines read; the loop stops once [i] has reached the cursor.  Nothing is
    returned when a line is read past the end of [line]. *)
Fixpoint read_download_list (file : list string) (i curr : Z) (temp : option string)
  : option (option string * Z) :=
  match file with
  | [] => Some (temp, i)
  | line :: rest =>
      if fits i line then
        let temp := Some (cut_last line newline) in
        let i := i + 1 in
        if i >=? curr then Some (temp, i) else read_download_list rest i curr temp
      else None
  end.

(** The line at the cursor, cut into tokens at [:] in [char *token[10]];
    nothing when the behaviour is undefined: a line was read past the end
    of [line], or no line could be read and [temp] is left uninitialised, or
    the tokens and the [NULL] that ends them are more than ten. *)
Definition read_item (file : list string) (curr : Z) : option (list string) :=
  match read_download_list file 0 curr None with
  | Some (Some temp, _) =>
      let tokens := tokenize colon temp in
      if (length tokens <? 10)%nat then Some tokens else None
  | _ => None
  end.

(** The [fgets] loop of the upload branch: it also stores every line read
    in [cli_state->file_path] and prints it; a line read past the end of
    [line] is undefined. *)
Fixpoint read_upload_list (file : list string) (i : Z) (last : option string)
  : M (option string * Z) :=
  match file with
  | [] => ret (last, i)
  | line :: rest =>
      if fits i line then
        let last := Some (cut_last line newline) in
        set_cli (set_file_path last) ;;
        let i := i + 1 in
        printf ("[queue_next_cli_cmd][2438] [index = " +:+ show_int i
                +:+ "] target file name = " +:+ show_str last +:+ nl) ;;
        cs <- get cli ;;
        if i >=? curr_up_file cs then ret (last, i) else read_upload_list rest i last
      else halt Undefined
  end.

(** The queue manager. *)
Definition queue_next_cli_cmd : M unit :=
  cs <- get cli ;;
  download <-
    andM (orM (strcmp0 (Some "list-files") (curr_cmd_req cs))
              (strcmp0 (Some "download-file") (curr_cmd_req cs)))
         (orM (strcmp0 (Some "list-files-1") (next_cmd_req cs))
              (strcmp0 (Some "download-file-1") (next_cmd_req cs))) ;;
  if download then
    listing <- strcmp0 (Some "list-files-1") (next_cmd_req cs) ;;
    when listing (storj_bridge_list_files (bucket_id cs) ;; ret tt) ;;
    cs <- get cli ;;
    downloading <- strcmp0 (Some "download-file-1") (next_cmd_req cs) ;;
    when downloading
      (file <- fopen_r (Some "dwnld_list.txt") ;;
       match file with
       | Some lines =>
           tokens <- match read_item lines (curr_up_file cs) with
                     | Some tokens => ret tokens
                     | None => halt Undefined
                     end ;;
           if curr_up_file cs <=? total_files cs then
             set_cli (set_file_id (token tokens 0)) ;;
             temp_path <- match file_path cs, token tokens 1 with
                          | Some dir, Some name =>
                              if Z.of_nat (String.length (dir +:+ name)) <? 1024
                              then ret (dir +:+ name)
                              else halt Undefined
                          | _, _ => halt Undefined
                          end ;;
             printf ("*****[" +:+ show_int (curr_up_file cs) +:+ ":"
                     +:+ show_int (total_files cs) +:+ "] downloading file: "
                     +:+ temp_path +:+ " *****" +:+ nl) ;;
             set_cli (set_curr_up_file (wrap_int (curr_up_file cs + 1))) ;;
             download_file (bucket_id cs) (token tokens 0) (Some temp_path) ;;
             ret tt
           else
             printf ("***** done downloading files  *****" +:+ nl) ;;
             exit 0
       | None =>
           download_file (bucket_id cs) (file_id cs) (file_path cs) ;; ret tt
       end)
  else
    upload <- andM (strcmp0 (Some "upload-file") (curr_cmd_req cs))
                   (strcmp0 (Some "upload-file-1") (next_cmd_req cs)) ;;
    when upload
      (file <- fopen_r (file_name cs) ;;
       match file with
       | Some lines =>
           r <- read_upload_list lines 0 None ;;
           let '(last, i) := r in
           cs <- get cli ;;
           if curr_up_file cs <=? total_files cs then
             shown <- match last with
                      | Some l => ret l
                      | None => halt Undefined
                      end ;;
             printf ("*****uploading file: " +:+ shown +:+ " *****" +:+ nl) ;;
             upload_file (bucket_id cs) (file_path cs) ;;
             set_cli (fun c => set_curr_up_file (wrap_int (curr_up_file c + 1)) c)
           else
             printf ("***** done uploading files  *****" +:+ nl) ;;
             exit 0
       | None =>
           upload_file (bucket_id cs) (file_path cs) ;; ret tt
       end).

Section Callbacks.

(** Of the bridge's header: the text of a status code and the code of a
    decryption failure. *)
Variable storj_strerror : Z -> string.
Variable STORJ_FILE_DECRYPTION_ERROR : Z.

(** The completion callback of an upload; [file] is [NULL] or the bridge's
    record of the uploaded file. *)
Definition upload_file_complete (status : Z) (file : option storj_file_meta_t) : M unit :=
  printf nl ;;
  when (negb (status =? 0))
    (printf ("Upload failure: " +:+ storj_strerror status +:+ nl)) ;;
  id <- match file with
        | Some f => ret (f_id f)
        | None => halt Undefined
        end ;;
  printf ("Upload Success! File ID: " +:+ id +:+ nl) ;;
  cs <- get cli ;;
  if ((total_files cs =? 0) && (curr_up_file cs =? 0))%bool then exit 0
  else queue_next_cli_cmd.

(** The completion callback of a download. *)
Definition download_file_complete (status : Z) : M unit :=
  printf nl ;;
  (if negb (status =? 0) then
     if status =? STORJ_FILE_DECRYPTION_ERROR then
       printf ("Unable to properly decrypt file, please check "
               +:+ "that the correct encryption key was "
               +:+ "imported correctly." +:+ nl +:+ nl)
     else printf ("Download failure: " +:+ storj_strerror status +:+ nl)
   else printf ("Download Success!" +:+ nl)) ;;
  cs <- get cli ;;
  if total_files cs =? 0 then exit 0
  else queue_next_cli_cmd.

(** The body of the loop of [list_files_callback] for one file;
    [dwnld_list_fd] is [None] for [stdout]. *)
Definition list_files_step (dwnld_list_fd : option string) (file : storj_file_meta_t) : M unit :=
  cs <- get cli ;;
  listing <- strcmp0 (curr_cmd_req cs) (Some "list-files") ;;
  when listing
    (printf ("ID: " +:+ f_id file +:+ " " +:+ tab +:+ "Size: " +:+ show_int (f_size file)
             +:+ " bytes " +:+ tab +:+ "Decrypted: "
             +:+ (if f_decrypted file then "true" else "false")
             +:+ " " +:+ tab +:+ "Type: " +:+ f_mimetype file
             +:+ " " +:+ tab +:+ "Created: " +:+ f_created file
             +:+ " " +:+ tab +:+ "Name: " +:+ f_filename file +:+ nl)) ;;
  match dwnld_list_fd with
  | Some fd => fputs fd (f_id file +:+ ":" +:+ f_filename file +:+ nl)
  | None => ret tt
  end ;;
  match file_name cs with
  | Some name =>
      when (String.eqb name (f_filename file))
        (match dwnld_list_fd with
         | Some _ =>
             kind <- check_file_path "dwnld_list.txt" ;;
             when (kind =? CLI_VALID_REGULAR_FILE)
               (removed <- remove "dwnld_list.txt" ;;
                when removed (printf ("dwnld_list.txt file deleted " +:+ nl)))
         | None => ret tt
         end ;;
         set_cli (set_file_id (Some (f_id file))) ;;
         set_cli (set_next_cmd_req (Some "download-file-1")) ;;
         set_cli (set_total_files 0))
  | None => ret tt
  end.

Fixpoint list_files_loop (dwnld_list_fd : option string) (l : list storj_file_meta_t) : M unit :=
  match l with
  | [] => ret tt
  | file :: rest => list_files_step dwnld_list_fd file ;; list_files_loop dwnld_list_fd rest
  end.

Definition list_files_callback (req : list_files_request_t) (status : Z) : M unit :=
  when (negb (status =? 0)) (halt Undefined) ;;
  if lf_status_code req =? 404 then
    printf ("Bucket id [" +:+ lf_bucket_id req +:+ "] does not exist" +:+ nl)
  else if lf_status_code req =? 400 then
    printf ("Bucket id [" +:+ lf_bucket_id req +:+ "] is invalid" +:+ nl)
  else if lf_status_code req =? 401 then
    printf ("Invalid user credentials." +:+ nl)
  else
    when (negb (lf_status_code req =? 200))
      (printf ("Request failed with status code: " +:+ show_int (lf_status_code req) +:+ nl)) ;;
    when (req_total_files req =? 0) (printf ("No files for bucket." +:+ nl)) ;;
    set_cli (set_file_id None) ;;
    cs <- get cli ;;
    opened <-
      (if match file_name cs with Some name => String.eqb name "*" | None => false end then
         fd <- fopen_w "dwnld_list.txt" ;;
         match fd with
         | None =>
             printf ("[list_files_callback][1124] Unable to create download list file " +:+ nl) ;;
             ret None
         | Some p =>
             set_cli (set_total_files (wrap_int (req_total_files req))) ;;
             ret (Some (Some p))
         end
       else ret (Some None)) ;;
    match opened with
    | None => ret tt
    | Some dwnld_list_fd =>
        list_files_loop dwnld_list_fd (files req) ;;
        cs <- get cli ;;
        downloading <- strcmp0 (curr_cmd_req cs) (Some "download-file") ;;
        if downloading then
          set_cli (set_curr_up_file 1) ;;
          set_cli (set_next_cmd_req (Some "download-file-1")) ;;
          queue_next_cli_cmd
        else
          kind <- check_file_path "dwnld_list.txt" ;;
          when (kind =? CLI_VALID_REGULAR_FILE)
            (removed <- remove "dwnld_list.txt" ;;
             when removed (printf ("file deleted " +:+ nl +:+ nl)))
    end.

Definition show_bucket (bucket : storj_bucket_meta_t) : string :=
  "ID: " +:+ b_id bucket +:+ " " +:+ tab +:+ "Decrypted: "
  +:+ (if b_decrypted bucket then "true" else "false")
  +:+ " " +:+ tab +:+ "Created: " +:+ b_created bucket
  +:+ " " +:+ tab +:+ "Name: " +:+ b_name bucket +:+ nl.

(** The loop of [get_bucket_id_callback] from index [i] on; the result is
    [ret_status] when the loop is left. *)
Fixpoint get_bucket_id_loop (l : list storj_bucket_meta_t) (i total : Z) : M Z :=
  match l with
  | [] => ret 0
  | bucket :: rest =>
      set_cli (set_next_cmd_req None) ;;
      cs <- get cli ;;
      match bucket_name cs with
      | Some name =>
          if String.eqb name (b_name bucket) then
            printf (show_bucket bucket) ;;
            set_cli (set_bucket_id (Some (b_id bucket))) ;;
            c1 <- strcmp0 (curr_cmd_req cs) (Some "list-files") ;;
            if c1 then set_cli (set_next_cmd_req (Some "list-files-1")) ;; ret 1
            else
              c2 <- strcmp0 (curr_cmd_req cs) (Some "download-file") ;;
              if c2 then set_cli (set_next_cmd_req (Some "list-files-1")) ;; ret 1
              else
                c3 <- strcmp0 (curr_cmd_req cs) (Some "upload-file") ;;
                if c3 then set_cli (set_next_cmd_req (Some "upload-file-1")) ;; ret 1
                else
                  c4 <- strcmp0 (curr_cmd_req cs) (Some "get-bucket-id") ;;
                  if c4 then ret 0
                  else
                    printf ("[get_bucket_id_callback][1315]Invalid curr cmd req = "
                            +:+ show_str (curr_cmd_req cs) +:+ nl) ;;
                    ret 0
          else
            when (i >=? total - 1) (printf ("Invalid bucket name. " +:+ nl)) ;;
            get_bucket_id_loop rest (i + 1) total
      | None =>
          printf (show_bucket bucket) ;;
          get_bucket_id_loop rest (i + 1) total
      end
  end.

(** The bucket resolver. *)
Definition get_bucket_id_callback (req : get_buckets_request_t) (status : Z) : M unit :=
  when (negb (status =? 0)) (halt Undefined) ;;
  (if gb_status_code req =? 401 then printf ("Invalid user credentials." +:+ nl)
   else if (negb (gb_status_code req =? 200) && negb (gb_status_code req =? 304))%bool then
     printf ("Request failed with status code: " +:+ show_int (gb_status_code req) +:+ nl)
   else when (total_buckets req =? 0) (printf ("No buckets." +:+ nl))) ;;
  ret_status <- get_bucket_id_loop (buckets req) 0 (total_buckets req) ;;
  when (ret_status =? 1) queue_next_cli_cmd.

(** [for (j = ...; j < num_of_tokens; j++) printf("... token[%d] = %s\n", j, token[j])]
    over an array of [entries] entries; [count] rounds are left. *)
Fixpoint print_tokens (entries : nat) (prefix : string) (tokens : list string)
    (j : nat) (count : nat) : M unit :=
  match count with
  | O => ret tt
  | S count' =>
      if (j <? entries)%nat then
        printf (prefix +:+ "token[" +:+ show_int (Z.of_nat j) +:+ "] = "
                +:+ show_str (token tokens j) +:+ nl) ;;
        print_tokens entries prefix tokens (S j) count'
      else halt Undefined
  end.

Definition is_null {A} (p : option A) : bool :=
  match p with None => true | Some _ => false end.

(** [cli_upload_file].  For a directory, [strcat] appends to the string the
    environment holds for [PWD], which reads back with the suffix from then
    on; what lies behind that string in the environment block is not part
    of the model.  [getenv] sets no [errno], and [perror] after it is taken
    to print the text of no error. *)
Definition cli_upload_file (path : string) (bucket_name_arg : string) : M Z :=
  file_exist_status <- file_exists path ;;
  if ((file_exist_status =? CLI_UNKNOWN_FILE_ATTR)
      || (file_exist_status =? CLI_NO_SUCH_FILE_OR_DIR))%bool then
    printf ("[cli_upload_file][2479] file path = " +:+ path +:+ nl) ;;
    printf ("Invalid filename " +:+ nl) ;;
    ret 0
  else if file_exist_status =? CLI_VALID_REGULAR_FILE then
    file_name <- get_filename_separator (Some path) ;;
    r <- validate_cmd_tokenize 10 bucket_name_arg ;;
    let '(num_of_tokens, tokens) := r in
    set_cli (set_total_files 0) ;;
    set_cli (set_curr_up_file 0) ;;
    if num_of_tokens =? 3 then
      same <- orM (strcmp0 file_name (token tokens 2))
                  (strcmp0 (token tokens 2) (Some ".")) ;;
      if same then
        set_cli (set_curr_cmd_req (Some "upload-file")) ;;
        set_cli (set_bucket_name (token tokens 1)) ;;
        set_cli (set_file_path (Some path)) ;;
        cs <- get cli ;;
        when (is_null (bucket_id cs)) (storj_bridge_get_buckets ;; ret tt) ;;
        ret 0
      else
        printf "Invalid upload target filename - " ;;
        printf ("Use same filename as source or '.' or blank " +:+ nl) ;;
        ret (-1)
    else if num_of_tokens =? 2 then
      when (is_null (token tokens 2))
        (set_cli (set_curr_cmd_req (Some "upload-file")) ;;
         set_cli (set_bucket_name (token tokens 1)) ;;
         set_cli (set_file_path (Some path)) ;;
         printf ("[2518] target file name = " +:+ show_str file_name +:+ nl) ;;
         cs <- get cli ;;
         when (is_null (bucket_id cs)) (storj_bridge_get_buckets ;; ret tt)) ;;
      ret 0
    else
      printf ("[cli_upload_file] Invalid command ... token[2]="
              +:+ show_str (token tokens 2) +:+ " " +:+ nl) ;;
      ret (-1)
  else if file_exist_status =? CLI_VALID_DIR then
    pwd <- getenv "PWD" ;;
    match pwd with
    | None => perror "getenv() error" "Success" ;; ret (-1)
    | Some dir =>
        printf ("Current working dir: " +:+ dir +:+ nl) ;;
        let upload_list := dir +:+ "/output.txt" in
        modify (with_environ (insert "PWD" upload_list)) ;;
        printf ("Current working dir: " +:+ upload_list +:+ nl) ;;
        kind <- file_exists upload_list ;;
        when (kind =? CLI_VALID_REGULAR_FILE)
          (printf ("KSA:[cli_upload_file][2542] Upload file list exists " +:+ nl)) ;;
        printf ("KSA[cli_upload_file][2551] upload file : " +:+ upload_list +:+ nl) ;;
        kind <- file_exists upload_list ;;
        when (kind =? CLI_VALID_REGULAR_FILE)
          (file <- fopen_r (Some upload_list) ;;
           match file with
           | Some lines =>
               set_cli (set_file_name (Some upload_list)) ;;
               printf ("KSA[cli_upload_file][2564] upload file : " +:+ upload_list +:+ nl) ;;
               printf ("[cli_upload_file][2565] upload file name = " +:+ upload_list +:+ nl) ;;
               when (negb (rows_fit 0 lines)) (halt Undefined) ;;
               let i := Z.of_nat (length lines) in
               set_cli (set_total_files i) ;;
               set_cli (set_curr_up_file (if i >? 0 then 1 else 0)) ;;
               cs <- get cli ;;
               printf ("[cli_upload_file][2580] total upload files = "
                       +:+ show_int (total_files cs) +:+ nl) ;;
               printf ("[cli_upload_file][2581] upload cur up file# = "
                       +:+ show_int (curr_up_file cs) +:+ nl)
           | None => perror upload_list "No such file or directory"
           end) ;;
        r <- validate_cmd_tokenize 10 bucket_name_arg ;;
        let '(num_of_tokens, tokens) := r in
        printf ("KSA:[cli_upload_file] num of tokens = " +:+ show_int num_of_tokens
                +:+ " " +:+ nl) ;;
        print_tokens 10 "KSA:[cli_upload_file] " tokens 0 (Z.to_nat num_of_tokens) ;;
        set_cli (set_curr_cmd_req (Some "upload-file")) ;;
        set_cli (set_bucket_name (token tokens 1)) ;;
        cs <- get cli ;;
        printf ("[cli_upload_file][2600] bucket id = " +:+ show_str (bucket_id cs) +:+ nl) ;;
        when (is_null (bucket_id cs)) (storj_bridge_get_buckets ;; ret tt) ;;
        ret 0
    end
  else ret 0.

Definition cli_download_file (path : option string) (bucket_name_arg : string) : M Z :=
  r <- validate_cmd_tokenize 10 bucket_name_arg ;;
  let '(num_of_tokens, tokens) := r in
  set_cli (set_curr_cmd_req (Some "download-file")) ;;
  set_cli (set_bucket_name (token tokens 1)) ;;
  set_cli (set_file_name (token tokens 2)) ;;
  set_cli (set_file_path path) ;;
  cs <- get cli ;;
  match bucket_name cs, file_name cs, file_path cs with
  | Some _, Some name, Some dest =>
      if String.eqb name "*" then
        kind <- check_file_path dest ;;
        if kind =? CLI_VALID_DIR then storj_bridge_get_buckets
        else
          printf ("storj;// cp target '" +:+ dest +:+ "' is not a directory" +:+ nl) ;;
          ret (-1)
      else storj_bridge_get_buckets
  | _, _, _ =>
      printf ("Missing arguments: storj cp [-rR] storj://<bucket-name>/<file-name> "
              +:+ "<local_download_path>" +:+ nl) ;;
      ret (-1)
  end.

(** [storj_api_t], the fields [main] sets before it calls the upload of
    one file. *)
Record storj_api_t := Build_storj_api {
  api_bucket_name : option string;
  api_file_name : option string;
  api_dst_file : option string
}.

(** The block of [main] for [cp] of one regular file to a [storj://]
    destination, entered when [argc == 5] and the source is a regular file.
    The result is the object handed to [storj_upload_file], or [None] when
    the block leaves for [end_program].  The buffer [src_list] the name is
    copied into is declared in the header of the bridge; the name is taken to
    fit it. *)
Definition main_cp_single_file (local_file_path bucket_name_arg : string)
  : M (option storj_api_t) :=
  r <- validate_cmd_tokenize 3 bucket_name_arg ;;
  let '(num_of_tokens, tokens) := r in
  if ((num_of_tokens =? 2) || (num_of_tokens =? 3))%bool then
    print_tokens 3 ("num of tokes = " +:+ show_int num_of_tokens +:+ "; ") tokens 0
      (Z.to_nat num_of_tokens) ;;
    dst_file_name <- get_filename_separator (Some local_file_path) ;;
    same <- orM (ret (is_null (token tokens 2)))
              (orM (strcmp0 dst_file_name (token tokens 2))
                   (strcmp0 (token tokens 2) (Some "."))) ;;
    dst_file <-
      (if same then
         name <- match dst_file_name with Some n => ret n | None => halt Undefined end ;;
         printf ("file uploaded as same " +:+ name +:+ " " +:+ nl) ;;
         ret (Some name)
       else
         printf ("file uploaded as " +:+ show_str (token tokens 2) +:+ nl) ;;
         ret (token tokens 2)) ;;
    printf ("******* EXECUTE UPLOAD CMD HERE " +:+ nl) ;;
    ret (Some (Build_storj_api (token tokens 1) (Some local_file_path) dst_file))
  else
    printf ("[main][2045] Valid dst filename missing !!!!!" +:+ nl) ;;
    ret None.

(** ** The event loop *)

(** What the loop delivers: the completion of a bridge request with what
    the bridge hands to the callback, or SIGINT. *)
Inductive event :=
| get_buckets_done (req : get_buckets_request_t) (status : Z)
| list_files_done (req : list_files_request_t) (status : Z)
| store_file_done (status : Z) (file : option storj_file_meta_t)
| resolve_file_done (status : Z)
| sigint.

Fixpoint run_handlers (ws : list watcher) : M unit :=
  match ws with
  | [] => ret tt
  | req :: rest =>
      match w_handler req with
      | upload_handler => upload_signal_handler req
      | download_handler => download_signal_handler req
      end ;;
      run_handlers rest
  end.

Definition deliver (e : event) : M unit :=
  match e with
  | get_buckets_done req status => get_bucket_id_callback req status
  | list_files_done req status => list_files_callback req status
  | store_file_done status file => upload_file_complete status file
  | resolve_file_done status => download_file_complete status
  | sigint =>
      ws <- get watchers ;;
      match ws with
      | [] => halt Killed
      | _ => run_handlers ws
      end
  end.

(** [uv_run(env->loop, UV_RUN_DEFAULT)] on the events that arrive. *)
Fixpoint uv_run (events : list event) : M unit :=
  match events with
  | [] => ret tt
  | e :: rest => deliver e ;; uv_run rest
  end.

(** The exit status of the process after a run that has delivered every
    callback owed: the argument of [exit], or the [status] of [main], still
    0, when [uv_run] returns because nothing is active any more; a process
    with an active watcher keeps waiting. *)
Definition exit_status (r : outcome unit * world) : option Z :=
  match r with
  | (Stop (Exit status), _) => Some status
  | (Val _, w) => match watchers w with [] => Some 0 | _ => None end
  | (Stop _, _) => None
  end.

End Callbacks.

(** ** Notions of the specification *)

(** The character does not occur in the string. *)
Fixpoint lacks (c : ascii) (s : string) : bool :=
  match s with
  | EmptyString => true
  | String a rest => negb (Ascii.eqb a c) && lacks c rest
  end.

(** The basename of a path: what follows its last [/], the whole path when
    it has none. *)
Fixpoint basename (path : string) : string :=
  match path with
  | EmptyString => EmptyString
  | String a rest =>
      if lacks slash rest then (if Ascii.eqb a slash then rest else path)
      else basename rest
  end.

(** A work item of a download list, and the line that stands for it. *)
Definition item_line (file : storj_file_meta_t) : string :=
  f_id file +:+ ":" +:+ f_filename file +:+ nl.

Fixpoint list_text (l : list storj_file_meta_t) : string :=
  match l with
  | [] => EmptyString
  | file :: rest => item_line file +:+ list_text rest
  end.

(** An identifier or a name the list format can carry: not empty, without
    [:] and without a newline. *)
Definition plain (s : string) : bool :=
  negb (String.eqb s "") && lacks colon s && lacks newline s.

(** An item the list can carry: identifier and name are plain, the name is
    not the wildcard, and the line fits a row of [line] with the zero that
    ends it. *)
Definition plain_item (file : storj_file_meta_t) : bool :=
  plain (f_id file) && plain (f_filename file) && negb (String.eqb (f_filename file) "*")
  && (Z.of_nat (String.length (item_line file)) <? line_row).

(** The stage that follows the resolution of the bucket, by command. *)
Definition next_stage (command : string) : option string :=
  if String.eqb command "list-files" then Some "list-files-1"
  else if String.eqb command "download-file" then Some "list-files-1"
  else if String.eqb command "upload-file" then Some "upload-file-1"
  else None.





(** ** Worlds after a step *)

(** The options [upload_file] builds in a world. *)
Definition env_opts (w : world) (bucket : option string) (p : string) : storj_upload_opts_t :=
  Build_upload_opts
    (match environ w !! "STORJ_PREPARE_FRAME_LIMIT" with Some s => atoi s | None => 1 end)
    (match environ w !! "STORJ_PUSH_FRAME_LIMIT" with Some s => atoi s | None => 64 end)
    (match environ w !! "STORJ_PUSH_SHARD_LIMIT" with Some s => atoi s | None => 64 end)
    (match environ w !! "STORJ_REED_SOLOMON" with
     | None => true
     | Some s => if String.eqb s "false" then false else true
     end)
    bucket (Some (basename p))
    (match fs w !! abspath (cwd w) p with Some _ => Some p | None => None end).

(** The world [upload_file] leaves: a transfer handed to the bridge and a
    watcher that points to it. *)
Definition after_upload_file (bucket : option string) (p : string) (w : world) : world :=
  with_watchers (fun ws => ws ++ [Build_watcher upload_handler (Some (handles w))])
    (with_handles (S (handles w))
      (with_trace
         (fun t => t ++ [Enter_upload_file bucket (Some p);
                         Bridge_store_file (handles w) (env_opts w bucket p)
                           (log_level w =? 0)])
         (with_stdout
            (fun o => o ++ match fs w !! abspath (cwd w) p with
                           | Some _ => []
                           | None => ["Invalid file path: " +:+ p +:+ nl]
                           end) w))).

(** The world [download_file] leaves when the destination is new. *)
Definition after_download_file (bucket file : option string) (p : string) (w : world) : world :=
  with_watchers (fun ws => ws ++ [Build_watcher download_handler (Some (handles w))])
    (with_handles (S (handles w))
      (with_trace
         (fun t => t ++ [Enter_download_file bucket file (Some p);
                         Bridge_resolve_file (handles w) bucket file
                           (Some (abspath (cwd w) p)) (log_level w =? 0)])
         (with_fs (insert (abspath (cwd w) p) (Reg "")) w))).

(** A world to start from: nothing on disk, nothing typed, the object of
    [main] zeroed. *)
Definition world0 : world :=
  Build_world cli_state_zero ∅ "/home/u" ∅ [] [] [] 0 [] [] 0.

(** ** Stepping through computations *)

Ltac unfold_m :=
  unfold bind, ret, get, modify, when, halt, exit, printf, eprintf, perror, record,
    set_cli, strcmp0, orM, andM, is_null, token.

Ltac run_step :=
  cbn -[lookup insert delete abspath String.append String.eqb show_int show_str atoi
        wrap_int split_lines fgets_from fits rows_fit tokenize cut_last strrchr Z.add Z.sub Z.leb Z.geb Z.gtb Z.eqb
        Z.of_nat Z.to_nat Nat.ltb length basename get_filename_separator upload_file download_file
        queue_next_cli_cmd read_upload_list read_download_list read_item
        list_files_loop get_bucket_id_loop validate_cmd_tokenize run_handlers
        overwrite_loop print_tokens get_bucket_id_callback list_files_callback
        upload_file_complete download_file_complete deliver uv_run].

(** Comparisons of two constants are computed. *)
Ltac decide_closed t :=
  let v := eval vm_compute in t in
  match v with
  | true => change t with true
  | false => change t with false
  end.

Ltac eqb_closed :=
  repeat match goal with
         | |- context [String.eqb ?a ?b] => decide_closed (String.eqb a b)
         | |- context [Z.eqb ?a ?b] => decide_closed (Z.eqb a b)
         | |- context [Z.leb ?a ?b] => decide_closed (Z.leb a b)
         | |- context [Z.geb ?a ?b] => decide_closed (Z.geb a b)
         | |- context [Z.gtb ?a ?b] => decide_closed (Z.gtb a b)
         | |- context [Nat.ltb ?a ?b] => decide_closed (Nat.ltb a b)
         end.

(** So are the entries of a token array whose length is known. *)
Ltac lookup_closed :=
  repeat match goal with
         | |- context [@lookup nat ?A (list ?A) ?i ?n ?l] =>
             let v := eval cbv [lookup list_lookup] in (@lookup nat A (list A) i n l) in
             match v with
             | Some _ => change (@lookup nat A (list A) i n l) with v
             | None => change (@lookup nat A (list A) i n l) with v
             end
         end.

Ltac run := run_step; repeat (progress (eqb_closed; lookup_closed); run_step).

Ltac unfold_world :=
  unfold with_cli, with_fs, with_cwd, with_environ, with_stdin, with_stdout, with_stderr,
    with_trace, with_watchers, with_handles.

(** The line the queue manager prints when it starts a download. *)
Definition downloading_msg (k total : Z) (path : string) : string :=
  "*****[" +:+ show_int k +:+ ":" +:+ show_int total +:+ "] downloading file: "
  +:+ path +:+ " *****" +:+ nl.

(** What the completion callbacks and the file listing print. *)
Definition upload_report (strerror : Z -> string) (status : Z) (id : string) : list string :=
  [nl] ++ (if negb (status =? 0) then ["Upload failure: " +:+ strerror status +:+ nl] else [])
  ++ ["Upload Success! File ID: " +:+ id +:+ nl].


Definition no_files_report (req : list_files_request_t) : list string :=
  if req_total_files req =? 0 then ["No files for bucket." +:+ nl] else [].

(** ** Batches in progress *)

(** An upload batch: the queue manager walks the list file [lst], whose
    text is [content], one line per item; the lines have been counted, so
    they fit [line]. *)
Definition upload_batch (lst content : string) (v : world) : Prop :=
  curr_cmd_req (cli v) = Some "upload-file" /\
  next_cmd_req (cli v) = Some "upload-file-1" /\
  file_name (cli v) = Some lst /\
  fs v !! abspath (cwd v) lst = Some (Reg content) /\
  total_files (cli v) = Z.of_nat (length (split_lines content)) /\
  rows_fit 0 (split_lines content) = true.

(** The path of a downloaded file fits [char temp_path[1024]]. *)
Definition fits_path (dir : string) (file : storj_file_meta_t) : bool :=
  Z.of_nat (String.length (dir +:+ f_filename file)) <? 1024.

(** Items the list file and the buffers of the queue manager can carry. *)
Definition listable (dir : string) (items : list storj_file_meta_t) : Prop :=
  forallb plain_item items = true /\
  forallb (fits_path dir) items = true /\
  Z.of_nat (length items) <= line_row.

(** A download batch into the directory prefix [dir]: the list file holds
    the lines of [items]. *)
Definition download_batch (items : list storj_file_meta_t) (dir : string) (v : world) : Prop :=
  curr_cmd_req (cli v) = Some "download-file" /\
  next_cmd_req (cli v) = Some "download-file-1" /\
  file_path (cli v) = Some dir /\
  fs v !! abspath (cwd v) "dwnld_list.txt" = Some (Reg (list_text items)) /\
  total_files (cli v) = Z.of_nat (length items) /\
  listable dir items.

(** The item of an upload list at a position counted from 0. *)
Definition upload_item (content : string) (k : nat) : string :=
  cut_last (nth k (split_lines content) "") newline.


(** A line whose tokens and the [NULL] that ends them fit [token[10]]. *)
Definition few_tokens (temp : string) : Prop :=
  (length (tokenize colon temp) <? 10)%nat = true.



(** Linear arithmetic after the boolean comparisons have been turned into
    propositions. *)
Ltac blia :=
  repeat match goal with
         | H : (_ <=? _) = true |- _ => apply Z.leb_le in H
         | H : (_ <=? _) = false |- _ => apply Z.leb_gt in H
         | H : (_ >=? _) = true |- _ => rewrite Z.geb_leb in H; apply Z.leb_le in H
         | H : (_ >=? _) = false |- _ => rewrite Z.geb_leb in H; apply Z.leb_gt in H
         | H : (_ =? _) = true |- _ => apply Z.eqb_eq in H
         | H : (_ =? _) = false |- _ => apply Z.eqb_neq in H
         | |- (_ =? _) = false => apply Z.eqb_neq
         | |- (_ =? _) = true => apply Z.eqb_eq
         | |- (_ <=? _) = true => apply Z.leb_le
         | |- (_ <=? _) = false => apply Z.leb_gt
         end;
  lia.

(** ** Worlds after the bucket resolver *)

(** After a scan that found no bucket of the name, and after the first
    bucket of the name was found. *)
Definition no_match_world (l : list storj_bucket_meta_t) (w : world) : world :=
  match l with
  | [] => w
  | _ => with_stdout (fun o => o ++ ["Invalid bucket name. " +:+ nl])
           (with_cli (set_next_cmd_req None) w)
  end.

Definition resolved_world (b : storj_bucket_meta_t) (next : string) (w : world) : world :=
  with_cli (set_next_cmd_req (Some next))
    (with_cli (set_bucket_id (Some (b_id b)))
       (with_stdout (fun o => o ++ [show_bucket b]) w)).

(** What the bucket resolver prints about the answer of the bridge. *)
Definition buckets_report (req : get_buckets_request_t) : list string :=
  if gb_status_code req =? 401 then ["Invalid user credentials." +:+ nl]
  else if (negb (gb_status_code req =? 200) && negb (gb_status_code req =? 304))%bool then
    ["Request failed with status code: " +:+ show_int (gb_status_code req) +:+ nl]
  else if total_buckets req =? 0 then ["No buckets." +:+ nl]
  else [].

(** ** Whole batches *)

(** The items of an upload list, and what a run of the queue manager over
    items hands to the executor and to the bridge, the first transfer
    getting the handle [h]. *)
Definition upload_items (content : string) : list string :=
  map (fun line => cut_last line newline) (split_lines content).

Fixpoint upload_calls (bucket : option string) (opts : string -> storj_upload_opts_t)
    (progress : bool) (h : nat) (items : list string) : list call :=
  match items with
  | [] => []
  | p :: rest =>
      Enter_upload_file bucket (Some p) :: Bridge_store_file h (opts p) progress
      :: upload_calls bucket opts progress (S h) rest
  end.

Definition upload_trace (w : world) (items : list string) : list call :=
  upload_calls (bucket_id (cli w)) (env_opts w (bucket_id (cli w))) (log_level w =? 0)
    (handles w) items.






(** The completions the bridge delivers, one per transfer. *)
Definition store_file_completions (l : list (Z * storj_file_meta_t)) : list event :=
  map (fun c => store_file_done (fst c) (Some (snd c))) l.

(** A world taken apart, for the steps that compute with its fields. *)
Ltac open_world w :=
  destruct w as [[? ? ? ? ? ? ? ? ?] ? ? ? ? ? ? ? ? ? ?];
  unfold after_upload_file, after_download_file in *.

(** ** Scenarios *)

(** A table of status texts and the code of a decryption failure, for the
    scenarios that run the callbacks. *)
Definition strerror_sample (status : Z) : string := "status " +:+ show_int status.
Definition decryption_error_sample : Z := 4006.

Definition run_events (events : list event) : M unit :=
  uv_run strerror_sample decryption_error_sample events.

(** Answers of the bridge. *)
Definition photos_bucket : storj_bucket_meta_t :=
  Build_bucket_meta "b0" "photos" "2018-01-01" true.
Definition docs_bucket : storj_bucket_meta_t :=
  Build_bucket_meta "b1" "docs" "2018-01-02" true.

Definition two_buckets : get_buckets_request_t :=
  Build_get_buckets_request 200 [photos_bucket; docs_bucket].

Definition a_txt : storj_file_meta_t :=
  Build_file_meta "f1" "a.txt" 3 "text/plain" "2018-02-01" true.
Definition report_pdf : storj_file_meta_t :=
  Build_file_meta "f2" "report.pdf" 9 "application/pdf" "2018-02-02" true.
Definition notes_v2 : storj_file_meta_t :=
  Build_file_meta "5a1" "notes:v2.txt" 10 "text/plain" "2018-02-03" true.

Definition docs_listing : list_files_request_t :=
  Build_list_files_request 200 "b1" [a_txt; report_pdf].
Definition other_listing : list_files_request_t :=
  Build_list_files_request 200 "b1" [a_txt].
Definition colon_listing : list_files_request_t :=
  Build_list_files_request 200 "b1" [notes_v2].

(** An empty directory to upload, with the shell's working directory in
    the environment. *)
Definition empty_directory_world : world :=
  Build_world cli_state_zero {[ "/data/empty" := Dir [] "/data" ]} "/home/u"
    {[ "PWD" := "/home/u" ]} [] [] [] 0 [] [] 0.

(** A destination that exists, and a user who answers [n]. *)
Definition existing_destination_world : world :=
  Build_world cli_state_zero {[ "/tmp/report.pdf" := Reg "old" ]} "/home/u" ∅
    ["n" +:+ nl] [] [] 0 [] [] 0.

(** A regular file to upload. *)
Definition one_file_world : world :=
  Build_world cli_state_zero {[ "/data/f.txt" := Reg "x" ]} "/home/u" ∅ [] [] [] 0 [] [] 0.




(** A download of every file of the bucket into [/tmp/], the bucket
    resolved; the batch of [docs_listing] once its first item is in
    flight. *)
Definition wildcard_world : world :=
  Build_world
    (Build_cli_state (Some "docs") (Some "b1") (Some "*") (Some "/tmp/") None
       0 0 (Some "download-file") (Some "list-files-1"))
    {[ "/tmp" := Dir [] "/" ]} "/home/u" ∅ [] [] [] 0 [] [] 0.


(** ** The console, character by character *)

(** [fgetc(stdin)]; [None] is [EOF]. *)
Definition fgetc : M (option ascii) :=
  inp <- get stdin ;;
  match next_char inp with
  | None => ret None
  | Some (a, rest) => modify (with_stdin rest) ;; ret (Some a)
  end.

(** [fputc(c, stdout)]. *)
Definition fputc (a : ascii) : M unit := printf (String a EmptyString).

(** The bytes of a buffer read as a C string: what comes before the first
    zero. *)
Fixpoint c_string (bytes : list ascii) : string :=
  match bytes with
  | [] => EmptyString
  | a :: rest => if Ascii.eqb a zero then EmptyString else String a (c_string rest)
  end.

(** ** [get_password] *)

Definition DEL : ascii := "127"%char.
Definition BACKSPACE : ascii := "008"%char.
Definition max_pass_len : Z := 512.

(** [31 < mask && mask < 127]: the mask is a character to echo. *)
Definition echoes (mask : Z) : bool := (31 <? mask) && (mask <? 127).

(** The loop of [get_password], the branch of the source for systems other
    than Windows.  [password] holds the bytes [password[0 .. idx-1]].  Every
    round reads a character, so the rounds run out only after the end of
    the input, where the loop is left. *)
Fixpoint get_password_loop (rounds : nat) (mask : Z) (password : list ascii)
  : M (list ascii) :=
  match rounds with
  | O => halt Hang
  | S rounds' =>
      c <- fgetc ;;
      let idx := Z.of_nat (length password) in
      match c with
      | None => ret password
      | Some a =>
          if (negb (Ascii.eqb a newline) && (idx <? max_pass_len - 1)
              || (idx =? max_pass_len - 1) && Ascii.eqb a DEL)%bool then
            if (negb (Ascii.eqb a DEL) && negb (Ascii.eqb a BACKSPACE))%bool then
              when (echoes mask) (fputc (ascii_of_nat (Z.to_nat mask))) ;;
              get_password_loop rounds' mask (password ++ [a])
            else if 0 <? idx then
              when (echoes mask) (fputc BACKSPACE ;; fputc " " ;; fputc BACKSPACE) ;;
              get_password_loop rounds' mask (removelast password)
            else get_password_loop rounds' mask password
          else ret password
      end
  end.

(** [get_password(password, mask)]: the result is the bytes
    [password[0 .. idx-1]], whose number is the value returned; the buffer
    then holds a zero at [idx].  The callers hand over buffers of [BUFSIZ]
    bytes, taken to hold the 512 of [max_pass_len].  The terminal settings
    the function changes and restores are outside the model. *)
Definition get_password (mask : Z) : M (list ascii) :=
  n <- get (fun w => input_chars (stdin w)) ;;
  get_password_loop (S n) mask [].

(** A character that is typed into the password: neither a line end nor
    one of the two erase characters. *)
Definition typed (a : ascii) : bool :=
  negb (Ascii.eqb a newline) && negb (Ascii.eqb a DEL) && negb (Ascii.eqb a BACKSPACE).

Fixpoint all_typed (s : string) : bool :=
  match s with
  | EmptyString => true
  | String a rest => typed a && all_typed rest
  end.

(** What the console shows for the characters typed. *)
Definition mask_echo (mask : Z) (n : nat) : list string :=
  if echoes mask then repeat (String (ascii_of_nat (Z.to_nat mask)) EmptyString) n else [].

(** What the console shows when a character is erased. *)
Definition erase_echo (mask : Z) : list string :=
  if echoes mask then [String BACKSPACE ""; " "; String BACKSPACE ""] else [].

(** The fields of a world, for the steps that compute with them. *)
Ltac fields w := destruct w as [cs fs0 cwd0 env0 inp out err lvl tr ws hs].

(** Stepping through the console functions. *)
Ltac console :=
  unfold fgetc, fputc; unfold_m;
  cbn -[lookup insert delete String.append String.eqb Ascii.eqb Z.add Z.sub Z.leb Z.ltb Z.geb
        Z.gtb Z.eqb Z.of_nat Z.to_nat Nat.ltb length next_char input_chars atoi
        app removelast repeat].

(** ** [get_password_verify] *)

(** The mask of the callers, ['*']. *)
Definition star : Z := 42.

(** [get_password_verify(prompt, password, count)]: the result is the value
    returned and the text [strncpy] has left in [password].  The function
    calls itself while [count] is at most 3, which [rounds] counts down. *)
Fixpoint get_password_verify_rounds (rounds : nat) (prompt : string) (count : Z)
  : M (Z * string) :=
  printf prompt ;;
  first_password <- get_password star ;;
  printf (nl +:+ "Again to verify: ") ;;
  second_password <- get_password star ;;
  let password := c_string first_password in
  if String.eqb (c_string first_password) (c_string second_password) then ret (0, password)
  else
    printf (nl +:+ "Passphrases did not match. ") ;;
    when (count =? int_max) (halt Undefined) ;;
    let count := count + 1 in
    if count >? 3 then printf nl ;; ret (1, password)
    else
      printf ("Try again..." +:+ nl) ;;
      match rounds with
      | O => halt Hang
      | S rounds' => get_password_verify_rounds rounds' prompt count
      end.

Definition get_password_verify (prompt : string) (count : Z) : M (Z * string) :=
  get_password_verify_rounds (Z.to_nat (3 - count)) prompt count.

(** A passphrase as it is entered: typed characters, none of them zero, at
    most 511. *)
Definition entry (s : string) : bool :=
  all_typed s && lacks zero s && (Z.of_nat (String.length s) <=? 511).

(** An attempt is the passphrase and its repetition; the lines of some
    attempts, and what the console shows for them. *)
Definition attempt_lines (l : list (string * string)) : list string :=
  flat_map (fun p => [fst p +:+ nl; snd p +:+ nl]) l.

Definition attempt_echo (prompt : string) (p : string * string) : list string :=
  [prompt] ++ mask_echo star (String.length (fst p))
  ++ [nl +:+ "Again to verify: "] ++ mask_echo star (String.length (snd p)).

Definition miss_echo (prompt : string) (p : string * string) : list string :=
  attempt_echo prompt p ++ [nl +:+ "Passphrases did not match. "; "Try again..." +:+ nl].

Definition mismatch (p : string * string) : Prop :=
  entry (fst p) = true /\ entry (snd p) = true /\ fst p <> snd p.

(** ** [generate_mnemonic] *)

(** The loop that asks for the strength until the answer is one of the
    five; a number an [int] cannot hold is undefined.  At the end of the
    input [get_input] leaves the empty string, [atoi] gives 0, and the loop
    never ends. *)
Fixpoint read_strength (rounds : nat) (strength : Z) : M Z :=
  if (negb (Z.rem strength 32 =? 0) || (strength <? 128) || (strength >? 256))%bool then
    match rounds with
    | O => halt Hang
    | S rounds' =>
        printf "Strength: " ;;
        strength_str <- get_input ;;
        match atoi_int strength_str with
        | Some strength' => read_strength rounds' strength'
        | None => halt Undefined
        end
    end
  else ret strength.

Definition strength_intro : string :=
  "We now need to create an secret key used for encrypting "
  +:+ "files." +:+ nl +:+ "Please choose strength from: 128, 160, 192, 224, 256" +:+ nl +:+ nl.

Section Mnemonic.

(** Of the bridge's library: [storj_mnemonic_generate(strength, &mnemonic)],
    whose answer to a call is the code it returns and the mnemonic it
    leaves; the calls are numbered. *)
Variable storj_mnemonic_generate : nat -> Z -> Z * option string.

(** [generate_mnemonic(&mnemonic)]: the result is the status returned, the
    mnemonic, and the strengths the generator was asked for, [asked] being
    those of the calls before.  After a failure the function calls itself;
    every call reads a line at least, which [rounds] counts. *)
Fixpoint generate_mnemonic (rounds : nat) (asked : list Z)
  : M (Z * option string * list Z) :=
  printf strength_intro ;;
  n <- get (fun w => input_chars (stdin w)) ;;
  strength <- read_strength (S n) 0 ;;
  let '(generate_code, mnemonic) := storj_mnemonic_generate (length asked) strength in
  let asked := asked ++ [strength] in
  if (is_null mnemonic || (generate_code =? 0))%bool then
    printf ("Failed to generate encryption key." +:+ nl) ;;
    match rounds with
    | O => halt Hang
    | S rounds' => generate_mnemonic rounds' asked
    end
  else ret (0, mnemonic, asked).

End Mnemonic.

(** The strengths the generator accepts from the loop. *)
Definition valid_strength (strength : Z) : bool :=
  (strength =? 128) || (strength =? 160) || (strength =? 192)
  || (strength =? 224) || (strength =? 256).

(** What [get_input] makes of a line, read as a strength. *)
Definition answer (line : string) : option Z := atoi_int (reply line).

(** A line after which the strength is asked again: a number that is none
    of the five. *)
Definition refused (line : string) : bool :=
  console_line line
  && match answer line with
     | Some strength => negb (valid_strength strength)
     | None => false
     end.

(** ** The address of the bridge *)

(** The directives of
    [sscanf(storj_bridge, "%5[^://]://%99[^:/]:%99d", proto, host, &port)].
    A scan set takes the longest prefix of at most [width] characters none
    of which is excluded; an empty match fails the directive. *)
Fixpoint scan_set (width : nat) (excluded : ascii -> bool) (s : string) : string * string :=
  match width, s with
  | S width', String a rest =>
      if excluded a then (EmptyString, s)
      else let '(m, r) := scan_set width' excluded rest in (String a m, r)
  | _, _ => (EmptyString, s)
  end.

(** [:] and [/], the characters both scan sets exclude. *)
Definition separator (a : ascii) : bool := Ascii.eqb a ":" || Ascii.eqb a "/".

(** Characters of the format that stand for themselves. *)
Fixpoint literal (format s : string) : option string :=
  match format, s with
  | EmptyString, _ => Some s
  | String a format', String b rest => if Ascii.eqb a b then literal format' rest else None
  | String _ _, EmptyString => None
  end.

Definition is_digit (a : ascii) : bool :=
  match digit_of a with Some _ => true | None => false end.

Fixpoint scan_digits (width : nat) (s : string) : string * string :=
  match width, s with
  | S width', String a rest =>
      if is_digit a then let '(m, r) := scan_digits width' rest in (String a m, r)
      else (EmptyString, s)
  | _, _ => (EmptyString, s)
  end.

(** [%99d]: white space is skipped, then a sign may come, then decimal
    digits, [width] characters at most with the sign; the directive fails
    without a digit.  The value is the one the digits denote. *)
Definition scan_int (width : nat) (s : string) : option (Z * string) :=
  let s := skip_space s in
  let '(negative, width, s) :=
    match s, width with
    | String "-" rest, S width' => (true, width', rest)
    | String "+" rest, S width' => (false, width', rest)
    | _, _ => (false, width, s)
    end in
  match scan_digits width s with
  | (EmptyString, _) => None
  | (digits, rest) =>
      Some (if negative then - digits_value 0 digits else digits_value 0 digits, rest)
  end.

(** The call of [sscanf]: what it leaves in [proto], in [host] and in
    [port], which was 0 before; [None] is an array the call has not
    written.  A number that does not fit an [int] is undefined. *)
Definition sscanf_bridge (url : string) : M (option string * option string * Z) :=
  let filled (proto host : option string) (port : Z)
    : M (option string * option string * Z) := ret (proto, host, port) in
  match scan_set 5 separator url with
  | (EmptyString, _) => filled None None 0
  | (proto, s) =>
      match literal "://" s with
      | None => filled (Some proto) None 0
      | Some s =>
          match scan_set 99 separator s with
          | (EmptyString, _) => filled (Some proto) None 0
          | (host, s) =>
              match literal ":" s with
              | None => filled (Some proto) (Some host) 0
              | Some s =>
                  match scan_int 99 s with
                  | None => filled (Some proto) (Some host) 0
                  | Some (port, _) =>
                      if ((int_min <=? port) && (port <=? int_max))%bool
                      then filled (Some proto) (Some host) port
                      else halt Undefined
                  end
              end
          end
      end
  end.

(** The lines of [main] that settle the address of the bridge:
    [storj_bridge] is the value of the option [-u] or of [STORJ_BRIDGE];
    the result is [proto], [host] and [port] as the rest of [main] uses
    them. *)
Definition main_bridge_address (storj_bridge : option string)
  : M (option string * option string * Z) :=
  let storj_bridge :=
    match storj_bridge with Some url => url | None => "https://api.storj.io:443/" end in
  r <- sscanf_bridge storj_bridge ;;
  let '(proto, host, port) := r in
  if port =? 0 then
    https <- strcmp0 proto (Some "https") ;;
    ret (proto, host, if https then 443 else 80)
  else ret (proto, host, port).

(** A name in an address: not empty, without [:] and [/]. *)
Fixpoint no_separator (s : string) : bool :=
  match s with
  | EmptyString => true
  | String a rest => negb (separator a) && no_separator rest
  end.




(** ** Answers to the question of [download_file] *)

(** A line that is neither [y] nor [n], after which the question is asked
    again. *)
Definition undecided (line : string) : bool :=
  negb (String.eqb (reply line) "y") && negb (String.eqb (reply line) "n").

(** A line of the console that reads as neither. *)
Definition unanswered (line : string) : bool := console_line line && undecided line.

(** What [download_file] prints about a destination that exists. *)
Definition overwrite_warning (path : string) : string :=
  "Warning: File already exists at path [" +:+ path +:+ "]." +:+ nl.

Definition overwrite_question (path : string) : string :=
  "Would you like to overwrite [" +:+ path +:+ "]: [y/n] ".

(** ** Whole invocations *)

(** The identifier the loop of [list_files_callback] leaves in
    [cli_state->file_id] for a name: that of the last file of the name. *)
Fixpoint last_match (name : string) (l : list storj_file_meta_t) : option string :=
  match l with
  | [] => None
  | file :: rest =>
      match last_match name rest with
      | Some id => Some id
      | None => if String.eqb name (f_filename file) then Some (f_id file) else None
      end
  end.

(** The state after the loop has met a file of the name. *)
Definition matched (id : option string) (w : world) : world :=
  match id with
  | Some _ =>
      with_cli (fun c => set_total_files 0
                           (set_next_cmd_req (Some "download-file-1") (set_file_id id c))) w
  | None => w
  end.

(** The state [cli_download_file] sets before it asks for the buckets. *)
Definition download_request (dest bucket name : string) (w : world) : world :=
  with_trace (fun t => t ++ [Bridge_get_buckets])
    (with_cli (fun c => set_file_path (Some dest)
                          (set_file_name (Some name)
                             (set_bucket_name (Some bucket)
                                (set_curr_cmd_req (Some "download-file") c)))) w).

(** ** The list of a directory *)

(** The text [printdir] writes for a walk: one path per line. *)
Fixpoint walk_text (walk : list string) : string :=
  match walk with
  | [] => EmptyString
  | p :: rest => (p +:+ nl) +:+ walk_text rest
  end.

(** A path the list of a directory can carry: it has no newline, and its
    line fits a row of [line] with the zero that ends it. *)
Definition listed_path (p : string) : bool :=
  lacks newline p && (Z.of_nat (String.length p) + 2 <=? line_row).

(** ** Line ends and refusals *)

(** The line ends [get_input] removes: none at the end of the input, a
    newline, a carriage return and a newline. *)
Definition line_ends : list string :=
  [EmptyString; nl; String carriage_return nl].

(** What [cli_download_file] prints when it misses an argument. *)
Definition missing_arguments : string :=
  "Missing arguments: storj cp [-rR] storj://<bucket-name>/<file-name> "
  +:+ "<local_download_path>" +:+ nl.

(** ** Scenarios of the console and of whole invocations *)

(** A console on which the lines have been typed. *)
Definition typing (lines : list string) : world := with_stdin lines world0.

(** 511 characters, the most a password takes. *)
Definition long_line : string := string_of_list_ascii (repeat "a"%char 511).

(** A generator of mnemonics that fails at its first call. *)
Definition mnemonic_sample (call : nat) (strength : Z) : Z * option string :=
  match call with
  | O => (0, None)
  | S _ => (1, Some ("mnemonic of strength " +:+ show_int strength))
  end.

(** A destination that exists, and what is typed at the question. *)
Definition answering (lines : list string) : world :=
  with_stdin lines existing_destination_world.

(** A directory to download into. *)
Definition tmp_directory_world : world :=
  Build_world cli_state_zero {[ "/tmp/" := Dir [] "/" ]} "/home/u" ∅ [] [] [] 0 [] [] 0.

(** A directory of two files to upload, with the shell's working directory
    in the environment. *)
Definition two_files_walk : list string := ["/data/dir/a.txt"; "/data/dir/b.txt"].

Definition directory_world : world :=
  Build_world cli_state_zero {[ "/data/dir" := Dir two_files_walk "/data" ]} "/home/u"
    {[ "PWD" := "/home/u" ]} [] [] [] 0 [] [] 0.

(** A download list left behind by an earlier invocation. *)
Definition stale_list_world : world :=
  Build_world cli_state_zero {[ "/home/u/dwnld_list.txt" := Reg ("f9:old.bin" +:+ nl) ]}
    "/home/u" ∅ [] [] [] 0 [] [] 0.

(** The listing of a bucket without files. *)
Definition empty_listing : list_files_request_t :=
  Build_list_files_request 200 "b1" [].

(** A directory of 257 files. *)
Definition long_walk : list string := repeat "/data/big/a.txt" 257.

Definition big_directory_world : world :=
  Build_world cli_state_zero {[ "/data/big" := Dir long_walk "/data" ]} "/home/u"
    {[ "PWD" := "/home/u" ]} [] [] [] 0 [] [] 0.

(** ** Facts about C strings *)

Lemma append_nil_l (s : string) : "" +:+ s = s.
Proof. reflexivity. Qed.

Lemma append_cons a (s t : string) : String a s +:+ t = String a (s +:+ t).
Proof. reflexivity. Qed.

Ltac app_simpl := rewrite ?append_cons, ?append_nil_l; simpl.

Lemma append_nil_r (s : string) : s +:+ "" = s.
Proof. induction s as [|a s IH]; app_simpl; [reflexivity | now rewrite IH]. Qed.

Lemma append_assoc (a b c : string) : (a +:+ b) +:+ c = a +:+ (b +:+ c).
Proof. induction a as [|x a IH]; app_simpl; [reflexivity | now rewrite IH]. Qed.

Lemma length_append (a b : string) :
  String.length (a +:+ b) = (String.length a + String.length b)%nat.
Proof. induction a as [|x a IH]; app_simpl; [reflexivity | now rewrite IH]. Qed.

Lemma lacks_append c a b : lacks c (a +:+ b) = (lacks c a && lacks c b)%bool.
Proof.
  induction a as [|x a IH]; app_simpl; [reflexivity |].
  rewrite IH. now destruct (Ascii.eqb x c).
Qed.

Lemma strrchr_lacks c s : lacks c s = true -> strrchr s c = None.
Proof.
  induction s as [|a s IH]; simpl; [reflexivity |].
  intros H. apply andb_prop in H as [Ha Hs]. rewrite (IH Hs).
  now destruct (Ascii.eqb a c).
Qed.

Lemma strrchr_none c s : strrchr s c = None -> lacks c s = true.
Proof.
  induction s as [|a s IH]; simpl; [reflexivity |].
  destruct (strrchr s c); [discriminate |].
  destruct (Ascii.eqb a c); [discriminate |]. intros _. now rewrite IH.
Qed.

Lemma strrchr_last c p t :
  lacks c t = true -> strrchr (p +:+ String c t) c = Some (String c t).
Proof.
  intros Ht. induction p as [|a p IH]; app_simpl.
  - rewrite (strrchr_lacks _ _ Ht). now rewrite Ascii.eqb_refl.
  - now rewrite IH.
Qed.

Lemma cut_last_lacks c s : lacks c s = true -> cut_last s c = s.
Proof.
  destruct s as [|a s]; simpl; [reflexivity |].
  intros H. apply andb_prop in H as [Ha Hs]. rewrite (strrchr_lacks _ _ Hs).
  now destruct (Ascii.eqb a c).
Qed.

Lemma cut_last_last c p t :
  lacks c t = true -> cut_last (p +:+ String c t) c = p.
Proof.
  intros Ht. induction p as [|a p IH]; app_simpl.
  - rewrite (strrchr_lacks _ _ Ht). now rewrite Ascii.eqb_refl.
  - rewrite (strrchr_last _ _ _ Ht). now rewrite IH.
Qed.

Lemma cut_line l : lacks newline l = true -> cut_last (l +:+ nl) newline = l.
Proof. intros H. now apply (cut_last_last newline l ""). Qed.

Lemma fgets_from_line l : forall room rest,
  lacks newline l = true -> Z.of_nat (String.length l) < room ->
  fgets_from room (l +:+ nl +:+ rest) = (l +:+ nl) :: split_lines rest.
Proof.
  induction l as [|a l IH]; intros room rest H Hroom; app_simpl; [reflexivity |].
  simpl in H. apply andb_prop in H as [Ha Hl].
  destruct (Ascii.eqb a newline); [discriminate |].
  change (String.length (String a l)) with (S (String.length l)) in Hroom.
  destruct (room <=? 1) eqn:E; [apply Z.leb_le in E; lia |].
  simpl orb. cbv iota. rewrite (IH (room - 1) rest Hl) by lia. reflexivity.
Qed.

Lemma split_lines_line l rest :
  lacks newline l = true -> Z.of_nat (String.length l) < line_size - 1 ->
  split_lines (l +:+ nl +:+ rest) = (l +:+ nl) :: split_lines rest.
Proof. intros H Hlen. now apply fgets_from_line. Qed.

Lemma skip_delim_token d t :
  t <> "" -> lacks d t = true -> forall rest, skip_delim d (t +:+ rest) = t +:+ rest.
Proof.
  destruct t as [|a t]; [congruence |]. intros _ H rest. app_simpl.
  simpl in H. apply andb_prop in H as [Ha _]. now destruct (Ascii.eqb a d).
Qed.

Lemma scan_token_delim d t rest :
  lacks d t = true -> scan_token d (t +:+ String d rest) = (t, rest).
Proof.
  induction t as [|a t IH]; app_simpl.
  - now rewrite Ascii.eqb_refl.
  - intros H. apply andb_prop in H as [Ha Ht].
    destruct (Ascii.eqb a d); [discriminate |]. now rewrite (IH Ht).
Qed.

Lemma scan_token_end d t : lacks d t = true -> scan_token d t = (t, "").
Proof.
  induction t as [|a t IH]; simpl; [reflexivity |].
  intros H. apply andb_prop in H as [Ha Ht].
  destruct (Ascii.eqb a d); [discriminate |]. now rewrite (IH Ht).
Qed.

Lemma strtok_delim d s : strtok d (String d s) = strtok d s.
Proof. unfold strtok. simpl. now rewrite Ascii.eqb_refl. Qed.

Lemma strtok_token d t rest :
  t <> "" -> lacks d t = true -> strtok d (t +:+ String d rest) = Some (t, rest).
Proof.
  intros Hne Ht. unfold strtok. rewrite (skip_delim_token d t Hne Ht).
  pose proof (scan_token_delim d t rest Ht) as Hscan.
  destruct t as [|a t]; [congruence |].
  rewrite append_cons in *. now rewrite Hscan.
Qed.

Lemma strtok_last d t :
  t <> "" -> lacks d t = true -> strtok d t = Some (t, "").
Proof.
  intros Hne Ht. unfold strtok.
  replace (skip_delim d t) with t.
  - pose proof (scan_token_end d t Ht) as Hscan.
    destruct t; [congruence |]. now rewrite Hscan.
  - rewrite <- (append_nil_r t) at 2. rewrite (skip_delim_token d t Hne Ht).
    now rewrite append_nil_r.
Qed.

Lemma strtok_empty d : strtok d "" = None.
Proof. reflexivity. Qed.

Lemma tokenize_loop_none d s fuel : strtok d s = None -> tokenize_loop fuel d s = [].
Proof. intros H. destruct fuel; simpl; now rewrite H. Qed.

Lemma tokenize_loop_some d s t r fuel :
  strtok d s = Some (t, r) -> tokenize_loop (S fuel) d s = t :: tokenize_loop fuel d r.
Proof. intros H. simpl. now rewrite H. Qed.

(** The tokens of [a:b] when the parts are plain. *)
Lemma tokenize_loop_two d a b fuel :
  a <> "" -> b <> "" -> lacks d a = true -> lacks d b = true ->
  tokenize_loop (S (S fuel)) d (a +:+ String d b) = [a; b].
Proof.
  intros Ha Hb La Lb.
  rewrite (tokenize_loop_some d _ a b) by now apply strtok_token.
  rewrite (tokenize_loop_some d _ b "") by now apply strtok_last.
  now rewrite tokenize_loop_none.
Qed.

(** ** The basename the executor computes *)

Lemma strrchr_shape c p f :
  strrchr p c = Some f ->
  exists pre t, p = pre +:+ String c t /\ f = String c t /\ lacks c t = true.
Proof.
  revert f. induction p as [|a p IH]; simpl; [discriminate |].
  intros f. destruct (strrchr p c) as [g|] eqn:E.
  - intros [= <-]. destruct (IH g eq_refl) as (pre & t & -> & -> & Ht).
    exists (String a pre), t. now rewrite append_cons.
  - destruct (Ascii.eqb a c) eqn:Ea; [|discriminate].
    intros [= <-]. apply Ascii.eqb_eq in Ea as ->.
    exists "", p. split; [reflexivity|]. split; [reflexivity|]. now apply strrchr_none.
Qed.

Lemma basename_lacks p : lacks slash p = true -> basename p = p.
Proof.
  destruct p as [|a p]; simpl; [reflexivity |].
  intros H. apply andb_prop in H as [Ha Hp]. rewrite Hp.
  now destruct (Ascii.eqb a slash).
Qed.

Lemma basename_last pre t :
  lacks slash t = true -> basename (pre +:+ String slash t) = t.
Proof.
  intros Ht. induction pre as [|a pre IH]; app_simpl.
  - now rewrite Ht.
  - rewrite lacks_append. simpl. rewrite andb_false_r. exact IH.
Qed.

(** [get_filename_separator] computes the basename. *)
Lemma get_filename_separator_basename p w :
  get_filename_separator (Some p) w = (Val (Some (basename p)), w).
Proof.
  unfold get_filename_separator. destruct (strrchr p slash) as [f|] eqn:E.
  - destruct (strrchr_shape _ _ _ E) as (pre & t & -> & -> & Ht).
    rewrite Ascii.eqb_refl. now rewrite basename_last.
  - apply strrchr_none in E. rewrite (basename_lacks _ E).
    destruct p as [|a p]; [reflexivity |]. simpl in E.
    apply andb_prop in E as [Ha _]. now destruct (Ascii.eqb a slash).
Qed.

(** ** The executors *)

Lemma set_sig_data_last ws h k :
  match (ws ++ [Build_watcher h None]) !! length ws with
  | Some x => <[length ws := Build_watcher (w_handler x) (Some k)]> (ws ++ [Build_watcher h None])
  | None => ws ++ [Build_watcher h None]
  end = ws ++ [Build_watcher h (Some k)].
Proof.
  rewrite list_lookup_middle by reflexivity.
  rewrite insert_app_r_alt by lia.
  replace (length ws - length ws)%nat with 0%nat by lia. reflexivity.
Qed.

Lemma upload_file_some bucket p w :
  upload_file bucket (Some p) w = (Val 0, after_upload_file bucket p w).
Proof.
  unfold upload_file.
  destruct w as [cs fs0 cwd0 env0 inp out err lvl tr ws hs].
  unfold after_upload_file, env_opts, uv_signal_start, storj_bridge_store_file,
    set_sig_data, fopen_r, stat, getenv.
  unfold_m. run.
  destruct (fs0 !! abspath cwd0 p) as [[c|? ?|?]|] eqn:E; run;
    rewrite get_filename_separator_basename; run.
  all: unfold_world; run.
  all: rewrite ?app_nil_r, set_sig_data_last, <- ?app_assoc; reflexivity.
Qed.


(** ** The upload branch of the queue manager *)

Lemma read_frame_norm e1 e2 p1 p2 w :
  with_stdout (fun o => o ++ e2) (with_cli (set_file_path p2)
    (with_stdout (fun o => o ++ e1) (with_cli (set_file_path p1) w)))
  = with_stdout (fun o => o ++ (e1 ++ e2)) (with_cli (set_file_path p2) w).
Proof.
  destruct w as [cs fs0 cwd0 env0 inp out err lvl tr ws hs]. destruct cs. simpl.
  now rewrite <- app_assoc.
Qed.

(** No more than 256 lines fit. *)
Lemma rows_fit_length lines : forall i,
  0 <= i <= line_row -> rows_fit i lines = true ->
  i + Z.of_nat (length lines) <= line_row.
Proof.
  induction lines as [|line rest IH]; intros i Hi Hfit.
  - simpl length. lia.
  - cbn [rows_fit] in Hfit. apply andb_prop in Hfit as [Hf Hr].
    unfold fits in Hf. apply Z.leb_le in Hf.
    assert (Hrow : i + 1 <= line_row) by (unfold line_row, line_size in *; lia).
    specialize (IH (i + 1) ltac:(lia) Hr).
    change (length (line :: rest)) with (S (length rest)). lia.
Qed.

Lemma read_upload_list_at lines : forall i last w k,
  curr_up_file (cli w) = k -> i < k -> k <= i + Z.of_nat (length lines) ->
  rows_fit i lines = true ->
  exists extra,
    read_upload_list lines i last w =
    (Val (Some (cut_last (nth (Z.to_nat (k - i - 1)) lines "") newline), k),
     with_stdout (fun o => o ++ extra)
       (with_cli (set_file_path (Some (cut_last (nth (Z.to_nat (k - i - 1)) lines "") newline))) w)).
Proof.
  induction lines as [|line rest IH]; intros i last w k Hk Hi Hle Hfit.
  - simpl in Hle. lia.
  - cbn [rows_fit] in Hfit. apply andb_prop in Hfit as [Hf Hr].
    destruct w as [cs fs0 cwd0 env0 inp out err lvl tr ws hs].
    destruct cs as [bn bid fn fp fid tot cur ccr ncr]. simpl in Hk.
    cbn [read_upload_list]. rewrite Hf. unfold_m. run. rewrite Hk.
    destruct (i + 1 >=? k) eqn:E.
    + assert (Hki : k = i + 1) by lia. rewrite Hki.
      replace (Z.to_nat (i + 1 - i - 1)) with 0%nat by lia. simpl nth.
      eexists. reflexivity.
    + assert (i + 1 < k) by lia.
      match goal with
      | |- context [read_upload_list rest ?j ?la ?v] =>
          destruct (IH j la v k) as [extra Hx];
            [reflexivity | lia | simpl length in Hle; lia | exact Hr |]
      end.
      rewrite Hx.
      replace (Z.to_nat (k - i - 1)) with (S (Z.to_nat (k - (i + 1) - 1))) by lia.
      simpl nth. run. eexists. rewrite <- app_assoc. reflexivity.
Qed.

Lemma wrap_int_small z : int_min <= z <= int_max -> wrap_int z = z.
Proof.
  unfold int_min, int_max, wrap_int. intros H.
  rewrite Z.mod_small by lia. lia.
Qed.

Lemma queue_next_upload_step w lst content k :
  curr_cmd_req (cli w) = Some "upload-file" ->
  next_cmd_req (cli w) = Some "upload-file-1" ->
  file_name (cli w) = Some lst ->
  fs w !! abspath (cwd w) lst = Some (Reg content) ->
  curr_up_file (cli w) = k ->
  1 <= k -> k <= Z.of_nat (length (split_lines content)) ->
  k <= total_files (cli w) -> k < int_max ->
  rows_fit 0 (split_lines content) = true ->
  exists extra,
    queue_next_cli_cmd w =
    (Val tt,
     with_cli (set_curr_up_file (k + 1))
       (after_upload_file (bucket_id (cli w))
          (cut_last (nth (Z.to_nat (k - 1)) (split_lines content) "") newline)
          (with_stdout (fun o => o ++ extra)
             (with_cli (set_file_path
                (Some (cut_last (nth (Z.to_nat (k - 1)) (split_lines content) "") newline)))
                w)))).
Proof.
  intros Hc Hn Hf Hfs Hk H1 Hlen Htot Hmax Hfit.
  unfold queue_next_cli_cmd.
  destruct w as [cs fs0 cwd0 env0 inp out err lvl tr ws hs].
  destruct cs as [bn bid fn fp fid tot cur ccr ncr].
  simpl in Hc, Hn, Hf, Hfs, Hk, Htot. subst ccr ncr fn.
  unfold fopen_r, stat. unfold_m. run. rewrite Hfs. run.
  match goal with
  | |- context [read_upload_list ?l ?i ?la ?w] =>
      destruct (read_upload_list_at l i la w k) as [extra Hread];
        [exact Hk | lia | lia | exact Hfit |]
  end.
  rewrite Hread. run. rewrite Hk.
  replace (k - 0 - 1) with (k - 1) by lia.
  destruct (k <=? tot) eqn:E; [|lia].
  rewrite upload_file_some. run.
  exists (extra ++ ["*****uploading file: " +:+ cut_last (nth (Z.to_nat (k - 1)) (split_lines content) "") newline +:+ " *****" +:+ nl]).
  unfold modify, after_upload_file, env_opts. unfold_world. run.
  rewrite wrap_int_small by (unfold int_min, int_max in *; lia).
  rewrite <- !app_assoc. reflexivity.
Qed.

Lemma world_frame_id w :
  w = with_stdout (fun o => o ++ []) (with_cli (set_file_path (file_path (cli w))) w).
Proof.
  destruct w as [cs fs0 cwd0 env0 inp out err lvl tr ws hs].
  destruct cs. simpl. now rewrite app_nil_r.
Qed.

Lemma read_upload_list_frame lines : forall i last w,
  rows_fit i lines = true ->
  exists r p extra,
    read_upload_list lines i last w =
    (Val r, with_stdout (fun o => o ++ extra) (with_cli (set_file_path p) w)).
Proof.
  induction lines as [|line rest IH]; intros i last w Hfit.
  - exists (last, i), (file_path (cli w)), []. simpl. unfold ret. f_equal. apply world_frame_id.
  - cbn [rows_fit] in Hfit. apply andb_prop in Hfit as [Hf Hr].
    destruct w as [cs fs0 cwd0 env0 inp out err lvl tr ws hs].
    destruct cs as [bn bid fn fp fid tot cur ccr ncr].
    cbn [read_upload_list]. rewrite Hf. unfold_m. run.
    destruct (i + 1 >=? cur).
    + eexists _, _, _. reflexivity.
    + match goal with
      | |- context [read_upload_list rest ?j ?la ?v] =>
          destruct (IH j la v Hr) as (r & p & extra & Hx)
      end.
      rewrite Hx. run. eexists _, _, _. rewrite <- app_assoc. reflexivity.
Qed.

Lemma queue_next_upload_done w lst content :
  curr_cmd_req (cli w) = Some "upload-file" ->
  next_cmd_req (cli w) = Some "upload-file-1" ->
  file_name (cli w) = Some lst ->
  fs w !! abspath (cwd w) lst = Some (Reg content) ->
  total_files (cli w) < curr_up_file (cli w) ->
  rows_fit 0 (split_lines content) = true ->
  exists p extra,
    queue_next_cli_cmd w =
    (Stop (Exit 0), with_stdout (fun o => o ++ extra) (with_cli (set_file_path p) w)).
Proof.
  intros Hc Hn Hf Hfs Hlt Hfit.
  unfold queue_next_cli_cmd.
  destruct w as [cs fs0 cwd0 env0 inp out err lvl tr ws hs].
  destruct cs as [bn bid fn fp fid tot cur ccr ncr].
  simpl in Hc, Hn, Hf, Hfs, Hlt. subst ccr ncr fn.
  unfold fopen_r, stat. unfold_m. run. rewrite Hfs. run.
  match goal with
  | |- context [read_upload_list ?l ?i ?la ?w] =>
      destruct (read_upload_list_frame l i la w Hfit) as (r & p & extra & Hread)
  end.
  rewrite Hread. destruct r as [last i]. run.
  destruct (cur <=? tot) eqn:E; [lia|].
  exists p, (extra ++ ["***** done uploading files  *****" +:+ nl]).
  unfold_world. run. rewrite <- !app_assoc. reflexivity.
Qed.

(** ** Reading the download list *)

Lemma read_download_list_at lines : forall i temp k,
  i < k -> k <= i + Z.of_nat (length lines) ->
  rows_fit i lines = true ->
  read_download_list lines i k temp =
  Some (Some (cut_last (nth (Z.to_nat (k - i - 1)) lines "") newline), k).
Proof.
  induction lines as [|line rest IH]; intros i temp k Hi Hle Hfit.
  - simpl in Hle. lia.
  - cbn [rows_fit] in Hfit. apply andb_prop in Hfit as [Hf Hr].
    cbn [read_download_list]. rewrite Hf. destruct (i + 1 >=? k) eqn:E.
    + assert (Hki : k = i + 1) by lia. rewrite Hki.
      replace (Z.to_nat (i + 1 - i - 1)) with 0%nat by lia. reflexivity.
    + rewrite IH by (simpl length in Hle; try assumption; lia).
      replace (Z.to_nat (k - i - 1)) with (S (Z.to_nat (k - (i + 1) - 1))) by lia.
      reflexivity.
Qed.

Lemma plain_parts s :
  plain s = true -> s <> "" /\ lacks colon s = true /\ lacks newline s = true.
Proof.
  unfold plain. intros H. apply andb_prop in H as [H Hn]. apply andb_prop in H as [He Hc].
  repeat split; try assumption. intros ->. discriminate.
Qed.

Lemma length_item_line file :
  String.length (item_line file)
  = (String.length (f_id file) + String.length (f_filename file) + 2)%nat.
Proof.
  unfold item_line. rewrite !length_append.
  change (String.length ":") with 1%nat. change (String.length nl) with 1%nat. lia.
Qed.

Lemma plain_item_parts file :
  plain_item file = true ->
  plain (f_id file) = true /\ plain (f_filename file) = true /\ f_filename file <> "*" /\
  Z.of_nat (String.length (f_id file) + String.length (f_filename file) + 2) < line_row.
Proof.
  unfold plain_item. intros H. apply andb_prop in H as [H Hrow].
  apply andb_prop in H as [H Hs]. apply andb_prop in H as [Hi Hf].
  rewrite length_item_line in Hrow. apply Z.ltb_lt in Hrow.
  repeat split; try assumption. intros E. rewrite E in Hs. discriminate.
Qed.

Lemma split_lines_list_text items :
  forallb plain_item items = true ->
  split_lines (list_text items) = map item_line items.
Proof.
  induction items as [|file rest IH]; [reflexivity |]. cbn [forallb list_text map].
  intros H. apply andb_prop in H as [Hf Hr].
  destruct (plain_item_parts _ Hf) as (Hi & Hn & _ & Hrow).
  destruct (plain_parts _ Hi) as (_ & _ & Li). destruct (plain_parts _ Hn) as (_ & _ & Ln).
  unfold item_line at 1.
  replace ((f_id file +:+ ":" +:+ f_filename file +:+ nl) +:+ list_text rest)
    with ((f_id file +:+ ":" +:+ f_filename file) +:+ nl +:+ list_text rest)
    by (now rewrite !append_assoc).
  rewrite split_lines_line.
  - rewrite (IH Hr). f_equal. unfold item_line. now rewrite !append_assoc.
  - rewrite !lacks_append, Li, Ln. reflexivity.
  - rewrite !length_append. change (String.length ":") with 1%nat.
    unfold line_row, line_size in *. lia.
Qed.

(** A list of at most 256 items is read inside [line]. *)
Lemma rows_fit_items items : forall i,
  0 <= i -> forallb plain_item items = true ->
  i + Z.of_nat (length items) <= line_row ->
  rows_fit i (map item_line items) = true.
Proof.
  induction items as [|file rest IH]; intros i Hi Hall Hlen; [reflexivity |].
  cbn [forallb] in Hall. apply andb_prop in Hall as [Hf Hr].
  change (length (file :: rest)) with (S (length rest)) in Hlen.
  cbn [map rows_fit]. rewrite (IH (i + 1)) by (try assumption; lia).
  destruct (plain_item_parts _ Hf) as (_ & _ & _ & Hrow).
  unfold fits. rewrite length_item_line, andb_true_r.
  apply Z.leb_le. unfold line_row, line_size in *. lia.
Qed.

Lemma length_nonempty s : s <> "" -> (1 <= String.length s)%nat.
Proof. destruct s; [congruence | simpl; lia]. Qed.

Lemma tokenize_item i n :
  plain i = true -> plain n = true -> tokenize colon (i +:+ ":" +:+ n) = [i; n].
Proof.
  intros Hi Hn.
  destruct (plain_parts _ Hi) as (Ei & Ci & _). destruct (plain_parts _ Hn) as (En & Cn & _).
  unfold tokenize. rewrite length_append, append_cons, append_nil_l. simpl String.length.
  pose proof (length_nonempty _ Ei). pose proof (length_nonempty _ En).
  replace (String.length i + S (String.length n))%nat
    with (S (S (String.length i + String.length n - 1)))%nat by lia.
  now apply tokenize_loop_two.
Qed.

Lemma cut_item_line file :
  plain_item file = true ->
  cut_last (item_line file) newline = f_id file +:+ ":" +:+ f_filename file.
Proof.
  intros Hf. destruct (plain_item_parts _ Hf) as (Hi & Hn & _).
  destruct (plain_parts _ Hi) as (_ & _ & Li). destruct (plain_parts _ Hn) as (_ & _ & Ln).
  unfold item_line.
  replace (f_id file +:+ ":" +:+ f_filename file +:+ nl)
    with ((f_id file +:+ ":" +:+ f_filename file) +:+ nl) by (now rewrite !append_assoc).
  apply cut_line. rewrite !lacks_append, Li, Ln. reflexivity.
Qed.

Lemma read_item_at items k file :
  forallb plain_item items = true ->
  Z.of_nat (length items) <= line_row ->
  items !! k = Some file ->
  read_item (split_lines (list_text items)) (Z.of_nat k + 1) = Some [f_id file; f_filename file].
Proof.
  intros Hall Hrows Hk. unfold read_item.
  rewrite (split_lines_list_text _ Hall).
  pose proof (lookup_lt_Some _ _ _ Hk) as Hlt.
  rewrite read_download_list_at
    by (rewrite ?length_map; try apply rows_fit_items; try assumption; lia).
  replace (Z.to_nat (Z.of_nat k + 1 - 0 - 1)) with k by lia.
  assert (Hf : plain_item file = true).
  { rewrite forallb_forall in Hall. apply Hall. apply list_elem_of_In.
    eapply list_elem_of_lookup_2. exact Hk. }
  rewrite (nth_indep _ "" (item_line file)) by (rewrite length_map; lia).
  rewrite map_nth. rewrite (nth_lookup_Some _ _ _ _ Hk).
  rewrite (cut_item_line _ Hf).
  destruct (plain_item_parts _ Hf) as (Hi & Hn & _).
  now rewrite tokenize_item.
Qed.

(** ** The download branch of the queue manager *)

Lemma read_download_list_keeps items : forall i k temp,
  forallb plain_item items = true ->
  rows_fit i (map item_line items) = true ->
  match temp with Some t => few_tokens t | None => items <> [] end ->
  exists t j,
    read_download_list (map item_line items) i k temp = Some (Some t, j) /\ few_tokens t.
Proof.
  induction items as [|file rest IH]; intros i k temp Hall Hfit Htemp.
  - destruct temp as [t|]; [| congruence]. exists t, i. split; [reflexivity | exact Htemp].
  - cbn [forallb] in Hall. apply andb_prop in Hall as [Hf Hr].
    cbn [map rows_fit] in Hfit. apply andb_prop in Hfit as [Hfi Hfr].
    cbn [map read_download_list]. rewrite Hfi. rewrite (cut_item_line _ Hf).
    assert (Hfew : few_tokens (f_id file +:+ ":" +:+ f_filename file)).
    { destruct (plain_item_parts _ Hf) as (Hi & Hn & _).
      unfold few_tokens. now rewrite tokenize_item. }
    destruct (i + 1 >=? k); [eauto |].
    apply IH; assumption.
Qed.

Lemma read_item_some items k :
  items <> [] -> forallb plain_item items = true ->
  Z.of_nat (length items) <= line_row ->
  exists tokens, read_item (split_lines (list_text items)) k = Some tokens.
Proof.
  intros Hne Hall Hrows. unfold read_item. rewrite (split_lines_list_text _ Hall).
  destruct (read_download_list_keeps items 0 k None Hall) as (t & j & -> & Hfew).
  - apply rows_fit_items; try assumption; lia.
  - exact Hne.
  - unfold few_tokens in Hfew. rewrite Hfew. eauto.
Qed.

Lemma queue_next_download_item w items k file dir :
  curr_cmd_req (cli w) = Some "download-file" ->
  next_cmd_req (cli w) = Some "download-file-1" ->
  file_path (cli w) = Some dir ->
  fs w !! abspath (cwd w) "dwnld_list.txt" = Some (Reg (list_text items)) ->
  forallb plain_item items = true ->
  Z.of_nat (length items) <= line_row ->
  Z.of_nat (String.length (dir +:+ f_filename file)) < 1024 ->
  items !! k = Some file ->
  curr_up_file (cli w) = Z.of_nat k + 1 ->
  Z.of_nat k + 1 <= total_files (cli w) ->
  Z.of_nat k + 1 < int_max ->
  queue_next_cli_cmd w =
  (download_file (bucket_id (cli w)) (Some (f_id file)) (Some (dir +:+ f_filename file)) ;;
   ret tt)
    (with_cli (set_curr_up_file (Z.of_nat k + 2))
       (with_stdout
          (fun o => o ++ [downloading_msg (Z.of_nat k + 1) (total_files (cli w))
                            (dir +:+ f_filename file)])
          (with_cli (set_file_id (Some (f_id file))) w))).
Proof.
  intros Hc Hn Hp Hfs Hall Hrows Hpath Hk Hcur Htot Hmax.
  unfold queue_next_cli_cmd.
  destruct w as [cs fs0 cwd0 env0 inp out err lvl tr ws hs].
  destruct cs as [bn bid fn fp fid tot cur ccr ncr].
  simpl in Hc, Hn, Hp, Hfs, Hcur, Htot. subst ccr ncr fp cur.
  unfold fopen_r, stat. unfold_m. run. rewrite Hfs. run.
  rewrite (read_item_at _ _ _ Hall Hrows Hk). run.
  destruct (Z.of_nat k + 1 <=? tot) eqn:E; [|lia].
  run.
  destruct (Z.of_nat (String.length (dir +:+ f_filename file)) <? 1024) eqn:E2; [| lia].
  run.
  rewrite wrap_int_small by (unfold int_min, int_max in *; lia).
  replace (Z.of_nat k + 1 + 1) with (Z.of_nat k + 2) by lia.
  reflexivity.
Qed.

Lemma queue_next_download_done w items :
  curr_cmd_req (cli w) = Some "download-file" ->
  next_cmd_req (cli w) = Some "download-file-1" ->
  fs w !! abspath (cwd w) "dwnld_list.txt" = Some (Reg (list_text items)) ->
  forallb plain_item items = true ->
  Z.of_nat (length items) <= line_row ->
  items <> [] ->
  total_files (cli w) < curr_up_file (cli w) ->
  queue_next_cli_cmd w =
  (Stop (Exit 0),
   with_stdout (fun o => o ++ ["***** done downloading files  *****" +:+ nl]) w).
Proof.
  intros Hc Hn Hfs Hall Hrows Hne Hlt.
  unfold queue_next_cli_cmd.
  destruct w as [cs fs0 cwd0 env0 inp out err lvl tr ws hs].
  destruct cs as [bn bid fn fp fid tot cur ccr ncr].
  simpl in Hc, Hn, Hfs, Hlt. subst ccr ncr.
  unfold fopen_r, stat. unfold_m. run. rewrite Hfs. run.
  destruct (read_item_some items cur Hne Hall Hrows) as [tokens Ht].
  rewrite Ht. run.
  destruct (cur <=? tot) eqn:E; [lia |]. reflexivity.
Qed.

Lemma listable_item dir items k file :
  listable dir items -> items !! k = Some file ->
  Z.of_nat (String.length (dir +:+ f_filename file)) < 1024.
Proof.
  intros (_ & Hpath & _) Hk. rewrite forallb_forall in Hpath.
  apply Z.ltb_lt. apply (Hpath file). apply list_elem_of_In.
  eapply list_elem_of_lookup_2. exact Hk.
Qed.

(** ** Writing the download list *)

Lemma list_files_loop_writes files : forall w p c,
  curr_cmd_req (cli w) = Some "download-file" ->
  file_name (cli w) = Some "*" ->
  forallb plain_item files = true ->
  fs w !! p = Some (Reg c) ->
  list_files_loop (Some p) files w =
  (Val tt, with_fs (insert p (Reg (c +:+ list_text files))) w).
Proof.
  induction files as [|file rest IH]; intros w p c Hc Hn Hall Hfs.
  - simpl. unfold ret. f_equal. rewrite append_nil_r.
    destruct w as [cs fs0 cwd0 env0 inp out err lvl tr ws hs]. simpl in *.
    now rewrite insert_id.
  - simpl in Hall. apply andb_prop in Hall as [Hf Hr].
    destruct (plain_item_parts _ Hf) as (_ & _ & Hstar & _).
    cbn [list_files_loop]. unfold bind at 1. unfold list_files_step.
    destruct w as [cs fs0 cwd0 env0 inp out err lvl tr ws hs].
    destruct cs as [bn bid fn fp fid tot cur ccr ncr].
    simpl in Hc, Hn, Hfs. subst ccr fn.
    unfold fputs. unfold_m. run. rewrite Hfs. run.
    assert (Hneq : String.eqb "*" (f_filename file) = false).
    { apply String.eqb_neq. congruence. }
    rewrite Hneq. run.
    erewrite IH; [| reflexivity | reflexivity | exact Hr | run; apply lookup_insert_eq].
    run. rewrite insert_insert_eq.
    cbn [list_text]. now rewrite append_assoc.
Qed.

(** ** The signal handlers *)







(** ** The bucket resolver *)

Lemma get_bucket_id_loop_no_match l : forall i total w name,
  bucket_name (cli w) = Some name ->
  Forall (fun b => b_name b <> name) l ->
  total = i + Z.of_nat (length l) ->
  get_bucket_id_loop l i total w = (Val 0, no_match_world l w).
Proof.
  induction l as [|b rest IH]; intros i total w name Hname Hall Htot; [reflexivity |].
  inversion Hall as [|? ? Hb Hrest]; subst.
  destruct w as [cs fs0 cwd0 env0 inp out err lvl tr ws hs].
  destruct cs as [bn bid fn fp fid tot cur ccr ncr]. simpl in Hname. subst bn.
  cbn [get_bucket_id_loop]. unfold_m. run.
  assert (Hneq : String.eqb name (b_name b) = false) by (apply String.eqb_neq; congruence).
  rewrite Hneq. run.
  destruct rest as [|b' rest'].
  - change (Z.of_nat (length [b])) with 1.
    destruct (i >=? i + 1 - 1) eqn:E; [| blia]. reflexivity.
  - change (length (b :: b' :: rest')) with (S (S (length rest'))).
    destruct (i >=? i + Z.of_nat (S (S (length rest'))) - 1) eqn:E; [blia |].
    run. erewrite IH; [| reflexivity | exact Hrest
                       | change (length (b' :: rest')) with (S (length rest')); lia].
    reflexivity.
Qed.

Lemma get_bucket_id_loop_match pre : forall b post i total w name cmd next,
  bucket_name (cli w) = Some name ->
  Forall (fun x => b_name x <> name) pre ->
  b_name b = name ->
  curr_cmd_req (cli w) = Some cmd ->
  next_stage cmd = Some next ->
  total = i + Z.of_nat (length (pre ++ b :: post)) ->
  get_bucket_id_loop (pre ++ b :: post) i total w = (Val 1, resolved_world b next w).
Proof.
  induction pre as [|x pre IH]; intros b post i total w name cmd next Hname Hall Hb Hcmd Hnext Htot.
  - destruct w as [cs fs0 cwd0 env0 inp out err lvl tr ws hs].
    destruct cs as [bn bid fn fp fid tot cur ccr ncr]. simpl in Hname, Hcmd. subst bn ccr.
    cbn [app get_bucket_id_loop]. unfold_m. run.
    rewrite Hb, String.eqb_refl. run.
    unfold next_stage in Hnext.
    destruct (String.eqb cmd "list-files"); [injection Hnext as <-; reflexivity |].
    destruct (String.eqb cmd "download-file"); [injection Hnext as <-; reflexivity |].
    destruct (String.eqb cmd "upload-file"); [injection Hnext as <-; reflexivity |].
    discriminate.
  - inversion Hall as [|? ? Hx Hrest]; subst.
    destruct w as [cs fs0 cwd0 env0 inp out err lvl tr ws hs].
    destruct cs as [bn bid fn fp fid tot cur ccr ncr]. simpl in Hname, Hcmd. subst bn ccr.
    cbn [app get_bucket_id_loop]. unfold_m. run.
    assert (Hneq : String.eqb (b_name b) (b_name x) = false)
      by (apply String.eqb_neq; congruence).
    rewrite Hneq.
    change (length (x :: pre ++ b :: post)) with (S (length (pre ++ b :: post))).
    assert (Hlen : (1 <= length (pre ++ b :: post))%nat).
    { rewrite length_app. change (length (b :: post)) with (S (length post)). lia. }
    destruct (i >=? i + Z.of_nat (S (length (pre ++ b :: post))) - 1) eqn:E; [blia |].
    run. erewrite IH; [| reflexivity | exact Hrest | reflexivity | reflexivity | exact Hnext
                        | lia].
    reflexivity.
Qed.

(** C4: the bucket resolver scans the buckets in the order received for
    the exact name.  At the first match it records the identifier of that
    bucket and runs the queue manager with the next stage of the current
    command: the file listing of the bucket is requested for [list-files]
    and [download-file], the upload is begun for [upload-file].  When no
    bucket of the collection has the name, it reports that and returns:
    nothing is handed to the bridge, no watcher is started and no bucket
    identifier is recorded. *)
Theorem bucket_resolver (req : get_buckets_request_t) (w : world) (name : string) :
  bucket_name (cli w) = Some name ->
  gb_status_code req = 200 \/ gb_status_code req = 304 ->
  (forall pre b post cmd next,
      buckets req = pre ++ b :: post ->
      Forall (fun x => b_name x <> name) pre ->
      b_name b = name ->
      curr_cmd_req (cli w) = Some cmd ->
      next_stage cmd = Some next ->
      get_bucket_id_callback req 0 w = queue_next_cli_cmd (resolved_world b next w) /\
      bucket_id (cli (resolved_world b next w)) = Some (b_id b) /\
      (next = "list-files-1" ->
       queue_next_cli_cmd (resolved_world b next w) =
       (Val tt, with_trace (fun t => t ++ [Bridge_list_files (Some (b_id b))])
                  (resolved_world b next w))) /\
      (next = "upload-file-1" -> file_name (cli w) = None ->
       queue_next_cli_cmd (resolved_world b next w) =
       (upload_file (Some (b_id b)) (file_path (cli w)) ;; ret tt) (resolved_world b next w))) /\
  (Forall (fun x => b_name x <> name) (buckets req) ->
   exists w',
     get_bucket_id_callback req 0 w = (Val tt, w') /\
     trace w' = trace w /\
     watchers w' = watchers w /\
     bucket_id (cli w') = bucket_id (cli w) /\
     (In ("Invalid bucket name. " +:+ nl) (stdout w') \/ In ("No buckets." +:+ nl) (stdout w'))).
Proof.
  intros Hname Hstatus. split.
  - intros pre b post cmd next Hb Hpre Hbn Hcmd Hnext.
    assert (Hcb : get_bucket_id_callback req 0 w = queue_next_cli_cmd (resolved_world b next w)).
    { unfold get_bucket_id_callback, total_buckets. rewrite Hb.
      unfold_m. run.
      assert (Hlen : (Z.of_nat (length (pre ++ b :: post)) =? 0) = false).
      { rewrite length_app. change (length (b :: post)) with (S (length post)). blia. }
      destruct Hstatus as [-> | ->]; run; rewrite Hlen; run.
      all: erewrite get_bucket_id_loop_match; try eassumption; try reflexivity. }
    split; [exact Hcb |].
    destruct w as [cs fs0 cwd0 env0 inp out err lvl tr ws hs].
    destruct cs as [bn bid fn fp fid tot cur ccr ncr]. simpl in Hname, Hcmd. subst bn ccr.
    split; [reflexivity |]. split.
    + intros ->. unfold next_stage in Hnext. unfold queue_next_cli_cmd, resolved_world,
        storj_bridge_list_files. unfold_m. run.
      destruct (String.eqb cmd "list-files") eqn:E1.
      { apply String.eqb_eq in E1 as ->. run. reflexivity. }
      destruct (String.eqb cmd "download-file") eqn:E2.
      { apply String.eqb_eq in E2 as ->. run. reflexivity. }
      destruct (String.eqb cmd "upload-file"); discriminate.
    + intros -> Hfn. simpl in Hfn. subst fn. unfold next_stage in Hnext.
      destruct (String.eqb cmd "list-files") eqn:E1; [discriminate |].
      destruct (String.eqb cmd "download-file") eqn:E2; [discriminate |].
      destruct (String.eqb cmd "upload-file") eqn:E3; [| discriminate].
      apply String.eqb_eq in E3 as ->.
      unfold queue_next_cli_cmd, resolved_world, fopen_r. unfold_m. run. reflexivity.
  - intros Hall.
    unfold get_bucket_id_callback, total_buckets.
    destruct w as [cs fs0 cwd0 env0 inp out err lvl tr ws hs].
    destruct cs as [bn bid fn fp fid tot cur ccr ncr]. simpl in Hname. subst bn.
    destruct (buckets req) as [|b rest] eqn:Eb.
    + destruct Hstatus as [-> | ->]; unfold_m; run; eexists; (split; [reflexivity |]);
        simpl; repeat split; right; apply in_or_app; right; now left.
    + assert (Hlen : (Z.of_nat (length (b :: rest)) =? 0) = false).
      { change (length (b :: rest)) with (S (length rest)). blia. }
      destruct Hstatus as [-> | ->]; unfold_m; run; rewrite ?Hlen; run.
      all: erewrite get_bucket_id_loop_no_match; [| reflexivity | exact Hall | reflexivity].
      all: run; eexists; (split; [reflexivity |]); simpl; repeat split; left;
        apply in_or_app; right; now left.
Qed.

(** ** Stages of the queue manager *)

Lemma get_bucket_id_callback_report req w :
  get_bucket_id_callback req 0 w =
  (ret_status <- get_bucket_id_loop (buckets req) 0 (total_buckets req) ;;
   when (ret_status =? 1) queue_next_cli_cmd)
    (with_stdout (fun o => o ++ buckets_report req) w).
Proof.
  unfold get_bucket_id_callback, buckets_report.
  destruct w as [cs fs0 cwd0 env0 inp out err lvl tr ws hs].
  unfold_m. run.
  destruct (gb_status_code req =? 401); run; [reflexivity |].
  destruct (negb (gb_status_code req =? 200) && negb (gb_status_code req =? 304))%bool;
    run; [reflexivity |].
  destruct (total_buckets req =? 0); run; [reflexivity |].
  now rewrite app_nil_r.
Qed.

Lemma get_bucket_id_callback_match req w name pre b post cmd next :
  bucket_name (cli w) = Some name ->
  buckets req = pre ++ b :: post ->
  Forall (fun x => b_name x <> name) pre ->
  b_name b = name ->
  curr_cmd_req (cli w) = Some cmd ->
  next_stage cmd = Some next ->
  get_bucket_id_callback req 0 w =
  queue_next_cli_cmd (resolved_world b next (with_stdout (fun o => o ++ buckets_report req) w)).
Proof.
  intros Hname Hb Hpre Hbn Hcmd Hnext.
  rewrite get_bucket_id_callback_report. unfold total_buckets. rewrite Hb.
  unfold bind.
  erewrite get_bucket_id_loop_match; try eassumption; try reflexivity.
  - destruct w as [cs ? ? ? ? ? ? ? ? ? ?]. destruct cs. exact Hname.
  - destruct w as [cs ? ? ? ? ? ? ? ? ? ?]. destruct cs. exact Hcmd.
Qed.

Lemma queue_next_single_upload w :
  curr_cmd_req (cli w) = Some "upload-file" ->
  next_cmd_req (cli w) = Some "upload-file-1" ->
  file_name (cli w) = None ->
  queue_next_cli_cmd w = (upload_file (bucket_id (cli w)) (file_path (cli w)) ;; ret tt) w.
Proof.
  intros Hc Hn Hf.
  destruct w as [cs fs0 cwd0 env0 inp out err lvl tr ws hs].
  destruct cs as [bn bid fn fp fid tot cur ccr ncr]. simpl in Hc, Hn, Hf. subst.
  unfold queue_next_cli_cmd, fopen_r. unfold_m. run. reflexivity.
Qed.

Lemma queue_next_list_files w cmd :
  curr_cmd_req (cli w) = Some cmd ->
  cmd = "list-files" \/ cmd = "download-file" ->
  next_cmd_req (cli w) = Some "list-files-1" ->
  queue_next_cli_cmd w =
  (Val tt, with_trace (fun t => t ++ [Bridge_list_files (bucket_id (cli w))]) w).
Proof.
  intros Hc Hcmd Hn.
  destruct w as [cs fs0 cwd0 env0 inp out err lvl tr ws hs].
  destruct cs as [bn bid fn fp fid tot cur ccr ncr]. simpl in Hc, Hn. subst.
  unfold queue_next_cli_cmd, storj_bridge_list_files. unfold_m.
  destruct Hcmd as [-> | ->]; run; reflexivity.
Qed.

(** ** The tokenizer *)

Lemma strstr_unfold str sub :
  strstr str sub =
  if String.prefix sub str then Some 0%nat
  else match str with
       | EmptyString => None
       | String _ rest => S <$> strstr rest sub
       end.
Proof. destruct str; reflexivity. Qed.

Lemma strstr_zero str sub : strstr str sub = Some 0%nat <-> String.prefix sub str = true.
Proof.
  rewrite strstr_unfold. destruct (String.prefix sub str); [split; congruence |].
  destruct str as [|a str]; [split; congruence |].
  destruct (strstr str sub); simpl; split; congruence.
Qed.

Lemma prefix_append (a b : string) : String.prefix a (a +:+ b) = true.
Proof.
  induction a as [|x a IH]; app_simpl; [now destruct b |].
  destruct (ascii_dec x x); [exact IH | congruence].
Qed.

Lemma tokenize_uri3 bucket name :
  bucket <> "" -> name <> "" -> lacks slash bucket = true -> lacks slash name = true ->
  tokenize slash ("storj://" +:+ bucket +:+ "/" +:+ name) = ["storj:"; bucket; name].
Proof.
  intros Hb Hn Lb Ln. unfold tokenize. rewrite !length_append.
  pose proof (length_nonempty _ Hb). pose proof (length_nonempty _ Hn).
  change (String.length "storj://") with 8%nat. change (String.length "/") with 1%nat.
  replace (8 + (String.length bucket + (1 + String.length name)))%nat
    with (S (S (S (5 + String.length bucket + 1 + String.length name))))%nat by lia.
  change ("storj://" +:+ bucket +:+ "/" +:+ name)
    with ("storj:" +:+ String slash (String slash (bucket +:+ "/" +:+ name))).
  rewrite (tokenize_loop_some slash _ "storj:" (String slash (bucket +:+ "/" +:+ name)))
    by (now apply strtok_token).
  rewrite (tokenize_loop_some slash _ bucket name)
    by (rewrite strtok_delim; now apply strtok_token).
  destruct (5 + String.length bucket + 1 + String.length name)%nat eqn:E; [lia |].
  rewrite (tokenize_loop_some slash _ name "") by (now apply strtok_last).
  now rewrite tokenize_loop_none.
Qed.

Lemma tokenize_uri2 bucket :
  bucket <> "" -> lacks slash bucket = true ->
  tokenize slash ("storj://" +:+ bucket) = ["storj:"; bucket].
Proof.
  intros Hb Lb. unfold tokenize. rewrite !length_append.
  pose proof (length_nonempty _ Hb).
  change (String.length "storj://") with 8%nat.
  replace (8 + String.length bucket)%nat
    with (S (S (6 + String.length bucket)))%nat by lia.
  change ("storj://" +:+ bucket) with ("storj:" +:+ String slash (String slash bucket)).
  rewrite (tokenize_loop_some slash _ "storj:" (String slash bucket))
    by (now apply strtok_token).
  rewrite (tokenize_loop_some slash _ bucket "")
    by (rewrite strtok_delim; now apply strtok_last).
  now rewrite tokenize_loop_none.
Qed.

Lemma validate_cmd_tokenize_prefix entries s w :
  strpos s "storj://" = 0 ->
  (length (tokenize slash s) < entries)%nat ->
  validate_cmd_tokenize entries s w
  = (Val (Z.of_nat (length (tokenize slash s)), tokenize slash s), w).
Proof.
  intros H Hlen. unfold validate_cmd_tokenize. rewrite H.
  apply Nat.ltb_lt in Hlen. unfold_m. run. rewrite Hlen. reflexivity.
Qed.

(** The [NULL] after the last token is written past the end of an array
    that has no more entries than there are tokens. *)
Lemma validate_cmd_tokenize_overflow entries s w :
  strpos s "storj://" = 0 ->
  (entries <= length (tokenize slash s))%nat ->
  validate_cmd_tokenize entries s w = (Stop Undefined, w).
Proof.
  intros H Hlen. unfold validate_cmd_tokenize. rewrite H.
  apply Nat.ltb_ge in Hlen. unfold_m. run. rewrite Hlen. reflexivity.
Qed.

Lemma strpos_prefix rest : strpos ("storj://" +:+ rest) "storj://" = 0.
Proof.
  unfold strpos.
  assert (H : strstr ("storj://" +:+ rest) "storj://" = Some 0%nat)
    by (apply strstr_zero, prefix_append).
  now rewrite H.
Qed.

(** The valid forms are cut into the bucket and the name, in an array of
    four entries or more. *)
Lemma validate_cmd_tokenize_valid entries bucket name w :
  (3 < entries)%nat ->
  bucket <> "" -> name <> "" -> lacks slash bucket = true -> lacks slash name = true ->
  validate_cmd_tokenize entries ("storj://" +:+ bucket) w = (Val (2, ["storj:"; bucket]), w) /\
  validate_cmd_tokenize entries ("storj://" +:+ bucket +:+ "/" +:+ name) w
  = (Val (3, ["storj:"; bucket; name]), w).
Proof.
  intros He Hb Hn Lb Ln. split.
  - rewrite validate_cmd_tokenize_prefix;
      rewrite ?tokenize_uri2 by assumption; try apply strpos_prefix; [reflexivity |].
    simpl; lia.
  - rewrite validate_cmd_tokenize_prefix;
      rewrite ?tokenize_uri3 by assumption; try apply strpos_prefix; [reflexivity |].
    simpl; lia.
Qed.

(** Without the prefix at position 0 no token is produced; the count is
    -1 when the prefix occurs nowhere and the position of the prefix
    otherwise. *)
Lemma validate_cmd_tokenize_no_prefix entries s w :
  String.prefix "storj://" s = false ->
  exists r w',
    validate_cmd_tokenize entries s w = (Val (r, []), w') /\
    (r = -1 \/ 0 < r) /\
    (strstr s "storj://" = None -> r = -1).
Proof.
  intros Hp. unfold validate_cmd_tokenize, strpos.
  destruct (strstr s "storj://") as [[|n]|] eqn:E.
  - apply strstr_zero in E. congruence.
  - unfold_m. run. eexists _, _. split; [reflexivity |]. split; [right; lia | discriminate].
  - unfold_m. run. eexists _, _. split; [reflexivity |]. split; [now left | reflexivity].
Qed.

(** ** The options of an upload and the name of the stored file *)

(** C10: every call of the upload executor hands the bridge's store
    operation its options; when none of the four environment variables is
    set they are 1, 64, 64 and erasure coding enabled; erasure coding is
    disabled exactly when STORJ_REED_SOLOMON is set to the text false. *)
Theorem upload_file_options (bucket : option string) (p : string) (w : world) :
  exists w' opts,
    upload_file bucket (Some p) w = (Val 0, w') /\
    trace w' = trace w ++
      [Enter_upload_file bucket (Some p);
       Bridge_store_file (handles w) opts (log_level w =? 0)] /\
    (environ w !! "STORJ_PREPARE_FRAME_LIMIT" = None ->
     environ w !! "STORJ_PUSH_FRAME_LIMIT" = None ->
     environ w !! "STORJ_PUSH_SHARD_LIMIT" = None ->
     environ w !! "STORJ_REED_SOLOMON" = None ->
     prepare_frame_limit opts = 1 /\ push_frame_limit opts = 64 /\
     push_shard_limit opts = 64 /\ rs opts = true) /\
    (rs opts = false <-> environ w !! "STORJ_REED_SOLOMON" = Some "false").
Proof.
  exists (after_upload_file bucket p w), (env_opts w bucket p).
  split; [apply upload_file_some |].
  destruct w as [cs fs0 cwd0 env0 inp out err lvl tr ws hs].
  split; [reflexivity |]. unfold env_opts. simpl. split.
  - intros -> -> -> ->. repeat split.
  - destruct (env0 !! "STORJ_REED_SOLOMON") as [s|]; [| split; discriminate].
    destruct (String.eqb s "false") eqn:E.
    + apply String.eqb_eq in E as ->. split; reflexivity.
    + apply String.eqb_neq in E. split; [discriminate | congruence].
Qed.

Lemma with_stdout_nil w : with_stdout (fun o => o ++ []) w = w.
Proof. destruct w. simpl. now rewrite app_nil_r. Qed.

Lemma print_tokens_frame entries prefix tokens count : forall j w,
  (j + count <= entries)%nat ->
  exists extra,
    print_tokens entries prefix tokens j count w
    = (Val tt, with_stdout (fun o => o ++ extra) w).
Proof.
  induction count as [|count IH]; intros j w Hj.
  - exists []. simpl. unfold ret. now rewrite with_stdout_nil.
  - cbn [print_tokens].
    assert (Hlt : (j <? entries)%nat = true) by (apply Nat.ltb_lt; lia).
    rewrite Hlt. unfold_m. run.
    match goal with
    | |- context [print_tokens entries prefix tokens ?i count ?v] =>
        destruct (IH i v ltac:(lia)) as [extra Hx]
    end.
    rewrite Hx. destruct w. simpl. eexists. now rewrite <- app_assoc.
Qed.

(** Through [cli_upload_file], whose [token] has ten entries, a
    single-file upload whose destination is cut into two tokens
    (no file name) or into three tokens the last of which is a dot stores
    the file under the basename of the local path: once the bucket is
    resolved, the executor hands the bridge's store operation options whose
    file name is that basename. *)
Theorem single_upload_keeps_basename (path dst : string) (w : world)
    (req : get_buckets_request_t) (pre : list storj_bucket_meta_t) (b : storj_bucket_meta_t)
    (post : list storj_bucket_meta_t) (scheme bname content : string) :
  fs w !! abspath (cwd w) path = Some (Reg content) ->
  bucket_id (cli w) = None ->
  file_name (cli w) = None ->
  strpos dst "storj://" = 0 ->
  tokenize slash dst = [scheme; bname] \/ tokenize slash dst = [scheme; bname; "."] ->
  buckets req = pre ++ b :: post ->
  Forall (fun x => b_name x <> bname) pre ->
  b_name b = bname ->
  exists w' opts,
    (cli_upload_file path dst ;; get_bucket_id_callback req 0) w = (Val tt, w') /\
    trace w' = trace w ++
      [Bridge_get_buckets;
       Enter_upload_file (Some (b_id b)) (Some path);
       Bridge_store_file (handles w) opts (log_level w =? 0)] /\
    opt_file_name opts = Some (basename path).
Proof.
  intros Hfs Hbid Hfn Hpos Htok Hb Hpre Hbn.
  destruct w as [cs fs0 cwd0 env0 inp out err lvl tr ws hs].
  destruct cs as [bn bid fn fp fid tot cur ccr ncr]. simpl in Hfs, Hbid, Hfn. subst bid fn.
  unfold bind at 1. unfold cli_upload_file, file_exists, stat, storj_bridge_get_buckets.
  unfold_m. run. rewrite Hfs. run.
  rewrite get_filename_separator_basename. run.
  rewrite (validate_cmd_tokenize_prefix _ _ _ Hpos)
    by (destruct Htok as [-> | ->]; simpl; lia).
  destruct Htok as [-> | ->]; run.
  - erewrite get_bucket_id_callback_match;
      [| reflexivity | exact Hb | exact Hpre | exact Hbn | reflexivity | reflexivity].
    rewrite queue_next_single_upload by reflexivity.
    unfold bind. simpl bucket_id. simpl file_path. rewrite upload_file_some.
    eexists _, _. split; [reflexivity |]. simpl. rewrite <- app_assoc. split; reflexivity.
  - destruct (String.eqb (basename path) "."); run.
    all: erewrite get_bucket_id_callback_match;
      [| reflexivity | exact Hb | exact Hpre | exact Hbn | reflexivity | reflexivity].
    all: rewrite queue_next_single_upload by reflexivity.
    all: unfold bind; simpl bucket_id; simpl file_path; rewrite upload_file_some.
    all: eexists _, _; split; [reflexivity |]; simpl; rewrite <- app_assoc; split; reflexivity.
Qed.

(** ** The [cp] block of [main] *)

(** With two tokens the block names the destination after the basename of
    the local path. *)
Lemma main_cp_two_tokens path dst w scheme bname :
  strpos dst "storj://" = 0 ->
  tokenize slash dst = [scheme; bname] ->
  exists w' api,
    main_cp_single_file path dst w = (Val (Some api), w') /\
    api_dst_file api = Some (basename path).
Proof.
  intros Hpos Htok. unfold main_cp_single_file. unfold bind at 1.
  rewrite (validate_cmd_tokenize_prefix _ _ _ Hpos) by (rewrite Htok; simpl; lia).
  rewrite Htok. unfold_m. run.
  match goal with
  | |- context [print_tokens ?e ?p ?t ?j ?c ?v] =>
      destruct (print_tokens_frame e p t c j v ltac:(simpl; lia)) as [extra Hx]; rewrite Hx
  end.
  run. rewrite get_filename_separator_basename. run.
  eexists _, _. split; reflexivity.
Qed.

(** With three tokens the tokenizer writes a fourth entry into the three
    of [char *token[0x03]]. *)
Lemma main_cp_three_tokens path dst w :
  strpos dst "storj://" = 0 ->
  (3 <= length (tokenize slash dst))%nat ->
  main_cp_single_file path dst w = (Stop Undefined, w).
Proof.
  intros Hpos Hlen. unfold main_cp_single_file. unfold bind at 1.
  now rewrite (validate_cmd_tokenize_overflow _ _ _ Hpos Hlen).
Qed.

(** ** The callbacks *)

Section Facts.

Variable storj_strerror : Z -> string.
Variable STORJ_FILE_DECRYPTION_ERROR : Z.

Lemma upload_file_complete_next status f w :
  ~ (total_files (cli w) = 0 /\ curr_up_file (cli w) = 0) ->
  upload_file_complete storj_strerror status (Some f) w =
  queue_next_cli_cmd (with_stdout (fun o => o ++ upload_report storj_strerror status (f_id f)) w).
Proof.
  intros Hbatch. unfold upload_file_complete, upload_report.
  destruct w as [cs fs0 cwd0 env0 inp out err lvl tr ws hs].
  destruct cs as [bn bid fn fp fid tot cur ccr ncr]. simpl in Hbatch.
  unfold_m. run.
  assert (Hb : ((tot =? 0) && (cur =? 0))%bool = false).
  { destruct (tot =? 0) eqn:E1; destruct (cur =? 0) eqn:E2; try reflexivity. exfalso. lia. }
  destruct (status =? 0); run; rewrite Hb; rewrite <- ?app_assoc; reflexivity.
Qed.


Lemma list_files_callback_wildcard req w :
  lf_status_code req = 200 ->
  curr_cmd_req (cli w) = Some "download-file" ->
  file_name (cli w) = Some "*" ->
  forallb plain_item (files req) = true ->
  (forall a b, fs w !! abspath (cwd w) "dwnld_list.txt" <> Some (Dir a b)) ->
  Z.of_nat (length (files req)) <= int_max ->
  list_files_callback req 0 w =
  queue_next_cli_cmd
    (with_cli (set_next_cmd_req (Some "download-file-1"))
       (with_cli (set_curr_up_file 1)
          (with_fs (insert (abspath (cwd w) "dwnld_list.txt") (Reg (list_text (files req))))
             (with_cli (set_total_files (Z.of_nat (length (files req))))
                (with_cli (set_file_id None)
                   (with_stdout (fun o => o ++ no_files_report req) w)))))).
Proof.
  intros Hs Hc Hn Hall Hnd Hmax. unfold list_files_callback, no_files_report.
  destruct w as [cs fs0 cwd0 env0 inp out err lvl tr ws hs].
  destruct cs as [bn bid fn fp fid tot cur ccr ncr].
  simpl in Hc, Hn, Hnd. subst ccr fn. rewrite Hs.
  unfold fopen_w, stat, req_total_files. unfold_m. run.
  destruct (fs0 !! abspath cwd0 "dwnld_list.txt") as [[| a b |]|] eqn:E;
    try (exfalso; now apply (Hnd a b)).
  all: destruct (Z.of_nat (length (files req)) =? 0) eqn:E0; run; repeat (rewrite E; run).
  all: erewrite list_files_loop_writes;
    [| reflexivity | reflexivity | exact Hall | run; apply lookup_insert_eq].
  all: run; rewrite insert_insert_eq, append_nil_l.
  all: rewrite wrap_int_small by (unfold int_min, int_max in *; lia).
  all: rewrite ?app_nil_r; reflexivity.
Qed.




(** The round trip of the list for the items it carries: for every
    non-empty sequence of at most 256 work
    items whose identifiers and names are not empty and hold neither a
    colon nor a newline, whose names are not the wildcard and whose lines
    are shorter than 256 characters, the file listing writes one [id:name]
    line per item, in order; reading the list at cursor [k] gives back
    exactly item [k], which the queue manager hands to the executor (the
    path of the destination being shorter than 1024 characters); past the
    last item the queue manager signals the end of the list by leaving with
    status 0. *)
Theorem download_list_round_trip (req : list_files_request_t) (w : world) (dir : string) :
  files req <> [] ->
  listable dir (files req) ->
  lf_status_code req = 200 ->
  curr_cmd_req (cli w) = Some "download-file" ->
  file_name (cli w) = Some "*" ->
  file_path (cli w) = Some dir ->
  (forall a b, fs w !! abspath (cwd w) "dwnld_list.txt" <> Some (Dir a b)) ->
  (exists w1,
      list_files_callback req 0 w = queue_next_cli_cmd w1 /\
      download_batch (files req) dir w1 /\
      curr_up_file (cli w1) = 1 /\ trace w1 = trace w) /\
  (forall k file,
      files req !! k = Some file ->
      read_item (split_lines (list_text (files req))) (Z.of_nat k + 1)
      = Some [f_id file; f_filename file]) /\
  (forall v k file,
      download_batch (files req) dir v ->
      files req !! k = Some file ->
      curr_up_file (cli v) = Z.of_nat k + 1 ->
      queue_next_cli_cmd v =
      (download_file (bucket_id (cli v)) (Some (f_id file)) (Some (dir +:+ f_filename file)) ;;
       ret tt)
        (with_cli (set_curr_up_file (Z.of_nat k + 2))
           (with_stdout
              (fun o => o ++ [downloading_msg (Z.of_nat k + 1) (total_files (cli v))
                                (dir +:+ f_filename file)])
              (with_cli (set_file_id (Some (f_id file))) v)))) /\
  (forall v,
      download_batch (files req) dir v ->
      curr_up_file (cli v) = Z.of_nat (length (files req)) + 1 ->
      queue_next_cli_cmd v =
      (Stop (Exit 0),
       with_stdout (fun o => o ++ ["***** done downloading files  *****" +:+ nl]) v)).
Proof.
  intros Hne Hlist Hs Hc Hn Hp Hnd.
  pose proof Hlist as (Hall & Hpaths & Hrows).
  assert (Hmax : Z.of_nat (length (files req)) < int_max)
    by (unfold line_row, int_max in *; lia).
  split; [| split; [| split]].
  - eexists. split.
    + apply list_files_callback_wildcard; try assumption. lia.
    + destruct w as [cs fs0 cwd0 env0 inp out err lvl tr ws hs].
      destruct cs as [bn bid fn fp fid tot cur ccr ncr].
      simpl in Hc, Hn, Hp, Hnd. subst. unfold download_batch. simpl.
      rewrite lookup_insert_eq. repeat split; try reflexivity; assumption.
  - intros k file Hk. now apply read_item_at.
  - intros v k file (Hvc & Hvn & Hvp & Hvfs & Hvtot & _) Hk Hcur.
    pose proof (lookup_lt_Some _ _ _ Hk) as Hlt.
    apply (queue_next_download_item v (files req)); try assumption; try lia.
    apply (listable_item _ _ _ _ Hlist Hk).
  - intros v (Hvc & Hvn & Hvp & Hvfs & Hvtot & _) Hcur.
    apply (queue_next_download_done v (files req)); try assumption. lia.
Qed.




(** ** Whole batches, from the first item to the end of the invocation *)

Lemma upload_items_drop content k :
  (k < length (split_lines content))%nat ->
  drop k (upload_items content) = upload_item content k :: drop (S k) (upload_items content).
Proof.
  intros Hk. apply drop_S. unfold upload_items, upload_item.
  rewrite list_lookup_fmap.
  destruct (split_lines content !! k) as [line|] eqn:E.
  - simpl. f_equal. f_equal. symmetry. now apply nth_lookup_Some.
  - apply lookup_ge_None in E. lia.
Qed.

Lemma upload_rounds lst content : forall completions w k,
  upload_batch lst content w ->
  curr_up_file (cli w) = Z.of_nat k + 1 ->
  (1 <= k <= length (split_lines content))%nat ->
  length completions = (length (split_lines content) - k + 1)%nat ->
  exists w',
    uv_run storj_strerror STORJ_FILE_DECRYPTION_ERROR (store_file_completions completions) w
    = (Stop (Exit 0), w') /\
    trace w' = trace w ++ upload_trace w (drop k (upload_items content)).
Proof.
  induction completions as [|[status file] rest IH];
    intros w k (Hc & Hn & Hf & Hfs & Htot & Hfit) Hcur Hk Hlen.
  - simpl in Hlen. lia.
  - pose proof (rows_fit_length _ 0 ltac:(unfold line_row; lia) Hfit) as Hrows.
    assert (Hmax : Z.of_nat k + 1 < int_max) by (unfold line_row, int_max in *; lia).
    cbn [store_file_completions map uv_run fst snd]. unfold bind at 1. unfold deliver.
    rewrite upload_file_complete_next by lia.
    destruct (Nat.eq_dec k (length (split_lines content))) as [Hlast | Hmore].
    + destruct (queue_next_upload_done
                  (with_stdout (fun o => o ++ upload_report storj_strerror status (f_id file)) w)
                  lst content) as (p & extra & Hdone).
      1-6: open_world w; simpl in *; try assumption; try lia.
      rewrite Hdone. eexists. split; [reflexivity |].
      rewrite drop_ge by (unfold upload_items; rewrite length_map; lia).
      open_world w. simpl. now rewrite app_nil_r.
    + destruct (queue_next_upload_step
                  (with_stdout (fun o => o ++ upload_report storj_strerror status (f_id file)) w)
                  lst content (Z.of_nat k + 1)) as [extra Hstep].
      1-10: open_world w; simpl in *; try assumption; try lia.
      rewrite Hstep.
      replace (Z.to_nat (Z.of_nat k + 1 - 1)) with k by lia.
      match goal with
      | |- context [uv_run _ _ _ ?v] =>
          destruct (IH v (S k)) as (w' & Hrun & Htrace)
      end.
      * open_world w; simpl in *. repeat split; assumption.
      * open_world w; simpl in *. lia.
      * lia.
      * simpl in Hlen. lia.
      * exists w'. split; [exact Hrun |]. rewrite Htrace.
        rewrite (upload_items_drop content k) by lia.
        open_world w. unfold upload_trace, env_opts. simpl.
        rewrite <- app_assoc. reflexivity.
Qed.

(** A batch of uploads, from its start to the end of the invocation: the
    items of the list are handed to the executor and to the bridge one
    after the other in the order of the lines, each once, and the process
    leaves with status 0 after the last completion. *)
Lemma upload_batch_in_order lst content completions w :
  upload_batch lst content w ->
  curr_up_file (cli w) = 1 ->
  split_lines content <> [] ->
  length completions = length (split_lines content) ->
  exists w',
    (queue_next_cli_cmd ;;
     uv_run storj_strerror STORJ_FILE_DECRYPTION_ERROR (store_file_completions completions)) w
    = (Stop (Exit 0), w') /\
    trace w' = trace w ++ upload_trace w (upload_items content).
Proof.
  intros Hb Hcur Hne Hlen. pose proof Hb as (Hc & Hn & Hf & Hfs & Htot & Hfit).
  pose proof (rows_fit_length _ 0 ltac:(unfold line_row; lia) Hfit) as Hrows.
  assert (Hpos : (1 <= length (split_lines content))%nat)
    by (destruct (split_lines content); [congruence | simpl; lia]).
  destruct (queue_next_upload_step w lst content 1) as [extra Hstep];
    try assumption; try (unfold line_row, int_max in *; lia).
  unfold bind. rewrite Hstep. change (Z.to_nat (1 - 1)) with 0%nat.
  match goal with
  | |- context [uv_run _ _ _ ?v] =>
      destruct (upload_rounds lst content completions v 1) as (w' & Hrun & Htrace)
  end.
  - open_world w; simpl in *. repeat split; assumption.
  - open_world w; reflexivity.
  - lia.
  - lia.
  - exists w'. split; [exact Hrun |]. rewrite Htrace.
    change (upload_items content) with (drop 0 (upload_items content)) at 2.
    rewrite (upload_items_drop content 0) by lia.
    open_world w. unfold upload_trace, env_opts. simpl.
    rewrite <- app_assoc. reflexivity.
Qed.



End Facts.

(** ** The scenarios, run *)

(** C1: the upload of an empty directory.  The list file has no line, the
    cursor and the total are both 0, and the queue manager takes the branch
    that hands an item to the executor: it reads [line[i-1]] with [i = 0],
    before the first row of the array. *)
Theorem empty_upload_list_is_undefined :
  let r := (cli_upload_file "/data/empty" "storj://docs" ;;
            run_events [get_buckets_done two_buckets 0]) empty_directory_world in
  fst r = Stop Undefined /\
  total_files (cli (snd r)) = 0 /\ curr_up_file (cli (snd r)) = 0 /\
  file_path (cli (snd r)) = None /\
  fs (snd r) !! "/home/u/output.txt" = Some (Reg "") /\
  trace (snd r) = [Bridge_get_buckets].
Proof. intros r. repeat apply conj; vm_compute; reflexivity. Qed.

(** C3: the download of a file the listing of the bucket does not hold.
    Nothing is reported, the executor is entered with a null file
    identifier, the destination is created, the bridge is asked to resolve
    the null identifier, and the process waits for that transfer; when the
    transfer completes, with a failure status say, the process leaves with
    status 0. *)
Theorem absent_file_is_downloaded_with_null_id :
  let answers := [get_buckets_done two_buckets 0; list_files_done other_listing 0] in
  let r := (cli_download_file (Some "/tmp/report.pdf") "storj://docs/report.pdf" ;;
            run_events answers) world0 in
  let r' := (cli_download_file (Some "/tmp/report.pdf") "storj://docs/report.pdf" ;;
             run_events (answers ++ [resolve_file_done 1])) world0 in
  fst r = Val tt /\
  trace (snd r) =
    [Bridge_get_buckets; Bridge_list_files (Some "b1");
     Enter_download_file (Some "b1") None (Some "/tmp/report.pdf");
     Bridge_resolve_file 0 (Some "b1") None (Some "/tmp/report.pdf") true] /\
  stdout (snd r) = [show_bucket docs_bucket] /\
  stderr (snd r) = [] /\
  fs (snd r) !! "/tmp/report.pdf" = Some (Reg "") /\
  exit_status r = None /\
  trace (snd r') = trace (snd r) /\
  stdout (snd r') = [show_bucket docs_bucket; nl; "Download failure: status 1" +:+ nl] /\
  exit_status r' = Some 0.
Proof. intros answers r r'. repeat apply conj; vm_compute; reflexivity. Qed.

(** C5: a destination with the prefix at position 2.  The tokenizer prints
    nothing and returns the position as the number of tokens; the upload
    goes on as for two tokens, with a null bucket name, and asks the bridge
    for the buckets. *)
Theorem prefix_past_the_start_counts_as_tokens :
  (forall entries w, validate_cmd_tokenize entries "abstorj://b" w = (Val (2, []), w)) /\
  let r := cli_upload_file "/data/f.txt" "abstorj://b" one_file_world in
  fst r = Val 0 /\
  stdout (snd r) = ["[2518] target file name = f.txt" +:+ nl] /\
  trace (snd r) = [Bridge_get_buckets] /\
  bucket_name (cli (snd r)) = None /\
  curr_cmd_req (cli (snd r)) = Some "upload-file".
Proof.
  split; [intros entries w; reflexivity |].
  intros r. repeat apply conj; vm_compute; reflexivity.
Qed.

(** C7: a download onto a file that exists, the user answering [n].  The
    executor asks, reports the cancellation and returns 1 without touching
    the file or the bridge; the queue manager drops that result, nothing is
    left to wait for, and [main] returns 0. *)
Theorem declined_overwrite_exits_with_zero :
  let r := (cli_download_file (Some "/tmp/report.pdf") "storj://docs/report.pdf" ;;
            run_events [get_buckets_done two_buckets 0; list_files_done docs_listing 0])
             existing_destination_world in
  fst r = Val tt /\
  trace (snd r) =
    [Bridge_get_buckets; Bridge_list_files (Some "b1");
     Enter_download_file (Some "b1") (Some "f2") (Some "/tmp/report.pdf")] /\
  stdout (snd r) =
    [show_bucket docs_bucket;
     "Warning: File already exists at path [/tmp/report.pdf]." +:+ nl;
     "Would you like to overwrite [/tmp/report.pdf]: [y/n] ";
     nl +:+ "Canceled overwriting of [/tmp/report.pdf]." +:+ nl] /\
  fs (snd r) !! "/tmp/report.pdf" = Some (Reg "old") /\
  watchers (snd r) = [] /\
  exit_status r = Some 0.
Proof. intros r. repeat apply conj; vm_compute; reflexivity. Qed.

(** The wildcard download from a bucket without files: the list file is
    empty, the cursor is 1 and the total 0; the queue manager reads no
    line and cuts the uninitialised [temp] into tokens. *)
Lemma empty_download_list_is_undefined :
  let r := list_files_callback (Build_list_files_request 200 "b1" []) 0 wildcard_world in
  fst r = Stop Undefined /\
  fs (snd r) !! "/home/u/dwnld_list.txt" = Some (Reg "") /\
  total_files (cli (snd r)) = 0 /\ curr_up_file (cli (snd r)) = 1 /\
  trace (snd r) = [].
Proof. intros r. repeat apply conj; vm_compute; reflexivity. Qed.

(** Item 257 of a list is read into row 256 of [line], past its end. *)
Lemma row_257_is_undefined :
  let items := repeat a_txt 257 in
  read_item (split_lines (list_text items)) 256 = Some ["f1"; "a.txt"] /\
  read_item (split_lines (list_text items)) 257 = None.
Proof. intros items. split; vm_compute; reflexivity. Qed.


(** C8: the list does not give back an item whose name holds a colon.  The
    listing of [notes:v2.txt] is written as the line [5a1:notes:v2.txt];
    the queue manager cuts the line at every colon and takes the second
    piece for the name, so that the item read back is [notes] and the
    executor is handed the destination [/tmp/notes]. *)
Theorem download_list_colon_is_not_read_back :
  let r := list_files_callback colon_listing 0 wildcard_world in
  fs (snd r) !! "/home/u/dwnld_list.txt" = Some (Reg ("5a1:notes:v2.txt" +:+ nl)) /\
  read_item (split_lines ("5a1:notes:v2.txt" +:+ nl)) 1 = Some ["5a1"; "notes"; "v2.txt"] /\
  read_item (split_lines (list_text (files colon_listing))) 1
  <> Some [f_id notes_v2; f_filename notes_v2] /\
  trace (snd r) =
    [Enter_download_file (Some "b1") (Some "5a1") (Some "/tmp/notes");
     Bridge_resolve_file 0 (Some "b1") (Some "5a1") (Some "/tmp/notes") true].
Proof.
  intros r. repeat apply conj; try (vm_compute; reflexivity).
  vm_compute. discriminate.
Qed.

(** C9: in the [cp] block of [main] the destination [storj://docs/.] is
    cut into three tokens, and the tokenizer writes the null that ends them
    into a fourth entry of [char *token[0x03]]: the behaviour is undefined
    and the file is given no name.  With two tokens, [storj://docs], the
    block names the file after the basename of the local path. *)
Theorem main_cp_dot_destination_is_undefined :
  tokenize slash "storj://docs/." = ["storj:"; "docs"; "."] /\
  main_cp_single_file "/data/f.txt" "storj://docs/." one_file_world
  = (Stop Undefined, one_file_world) /\
  exists w' api,
    main_cp_single_file "/data/f.txt" "storj://docs" one_file_world = (Val (Some api), w') /\
    api_dst_file api = Some "f.txt".
Proof.
  split; [reflexivity |]. split; [vm_compute; reflexivity |].
  eexists _, _. split; vm_compute; reflexivity.
Qed.

(** ** The theorems at the scenarios *)

(** The bucket resolver, for the upload of one file to [docs]. *)
Lemma bucket_resolver_witness :
  let w := snd (cli_upload_file "/data/f.txt" "storj://docs" one_file_world) in
  bucket_name (cli w) = Some "docs" /\
  gb_status_code two_buckets = 200 /\
  get_bucket_id_callback two_buckets 0 w
  = queue_next_cli_cmd (resolved_world docs_bucket "upload-file-1" w) /\
  bucket_id (cli (resolved_world docs_bucket "upload-file-1" w)) = Some "b1".
Proof.
  intros w.
  assert (Hname : bucket_name (cli w) = Some "docs") by (vm_compute; reflexivity).
  assert (Hstatus : gb_status_code two_buckets = 200) by reflexivity.
  split; [exact Hname |]. split; [exact Hstatus |].
  destruct (bucket_resolver two_buckets w "docs" Hname (or_introl Hstatus)) as [Hmatch _].
  destruct (Hmatch [photos_bucket] docs_bucket [] "upload-file" "upload-file-1")
    as (Hcall & Hid & _).
  - reflexivity.
  - repeat constructor. discriminate.
  - reflexivity.
  - vm_compute. reflexivity.
  - reflexivity.
  - split; [exact Hcall | exact Hid].
Defined.

(** A single upload to [storj://docs/.]. *)
Lemma single_upload_keeps_basename_witness :
  fs one_file_world !! abspath (cwd one_file_world) "/data/f.txt" = Some (Reg "x") /\
  tokenize slash "storj://docs/." = ["storj:"; "docs"; "."] /\
  exists w' opts,
    (cli_upload_file "/data/f.txt" "storj://docs/." ;; get_bucket_id_callback two_buckets 0)
      one_file_world = (Val tt, w') /\
    trace w' = trace one_file_world ++
      [Bridge_get_buckets;
       Enter_upload_file (Some (b_id docs_bucket)) (Some "/data/f.txt");
       Bridge_store_file (handles one_file_world) opts (log_level one_file_world =? 0)] /\
    opt_file_name opts = Some (basename "/data/f.txt").
Proof.
  assert (Hfs : fs one_file_world !! abspath (cwd one_file_world) "/data/f.txt"
                = Some (Reg "x")) by (vm_compute; reflexivity).
  assert (Htok : tokenize slash "storj://docs/." = ["storj:"; "docs"; "."])
    by (vm_compute; reflexivity).
  split; [exact Hfs |]. split; [exact Htok |].
  apply (single_upload_keeps_basename "/data/f.txt" "storj://docs/." one_file_world
           two_buckets [photos_bucket] docs_bucket [] "storj:" "docs" "x").
  - exact Hfs.
  - reflexivity.
  - reflexivity.
  - vm_compute. reflexivity.
  - right. exact Htok.
  - reflexivity.
  - repeat constructor. discriminate.
  - reflexivity.
Defined.




(** The listing of [docs] written and read back. *)
Lemma download_list_round_trip_witness :
  listable "/tmp/" (files docs_listing) /\
  (exists w1,
      list_files_callback docs_listing 0 wildcard_world = queue_next_cli_cmd w1 /\
      download_batch (files docs_listing) "/tmp/" w1) /\
  read_item (split_lines (list_text (files docs_listing))) 1 = Some ["f1"; "a.txt"] /\
  read_item (split_lines (list_text (files docs_listing))) 2 = Some ["f2"; "report.pdf"].
Proof.
  assert (Hlist : listable "/tmp/" (files docs_listing)).
  { repeat apply conj; try (vm_compute; reflexivity). vm_compute. discriminate. }
  split; [exact Hlist |].
  destruct (download_list_round_trip docs_listing wildcard_world "/tmp/")
    as ((w1 & Hw & Hb & _) & Hread & _).
  - discriminate.
  - exact Hlist.
  - reflexivity.
  - reflexivity.
  - reflexivity.
  - reflexivity.
  - intros a b. vm_compute. discriminate.
  - split; [exists w1; split; [exact Hw | exact Hb] |].
    split; [exact (Hread 0%nat a_txt eq_refl) | exact (Hread 1%nat report_pdf eq_refl)].
Defined.


(** ** The string functions on small inputs *)

Example strstr_ex : strstr "abstorj://b" "storj://" = Some 2%nat.
Proof. reflexivity. Qed.
Example tok_ex : tokenize slash "storj://bucket/name" = ["storj:"; "bucket"; "name"].
Proof. reflexivity. Qed.
Example lines_ex : split_lines ("ab" +:+ nl +:+ "cd") = ["ab" +:+ nl; "cd"].
Proof. reflexivity. Qed.
Example atoi_ex : atoi "  -42x" = -42 /\ show_int (-42) = "-42" /\ show_int 0 = "0".
Proof. repeat split; reflexivity. Qed.
Example cut_ex : cut_last ("ab" +:+ nl) newline = "ab" /\ strrchr "/a/b.txt" slash = Some "/b.txt".
Proof. split; reflexivity. Qed.

(** ** The password typed at the console *)

Lemma next_char_chars inp a rest :
  next_char inp = Some (a, rest) -> input_chars inp = S (input_chars rest).
Proof.
  induction inp as [|s inp IH]; [discriminate |].
  destruct s as [|b [|c s]]; simpl.
  - exact IH.
  - intros [= <- <-]. reflexivity.
  - intros [= <- <-]. simpl. reflexivity.
Qed.

Lemma next_char_line a s rest :
  next_char (String a (s +:+ nl) :: rest) = Some (a, (s +:+ nl) :: rest).
Proof. destruct s; reflexivity. Qed.

Lemma next_char_newline rest : next_char (nl :: rest) = Some (newline, rest).
Proof. reflexivity. Qed.


(** The loop keeps the password within 511 bytes and ends before its
    rounds run out. *)
Lemma get_password_loop_bound mask : forall rounds password w,
  (input_chars (stdin w) < rounds)%nat ->
  Z.of_nat (length password) <= 511 ->
  exists result w',
    get_password_loop rounds mask password w = (Val result, w') /\
    Z.of_nat (length result) <= 511 /\
    fs w' = fs w /\ trace w' = trace w /\ cli w' = cli w.
Proof.
  induction rounds as [|rounds IH]; intros password w Hfuel Hlen; [lia |].
  fields w. simpl in Hfuel.
  cbn [get_password_loop]. console.
  destruct (next_char inp) as [[a rest]|] eqn:E; console.
  2: { eexists _, _. split; [reflexivity |]. repeat split. assumption. }
  apply next_char_chars in E.
  unfold max_pass_len.
  destruct (negb (Ascii.eqb a newline) && (Z.of_nat (length password) <? 512 - 1)
            || (Z.of_nat (length password) =? 512 - 1) && Ascii.eqb a DEL)%bool eqn:Econd.
  2: { eexists _, _. split; [reflexivity |]. repeat split. assumption. }
  destruct (negb (Ascii.eqb a DEL) && negb (Ascii.eqb a BACKSPACE))%bool eqn:Ekind.
  - assert (Hroom : Z.of_nat (length password) < 511).
    { destruct (Z.of_nat (length password) <? 512 - 1) eqn:E1; [lia |].
      rewrite andb_false_r in Econd. simpl in Econd.
      apply andb_prop in Econd as [_ Hdel]. apply andb_prop in Ekind as [Hnd _].
      rewrite Hdel in Hnd. discriminate. }
    destruct (echoes mask); console;
      match goal with
      | |- context [get_password_loop rounds mask ?p ?v] =>
          destruct (IH p v) as (result & w' & Hrun & Hres & Hfs & Htr & Hcli);
            [simpl; lia | rewrite length_app; simpl; lia |]
      end; rewrite Hrun; eexists _, _; (split; [reflexivity |]); repeat split; assumption.
  - destruct (0 <? Z.of_nat (length password)) eqn:Epos.
    + assert (Hlast : Z.of_nat (length (removelast password)) <= 511).
      { destruct password as [|x p]; [simpl; lia |].
        rewrite removelast_firstn_len, length_firstn. lia. }
      destruct (echoes mask); console;
        match goal with
        | |- context [get_password_loop rounds mask ?p ?v] =>
            destruct (IH p v) as (result & w' & Hrun & Hres & Hfs & Htr & Hcli);
              [simpl; lia | exact Hlast |]
        end; rewrite Hrun; eexists _, _; (split; [reflexivity |]); repeat split; assumption.
    + match goal with
      | |- context [get_password_loop rounds mask ?p ?v] =>
          destruct (IH p v) as (result & w' & Hrun & Hres & Hfs & Htr & Hcli);
            [simpl; lia | exact Hlen |]
      end.
      rewrite Hrun. eexists _, _. split; [reflexivity |]. repeat split; assumption.
Qed.

Lemma next_char_more a t rest :
  t <> "" -> next_char (String a t :: rest) = Some (a, t :: rest).
Proof. destruct t; [congruence | reflexivity]. Qed.

Lemma append_nonempty (s t : string) : t <> "" -> s +:+ t <> "".
Proof. destruct s; [now rewrite append_nil_l | rewrite append_cons; discriminate]. Qed.

Lemma mask_echo_step mask n (o : list string) :
  (if echoes mask then o ++ [String (ascii_of_nat (Z.to_nat mask)) ""] else o)
    ++ mask_echo mask n
  = o ++ mask_echo mask (S n).
Proof.
  unfold mask_echo. destruct (echoes mask); [| reflexivity].
  now rewrite <- app_assoc.
Qed.

Lemma typed_parts a :
  typed a = true ->
  Ascii.eqb a newline = false /\ Ascii.eqb a DEL = false /\ Ascii.eqb a BACKSPACE = false.
Proof.
  unfold typed. intros H. apply andb_prop in H as [H H3]. apply andb_prop in H as [H1 H2].
  repeat split; now apply negb_true_iff.
Qed.

(** The characters of a line that are typed go into the password one by
    one, each echoed by the mask. *)
Lemma get_password_loop_typed mask s : forall rounds password w tail rest,
  all_typed s = true -> tail <> "" ->
  stdin w = (s +:+ tail) :: rest ->
  Z.of_nat (length password) + Z.of_nat (String.length s) <= 511 ->
  get_password_loop (String.length s + rounds) mask password w
  = get_password_loop rounds mask (password ++ list_ascii_of_string s)
      (with_stdout (fun o => o ++ mask_echo mask (String.length s))
         (with_stdin (tail :: rest) w)).
Proof.
  induction s as [|a s IH]; intros rounds password w tail rest Hall Htail Hin Hlen.
  - fields w. simpl in Hin. subst inp. simpl.
    rewrite app_nil_r. unfold mask_echo. destruct (echoes mask); simpl; now rewrite app_nil_r.
  - cbn [all_typed] in Hall. apply andb_prop in Hall as [Ha Hs].
    destruct (typed_parts a Ha) as (Hnl & Hdel & Hbs).
    change (String.length (String a s)) with (S (String.length s)) in *.
    fields w. simpl in Hin. subst inp. rewrite append_cons.
    change (S (String.length s) + rounds)%nat with (S (String.length s + rounds)).
    cbn [get_password_loop]. console.
    rewrite (next_char_more a (s +:+ tail) rest) by now apply append_nonempty.
    console. rewrite Hnl, Hdel, Hbs. unfold max_pass_len.
    assert (Hroom : (Z.of_nat (length password) <? 512 - 1) = true) by (apply Z.ltb_lt; lia).
    rewrite Hroom. console.
    assert (Hstep : forall v, stdin v = (s +:+ tail) :: rest ->
              get_password_loop (String.length s + rounds) mask (password ++ [a]) v
              = get_password_loop rounds mask ((password ++ [a]) ++ list_ascii_of_string s)
                  (with_stdout (fun o => o ++ mask_echo mask (String.length s))
                     (with_stdin (tail :: rest) v))).
    { intros v Hv. apply IH; try assumption. rewrite length_app. simpl length. lia. }
    destruct (echoes mask) eqn:Em; console; rewrite Hstep by reflexivity;
      cbn [with_stdin with_stdout list_ascii_of_string]; rewrite <- app_assoc;
      do 2 f_equal; unfold mask_echo; rewrite Em; cbn [repeat app];
      rewrite <- ?app_assoc; reflexivity.
Qed.

Lemma length_list_ascii s : length (list_ascii_of_string s) = String.length s.
Proof. induction s as [|a s IH]; simpl; [reflexivity | now rewrite IH]. Qed.

Lemma input_chars_line s tail rest :
  input_chars ((s +:+ tail) :: rest)
  = (String.length s + (String.length tail + input_chars rest))%nat.
Proof. simpl. rewrite length_append. lia. Qed.

(** X1: a line of at most 511 typed characters is the password. *)
Theorem get_password_reads_the_line (mask : Z) (s : string) (rest : list string) (w : world) :
  all_typed s = true ->
  Z.of_nat (String.length s) <= 511 ->
  stdin w = (s +:+ nl) :: rest ->
  get_password mask w
  = (Val (list_ascii_of_string s),
     with_stdout (fun o => o ++ mask_echo mask (String.length s)) (with_stdin rest w)).
Proof.
  intros Hall Hlen Hin. unfold get_password, bind, get. rewrite Hin.
  rewrite input_chars_line.
  replace (S (String.length s + (String.length nl + input_chars rest)))
    with (String.length s + S (S (input_chars rest)))%nat by (simpl; lia).
  rewrite (get_password_loop_typed mask s _ [] w nl rest); try assumption;
    [| discriminate].
  fields w. cbn [get_password_loop]. console.
  rewrite next_char_newline. console.
  change (Ascii.eqb newline newline) with true.
  change (Ascii.eqb newline DEL) with false. cbn [negb andb orb].
  rewrite andb_false_r. reflexivity.
Qed.

(** X2: of a longer line the first 511 characters are the password; the
    character after them is read and dropped, and what follows it stays in
    the input. *)
Theorem get_password_cuts_a_long_line (mask : Z) (s : string) (a : ascii) (tail : string)
    (rest : list string) (w : world) :
  all_typed s = true ->
  Z.of_nat (String.length s) = 511 ->
  Ascii.eqb a DEL = false ->
  tail <> "" ->
  stdin w = (s +:+ String a tail) :: rest ->
  get_password mask w
  = (Val (list_ascii_of_string s),
     with_stdout (fun o => o ++ mask_echo mask 511) (with_stdin (tail :: rest) w)).
Proof.
  intros Hall Hlen Ha Htail Hin. unfold get_password, bind, get. rewrite Hin.
  rewrite input_chars_line.
  replace (S (String.length s + (String.length (String a tail) + input_chars rest)))
    with (String.length s + S (S (String.length tail + input_chars rest)))%nat by (simpl; lia).
  rewrite (get_password_loop_typed mask s _ [] w (String a tail) rest); try assumption;
    [| discriminate | simpl; lia].
  fields w. cbn [get_password_loop]. console.
  rewrite (next_char_more a tail rest Htail). console.
  cbn [app]. rewrite length_list_ascii. unfold max_pass_len. rewrite Hlen.
  change (511 <? 512 - 1) with false. rewrite Ha, !andb_false_r. cbn [orb].
  replace (String.length s) with 511%nat by lia. reflexivity.
Qed.


Lemma get_password_loop_newline mask rounds password w rest :
  stdin w = nl :: rest ->
  get_password_loop (S rounds) mask password w = (Val password, with_stdin rest w).
Proof.
  intros Hin. fields w. simpl in Hin. subst inp.
  cbn [get_password_loop]. console. rewrite next_char_newline. console.
  change (Ascii.eqb newline newline) with true.
  change (Ascii.eqb newline DEL) with false. cbn [negb andb orb].
  rewrite andb_false_r. reflexivity.
Qed.

Lemma get_password_loop_erase mask rounds password w e tail rest :
  e = DEL \/ e = BACKSPACE -> tail <> "" ->
  stdin w = String e tail :: rest ->
  Z.of_nat (length password) < 511 ->
  get_password_loop (S rounds) mask password w
  = get_password_loop rounds mask (removelast password)
      (with_stdout (fun o => o ++ match password with [] => [] | _ => erase_echo mask end)
         (with_stdin (tail :: rest) w)).
Proof.
  intros He Htail Hin Hlen. fields w. simpl in Hin. subst inp.
  cbn [get_password_loop]. console. rewrite (next_char_more e tail rest Htail). console.
  unfold max_pass_len.
  assert (Hroom : (Z.of_nat (length password) <? 512 - 1) = true) by (apply Z.ltb_lt; lia).
  rewrite Hroom.
  assert (Hkind : (negb (Ascii.eqb e newline) = true) /\
                  (negb (Ascii.eqb e DEL) && negb (Ascii.eqb e BACKSPACE))%bool = false)
    by (destruct He as [-> | ->]; split; reflexivity).
  destruct Hkind as [-> ->]. cbn [andb orb].
  destruct password as [|x p].
  - change (0 <? Z.of_nat (length (@nil ascii))) with false. cbn [removelast].
    now rewrite app_nil_r.
  - assert (Hpos : (0 <? Z.of_nat (length (x :: p))) = true)
      by (apply Z.ltb_lt; simpl length; lia).
    rewrite Hpos. unfold erase_echo.
    destruct (echoes mask); console; rewrite <- ?app_assoc, ?app_nil_r; reflexivity.
Qed.

Lemma all_typed_append s t : all_typed (s +:+ t) = (all_typed s && all_typed t)%bool.
Proof.
  induction s as [|a s IH]; [reflexivity |]. rewrite append_cons. cbn [all_typed].
  now rewrite IH, andb_assoc.
Qed.

Lemma list_ascii_append s t :
  list_ascii_of_string (s +:+ t) = list_ascii_of_string s ++ list_ascii_of_string t.
Proof.
  induction s as [|a s IH]; [reflexivity |]. rewrite append_cons. simpl. now rewrite IH.
Qed.

(** X3: an erase character takes back the character typed before it. *)
Theorem get_password_erases (mask : Z) (s t : string) (a e : ascii) (rest : list string)
    (w : world) :
  all_typed s = true -> typed a = true -> all_typed t = true ->
  e = DEL \/ e = BACKSPACE ->
  Z.of_nat (String.length s) + Z.of_nat (String.length t) + 1 < 511 ->
  stdin w = (s +:+ String a (String e (t +:+ nl))) :: rest ->
  get_password mask w
  = (Val (list_ascii_of_string (s +:+ t)),
     with_stdout
       (fun o => o ++ mask_echo mask (S (String.length s)) ++ erase_echo mask
                   ++ mask_echo mask (String.length t))
       (with_stdin rest w)).
Proof.
  intros Hs Ha Ht He Hlen Hin. unfold get_password, bind, get. rewrite Hin.
  change (s +:+ String a (String e (t +:+ nl)))
    with (s +:+ (String a "" +:+ String e (t +:+ nl))) in *.
  rewrite <- append_assoc in *.
  rewrite input_chars_line.
  set (r := input_chars rest).
  replace (S (String.length (s +:+ String a "")
              + (String.length (String e (t +:+ nl)) + r)))
    with (String.length (s +:+ String a "") + S (String.length t + S (S r)))%nat
    by (simpl String.length; rewrite !length_append; simpl; lia).
  rewrite (get_password_loop_typed mask (s +:+ String a "") _ [] w
             (String e (t +:+ nl)) rest); try assumption.
  2: { rewrite all_typed_append, Hs. cbn [all_typed]. now rewrite Ha. }
  2: discriminate.
  2: { rewrite length_append. simpl. lia. }
  cbn [app]. rewrite list_ascii_append. cbn [list_ascii_of_string].
  erewrite get_password_loop_erase; [| exact He | | fields w; reflexivity | ].
  2: { apply append_nonempty. discriminate. }
  2: { rewrite length_app, length_list_ascii. simpl. lia. }
  rewrite removelast_last.
  rewrite (get_password_loop_typed mask t _ _ _ nl rest); try assumption.
  2: discriminate.
  2: fields w; reflexivity.
  2: { rewrite length_list_ascii. lia. }
  erewrite get_password_loop_newline; [| fields w; reflexivity].
  rewrite list_ascii_append. fields w. cbn [with_stdin with_stdout].
  rewrite length_append. change (String.length (String a "")) with 1%nat.
  replace (String.length s + 1)%nat with (S (String.length s)) by lia.
  destruct (list_ascii_of_string s ++ [a]) eqn:E.
  { apply app_eq_nil in E as [_ E']. discriminate. }
  rewrite <- !app_assoc. reflexivity.
Qed.

(** X4: whatever is typed, the password takes at most 511 bytes: the zero
    that ends it is written at an index below 512.  The function always
    returns, and it touches neither the files nor the bridge. *)
Theorem get_password_stays_in_the_buffer (mask : Z) (w : world) :
  exists password w',
    get_password mask w = (Val password, w') /\
    Z.of_nat (length password) < max_pass_len /\
    fs w' = fs w /\ trace w' = trace w /\ cli w' = cli w.
Proof.
  unfold get_password, bind, get.
  destruct (get_password_loop_bound mask (S (input_chars (stdin w))) [] w)
    as (result & w' & Hrun & Hlen & Hrest); [lia | simpl; lia |].
  exists result, w'. split; [exact Hrun |]. split; [unfold max_pass_len; lia | exact Hrest].
Qed.

(** ** Passphrases entered twice *)

Lemma c_string_list s : lacks zero s = true -> c_string (list_ascii_of_string s) = s.
Proof.
  induction s as [|a s IH]; [reflexivity |]. cbn [lacks list_ascii_of_string c_string].
  intros H. apply andb_prop in H as [Ha Hs]. apply negb_true_iff in Ha.
  now rewrite Ha, (IH Hs).
Qed.

Lemma entry_parts s :
  entry s = true ->
  all_typed s = true /\ lacks zero s = true /\ Z.of_nat (String.length s) <= 511.
Proof.
  unfold entry. intros H. apply andb_prop in H as [H H3]. apply andb_prop in H as [H1 H2].
  repeat split; try assumption. now apply Z.leb_le.
Qed.

Lemma get_password_entry s rest w :
  entry s = true ->
  stdin w = (s +:+ nl) :: rest ->
  get_password star w
  = (Val (list_ascii_of_string s),
     with_stdout (fun o => o ++ mask_echo star (String.length s)) (with_stdin rest w)).
Proof.
  intros He Hin. destruct (entry_parts s He) as (Hall & _ & Hlen).
  unfold get_password, bind, get. rewrite Hin, input_chars_line.
  replace (S (String.length s + (String.length nl + input_chars rest)))
    with (String.length s + S (S (input_chars rest)))%nat by (simpl; lia).
  rewrite (get_password_loop_typed star s _ [] w nl rest); try assumption; [| discriminate].
  erewrite get_password_loop_newline; [| fields w; reflexivity].
  fields w. reflexivity.
Qed.

(** One attempt: both entries are read. *)
Lemma attempt_read prompt a b rest w (k : list ascii -> list ascii -> M (Z * string)) :
  entry a = true -> entry b = true ->
  stdin w = (a +:+ nl) :: (b +:+ nl) :: rest ->
  (printf prompt ;;
   first_password <- get_password star ;;
   printf (nl +:+ "Again to verify: ") ;;
   second_password <- get_password star ;;
   k first_password second_password) w
  = k (list_ascii_of_string a) (list_ascii_of_string b)
      (with_stdout (fun o => o ++ attempt_echo prompt (a, b)) (with_stdin rest w)).
Proof.
  intros Ha Hb Hin. unfold bind at 1. unfold printf, modify.
  unfold bind at 1.
  rewrite (get_password_entry a ((b +:+ nl) :: rest)); [| exact Ha | fields w; exact Hin].
  unfold bind at 1. unfold bind at 1.
  rewrite (get_password_entry b rest); [| exact Hb | fields w; reflexivity].
  f_equal. fields w. cbn [with_stdin with_stdout]. unfold attempt_echo. cbn [fst snd].
  rewrite <- !app_assoc. reflexivity.
Qed.

Lemma verify_misses prompt : forall misses rounds count w tail,
  Forall mismatch misses ->
  0 <= count -> count + Z.of_nat (length misses) <= 3 ->
  (length misses <= rounds)%nat ->
  stdin w = attempt_lines misses ++ tail ->
  get_password_verify_rounds rounds prompt count w
  = get_password_verify_rounds (rounds - length misses) prompt
      (count + Z.of_nat (length misses))
      (with_stdout (fun o => o ++ flat_map (miss_echo prompt) misses) (with_stdin tail w)).
Proof.
  induction misses as [|[a b] misses IH]; intros rounds count w tail Hall Hc Hle Hr Hin.
  - fields w. simpl in Hin. subst inp. simpl. rewrite app_nil_r, Nat.sub_0_r, Z.add_0_r.
    reflexivity.
  - inversion Hall as [|? ? (Ha & Hb & Hne) Hrest]; subst. cbn [fst snd] in *.
    change (length ((a, b) :: misses)) with (S (length misses)) in *.
    destruct rounds as [|rounds]; [lia |].
    cbn [get_password_verify_rounds].
    rewrite (attempt_read prompt a b (attempt_lines misses ++ tail)); try assumption.
    destruct (entry_parts a Ha) as (_ & Hza & _). destruct (entry_parts b Hb) as (_ & Hzb & _).
    rewrite (c_string_list a Hza), (c_string_list b Hzb).
    apply String.eqb_neq in Hne. rewrite Hne.
    assert (Hmax : (count =? int_max) = false) by (unfold int_max; lia).
    assert (Hgt : (count + 1 >? 3) = false) by lia.
    rewrite Hmax, Hgt. console.
    rewrite (IH rounds (count + 1) _ tail); try assumption; try lia.
    2: fields w; reflexivity.
    cbn [length Nat.sub].
    replace (count + 1 + Z.of_nat (length misses)) with (count + Z.of_nat (S (length misses)))
      by lia.
    f_equal. fields w. cbn [with_stdin with_stdout flat_map]. unfold miss_echo at 2.
    rewrite <- !app_assoc. reflexivity.
Qed.

(** X5: the passphrase is accepted at the first attempt, of four at most,
    whose two entries agree; the entries of the earlier attempts differ. *)
Theorem get_password_verify_accepts (prompt : string) (misses : list (string * string))
    (hit : string) (rest : list string) (w : world) :
  Forall mismatch misses ->
  (length misses <= 3)%nat ->
  entry hit = true ->
  stdin w = attempt_lines misses ++ (hit +:+ nl) :: (hit +:+ nl) :: rest ->
  get_password_verify prompt 0 w
  = (Val (0, hit),
     with_stdout
       (fun o => o ++ flat_map (miss_echo prompt) misses ++ attempt_echo prompt (hit, hit))
       (with_stdin rest w)).
Proof.
  intros Hall Hlen Hhit Hin. unfold get_password_verify.
  change (Z.to_nat (3 - 0)) with 3%nat.
  rewrite (verify_misses prompt misses 3 0 w ((hit +:+ nl) :: (hit +:+ nl) :: rest) Hall);
    try assumption; try lia.
  destruct (3 - length misses)%nat as [|r] eqn:Er;
    cbn [get_password_verify_rounds];
    (rewrite (attempt_read prompt hit hit rest); [| exact Hhit | exact Hhit | fields w; reflexivity]);
    rewrite String.eqb_refl; destruct (entry_parts hit Hhit) as (_ & Hz & _);
    rewrite (c_string_list hit Hz); unfold ret; f_equal; fields w;
    cbn [with_stdin with_stdout]; rewrite <- !app_assoc; reflexivity.
Qed.

(** X6: after four attempts whose entries differ the function gives up: it
    returns 1, reads no further line, and leaves the first entry of the
    last attempt in the caller's buffer. *)
Theorem get_password_verify_gives_up (prompt : string) (misses : list (string * string))
    (a b : string) (rest : list string) (w : world) :
  Forall mismatch misses -> length misses = 3%nat ->
  mismatch (a, b) ->
  stdin w = attempt_lines (misses ++ [(a, b)]) ++ rest ->
  get_password_verify prompt 0 w
  = (Val (1, a),
     with_stdout
       (fun o => o ++ flat_map (miss_echo prompt) misses ++ attempt_echo prompt (a, b)
                   ++ [nl +:+ "Passphrases did not match. "; nl])
       (with_stdin rest w)).
Proof.
  intros Hall Hlen (Ha & Hb & Hne) Hin. unfold get_password_verify. cbn [fst snd] in *.
  change (Z.to_nat (3 - 0)) with 3%nat.
  unfold attempt_lines in Hin. rewrite flat_map_app in Hin. cbn [flat_map fst snd] in Hin.
  rewrite <- app_assoc in Hin. cbn [app] in Hin.
  rewrite (verify_misses prompt misses 3 0 w ((a +:+ nl) :: (b +:+ nl) :: rest) Hall);
    try assumption; try lia.
  rewrite Hlen. cbn [Nat.sub get_password_verify_rounds].
  rewrite (attempt_read prompt a b rest); [| exact Ha | exact Hb | fields w; reflexivity].
  destruct (entry_parts a Ha) as (_ & Hza & _). destruct (entry_parts b Hb) as (_ & Hzb & _).
  rewrite (c_string_list a Hza), (c_string_list b Hzb).
  apply String.eqb_neq in Hne. rewrite Hne.
  change (0 + Z.of_nat 3 =? int_max) with false.
  change (0 + Z.of_nat 3 + 1 >? 3) with true. console.
  f_equal. fields w. cbn [with_stdin with_stdout].
  rewrite <- !app_assoc. reflexivity.
Qed.

(** ** The strength of a new key *)

Lemma strength_cond x :
  (negb (Z.rem x 32 =? 0) || (x <? 128) || (x >? 256))%bool = negb (valid_strength x).
Proof.
  unfold valid_strength.
  destruct (x <? 128) eqn:E1.
  { rewrite orb_true_r. cbn [orb]. symmetry. apply negb_true_iff.
    repeat (apply orb_false_iff; split); lia. }
  destruct (x >? 256) eqn:E2.
  { rewrite orb_true_r. symmetry. apply negb_true_iff.
    repeat (apply orb_false_iff; split); lia. }
  rewrite !orb_false_r. f_equal.
  rewrite Z.rem_mod_nonneg by lia.
  pose proof (Z.div_mod x 32 ltac:(lia)) as Hdm.
  pose proof (Z.mod_pos_bound x 32 ltac:(lia)) as Hb.
  destruct (x mod 32 =? 0) eqn:E3.
  - symmetry. apply Z.eqb_eq in E3.
    assert (H : x = 128 \/ x = 160 \/ x = 192 \/ x = 224 \/ x = 256) by lia.
    destruct H as [-> | [-> | [-> | [-> | ->]]]]; reflexivity.
  - symmetry. repeat (apply orb_false_iff; split); apply Z.eqb_neq; intros ->;
      vm_compute in E3; discriminate.
Qed.

Lemma ends_line_parts line :
  ends_line line = true -> exists s, line = s +:+ nl /\ lacks newline s = true.
Proof.
  induction line as [|a line IH]; [discriminate |]. cbn [ends_line].
  destruct (Ascii.eqb a newline) eqn:E.
  - apply Ascii.eqb_eq in E as ->. destruct line; [| discriminate].
    intros _. now exists "".
  - intros H. destruct (IH H) as (s & -> & Hs). exists (String a s).
    split; [reflexivity |]. cbn [lacks]. now rewrite E, Hs.
Qed.

Lemma console_line_parts line :
  console_line line = true ->
  exists s, line = s +:+ nl /\ lacks newline s = true
            /\ Z.of_nat (String.length s) + 1 < BUFSIZ.
Proof.
  unfold console_line. intros H. apply andb_true_iff in H as [He Hl].
  destruct (ends_line_parts line He) as (s & -> & Hs). exists s.
  split; [reflexivity |]. split; [exact Hs |].
  apply Z.ltb_lt in Hl. rewrite length_append in Hl.
  change (String.length nl) with 1%nat in Hl. lia.
Qed.

Lemma fgets_loop_line s : forall fuel room rest,
  lacks newline s = true ->
  (String.length s < fuel)%nat -> Z.of_nat (String.length s) < room ->
  fgets_loop fuel room ((s +:+ nl) :: rest) = (s +:+ nl, rest).
Proof.
  induction s as [|a s IH]; intros fuel room rest Hs Hfuel Hroom;
    (destruct fuel as [|fuel]; [simpl in Hfuel; lia |]); cbn [fgets_loop].
  - replace (room <=? 0) with false by (simpl in Hroom; lia).
    rewrite append_nil_l, next_char_newline. now rewrite Ascii.eqb_refl.
  - cbn [lacks] in Hs. apply andb_true_iff in Hs as [Ha Hs].
    apply negb_true_iff in Ha.
    change (String.length (String a s)) with (S (String.length s)) in Hfuel, Hroom.
    replace (room <=? 0) with false by lia.
    rewrite append_cons, next_char_line, Ha.
    rewrite (IH fuel (room - 1) rest Hs) by lia. reflexivity.
Qed.

Lemma fgets_stdin_line line rest :
  console_line line = true -> fgets_stdin BUFSIZ (line :: rest) = (line, rest).
Proof.
  intros H. destruct (console_line_parts line H) as (s & -> & Hs & Hl).
  unfold fgets_stdin. apply fgets_loop_line; [exact Hs | | lia].
  cbn [input_chars]. rewrite length_append. change (String.length nl) with 1%nat. lia.
Qed.

Lemma get_input_reply w :
  get_input w
  = (Val (reply (fst (fgets_stdin BUFSIZ (stdin w)))),
     with_stdin (snd (fgets_stdin BUFSIZ (stdin w))) w).
Proof.
  unfold get_input, reply. unfold bind at 1. unfold get.
  destruct (fgets_stdin BUFSIZ (stdin w)) as [chunk rest]. unfold_m. cbn [fst snd].
  now destruct (until_zero chunk).
Qed.

Lemma get_input_line line rest w :
  console_line line = true -> stdin w = line :: rest ->
  get_input w = (Val (reply line), with_stdin rest w).
Proof.
  intros Hl Hin. now rewrite get_input_reply, Hin, (fgets_stdin_line line rest Hl).
Qed.

Lemma get_input_eof w :
  stdin w = [] -> get_input w = (Val "", w).
Proof. intros Hin. rewrite get_input_reply, Hin. fields w. simpl in Hin. now subst inp. Qed.

Lemma input_chars_lines lines : forall tail,
  forallb console_line lines = true ->
  (length lines + input_chars tail <= input_chars (lines ++ tail))%nat.
Proof.
  induction lines as [|line lines IH]; intros tail Hall; [simpl; lia |].
  cbn [forallb] in Hall. apply andb_true_iff in Hall as [Hl Hall].
  destruct (console_line_parts line Hl) as (s & -> & _ & _).
  specialize (IH tail Hall). cbn [app length input_chars].
  rewrite length_append. change (String.length nl) with 1%nat. lia.
Qed.

Lemma read_strength_valid : forall rounds strength w r w',
  read_strength rounds strength w = (Val r, w') -> valid_strength r = true.
Proof.
  induction rounds as [|rounds IH]; intros strength w r w'; cbn [read_strength];
    rewrite strength_cond; destruct (valid_strength strength) eqn:E; cbn [negb].
  - intros [= <- <-]. exact E.
  - discriminate.
  - intros [= <- <-]. exact E.
  - unfold bind at 1. unfold printf, modify. unfold bind at 1.
    rewrite get_input_reply.
    match goal with
    | |- context [atoi_int ?t] => destruct (atoi_int t) as [strength'|]
    end; [apply IH | discriminate].
Qed.

Lemma refused_parts line :
  refused line = true ->
  console_line line = true
  /\ exists strength, answer line = Some strength /\ valid_strength strength = false.
Proof.
  unfold refused. intros H. apply andb_true_iff in H as [Hl Ha].
  split; [exact Hl |]. destruct (answer line) as [strength|]; [| discriminate].
  exists strength. split; [reflexivity |]. now apply negb_true_iff.
Qed.

Lemma read_strength_skips : forall bad rounds strength w good chosen rest,
  valid_strength strength = false ->
  forallb refused bad = true ->
  console_line good = true ->
  answer good = Some chosen ->
  valid_strength chosen = true ->
  (length bad < rounds)%nat ->
  stdin w = bad ++ good :: rest ->
  read_strength rounds strength w
  = (Val chosen,
     with_stdout (fun o => o ++ repeat "Strength: " (S (length bad))) (with_stdin rest w)).
Proof.
  induction bad as [|line bad IH];
    intros rounds strength w good chosen rest Hs Hbad Hline Hgood Hvalid Hr Hin.
  - destruct rounds as [|rounds]; [simpl in Hr; lia |].
    cbn [read_strength]. rewrite strength_cond, Hs. cbn [negb].
    unfold bind at 1. unfold printf, modify. unfold bind at 1.
    rewrite (get_input_line good rest) by (try assumption; fields w; exact Hin).
    unfold answer in Hgood. rewrite Hgood.
    destruct rounds; cbn [read_strength]; rewrite strength_cond, Hvalid; cbn [negb];
      fields w; reflexivity.
  - cbn [forallb] in Hbad. apply andb_true_iff in Hbad as [Hb Hbad].
    destruct (refused_parts line Hb) as (Hl & v & Hv & Hinvalid).
    destruct rounds as [|rounds]; [simpl in Hr; lia |].
    cbn [read_strength]. rewrite strength_cond, Hs. cbn [negb].
    unfold bind at 1. unfold printf, modify. unfold bind at 1.
    rewrite (get_input_line line (bad ++ good :: rest)) by (try assumption; fields w; exact Hin).
    unfold answer in Hv. rewrite Hv.
    rewrite (IH rounds v _ good chosen rest); try assumption.
    + fields w. cbn [with_stdin with_stdout length repeat]. rewrite <- app_assoc. reflexivity.
    + simpl in Hr. lia.
    + fields w. reflexivity.
Qed.

Section MnemonicFacts.

Variable storj_mnemonic_generate : nat -> Z -> Z * option string.

(** X7: [generate_mnemonic] has no failure to report: whenever it returns,
    it returns 0 with a mnemonic, and every strength it has asked the
    generator for is one of 128, 160, 192, 224 and 256. *)
Theorem generate_mnemonic_only_returns_success : forall rounds asked w status mnemonic asked' w',
  generate_mnemonic storj_mnemonic_generate rounds asked w
  = (Val (status, mnemonic, asked'), w') ->
  status = 0 /\ mnemonic <> None /\
  exists new, asked' = asked ++ new /\ new <> [] /\ forallb valid_strength new = true.
Proof.
  induction rounds as [|rounds IH]; intros asked w status mnemonic asked' w';
    cbn [generate_mnemonic]; unfold bind at 1; unfold printf, modify;
    unfold bind at 1; unfold get; unfold bind at 1.
  - match goal with
    | |- context [read_strength ?n ?s ?v] => destruct (read_strength n s v) as [[s1|st] w1] eqn:E
    end; [| discriminate].
    apply read_strength_valid in E.
    destruct (storj_mnemonic_generate (length asked) s1) as [code m].
    destruct (is_null m || (code =? 0))%bool eqn:Ef; [discriminate |].
    intros [= <- <- <- <-]. apply orb_false_iff in Ef as [Hm _].
    split; [reflexivity |]. split; [destruct m; [discriminate | discriminate Hm] |].
    exists [s1]. split; [reflexivity |]. split; [discriminate |]. simpl. now rewrite E.
  - match goal with
    | |- context [read_strength ?n ?s ?v] => destruct (read_strength n s v) as [[s1|st] w1] eqn:E
    end; [| discriminate].
    apply read_strength_valid in E.
    destruct (storj_mnemonic_generate (length asked) s1) as [code m].
    destruct (is_null m || (code =? 0))%bool eqn:Ef.
    + unfold bind at 1. intros Hrun. apply IH in Hrun as (Hs & Hm & new & Hnew & _ & Hall).
      split; [exact Hs |]. split; [exact Hm |].
      exists (s1 :: new). split; [rewrite Hnew, <- app_assoc; reflexivity |].
      split; [discriminate |]. simpl. now rewrite E, Hall.
    + intros [= <- <- <- <-]. apply orb_false_iff in Ef as [Hm _].
      split; [reflexivity |]. split; [destruct m; [discriminate | discriminate Hm] |].
      exists [s1]. split; [reflexivity |]. split; [discriminate |]. simpl. now rewrite E.
Qed.

(** X8: console lines whose number is none of the five strengths are
    asked again; the first line whose number is one of them gives the
    strength of the key, and with it the generator's mnemonic is returned.
    The numbers are such as an [int] holds. *)
Theorem generate_mnemonic_takes_the_first_valid_strength
    (rounds : nat) (asked : list Z) (bad : list string) (good : string) (strength : Z)
    (rest : list string) (code : Z) (mnemonic : string) (w : world) :
  forallb refused bad = true ->
  console_line good = true ->
  answer good = Some strength ->
  valid_strength strength = true ->
  storj_mnemonic_generate (length asked) strength = (code, Some mnemonic) ->
  code <> 0 ->
  stdin w = bad ++ good :: rest ->
  generate_mnemonic storj_mnemonic_generate rounds asked w
  = (Val (0, Some mnemonic, asked ++ [strength]),
     with_stdout (fun o => o ++ strength_intro :: repeat "Strength: " (S (length bad)))
       (with_stdin rest w)).
Proof.
  intros Hbad Hline Hgood Hvalid Hgen Hcode Hin.
  assert (Hlines : forallb console_line bad = true).
  { apply forallb_forall. intros line Hl.
    apply (proj1 (forallb_forall refused bad) Hbad) in Hl.
    now destruct (refused_parts line Hl). }
  assert (Hrun : forall v, stdin v = bad ++ good :: rest ->
            read_strength (S (input_chars (stdin v))) 0 v
            = (Val strength,
               with_stdout (fun o => o ++ repeat "Strength: " (S (length bad)))
                 (with_stdin rest v))).
  { intros v Hv. apply (read_strength_skips bad _ 0 v good strength rest);
      try assumption; [reflexivity |].
    rewrite Hv. pose proof (input_chars_lines bad (good :: rest) Hlines). lia. }
  assert (Hnz : (code =? 0) = false) by lia.
  destruct rounds; cbn [generate_mnemonic]; unfold bind at 1; unfold printf, modify;
    unfold bind at 1; unfold get; unfold bind at 1;
    (rewrite Hrun by (fields w; exact Hin)); rewrite Hgen; cbn [is_null orb]; rewrite Hnz;
    unfold ret; f_equal; fields w; cbn [with_stdin with_stdout];
    rewrite <- app_assoc; reflexivity.
Qed.

End MnemonicFacts.

(** ** The address of the bridge *)


Lemma no_separator_in (p : string) :
  no_separator p = true ->
  forall a, In a (list_ascii_of_string p) -> separator a = false.
Proof.
  induction p as [|b p IH]; cbn; intros H a Ha; [contradiction|].
  apply andb_true_iff in H as [Hb Hp]. destruct Ha as [<-|Ha].
  - now apply negb_true_iff in Hb.
  - now apply IH.
Qed.









Lemma scan_set_full (excluded : ascii -> bool) (p t : string) :
  (forall a, In a (list_ascii_of_string p) -> excluded a = false) ->
  scan_set (String.length p) excluded (p +:+ t) = (p, t).
Proof.
  induction p as [|a p IH]; intros Hp; [reflexivity|].
  simpl. rewrite (Hp a) by (left; reflexivity).
  rewrite IH; [reflexivity|]. intros b Hb. apply Hp. right. exact Hb.
Qed.

(** X11: a scheme of more than five characters leaves the host unwritten:
    the first five characters are the scheme, and the port is the one
    they stand for. *)
Theorem bridge_address_long_scheme (proto : string) (a : ascii) (rest : string) (w : world) :
  no_separator proto = true -> String.length proto = 5%nat -> separator a = false ->
  main_bridge_address (Some (proto +:+ String a rest)) w
  = (Val (Some proto, None, if String.eqb proto "https" then 443 else 80), w).
Proof.
  intros Hp Hl Ha. unfold main_bridge_address, sscanf_bridge.
  change 5%nat with 5%nat at 1. rewrite <- Hl at 1.
  rewrite scan_set_full by (apply no_separator_in, Hp).
  destruct proto as [|b proto]; [discriminate Hl|].
  assert (Hlit : literal "://" (String a rest) = None).
  { unfold separator in Ha. apply orb_false_iff in Ha as [Ha _].
    change (literal "://" (String a rest))
      with (if Ascii.eqb ":" a then literal "//" rest else None).
    rewrite Ascii.eqb_sym. now rewrite Ha. }
  rewrite Hlit. unfold_m. cbn -[String.eqb]. reflexivity.
Qed.

(** ** The name of a path *)

Lemma basename_parts (p : string) :
  lacks slash (basename p) = true /\
  (p = basename p \/ exists dir, p = dir +:+ "/" +:+ basename p).
Proof.
  induction p as [|a p [IHl IHp]]; [split; [reflexivity | now left] |].
  cbn [basename]. destruct (lacks slash p) eqn:E.
  - destruct (Ascii.eqb a slash) eqn:Ea.
    + apply Ascii.eqb_eq in Ea as ->. split; [exact E |]. right. now exists "".
    + split; [cbn [lacks]; now rewrite Ea, E | now left].
  - split; [exact IHl |]. right. destruct IHp as [Hp | [dir Hp]].
    + rewrite <- Hp in IHl. congruence.
    + exists (String a dir). rewrite append_cons. f_equal. exact Hp.
Qed.

(** X12: for a path that is not [NULL], [get_filename_separator] never
    returns [NULL]: it returns what follows the last [/] of the path, which
    holds no [/], and the path itself when the path holds none. *)
Theorem get_filename_separator_last_component (p : string) (w : world) :
  exists name,
    get_filename_separator (Some p) w = (Val (Some name), w) /\
    lacks slash name = true /\
    (p = name \/ exists dir, p = dir +:+ "/" +:+ name).
Proof.
  exists (basename p). split; [apply get_filename_separator_basename |].
  apply basename_parts.
Qed.

(** ** The executors *)

(** X13: a source that cannot be opened does not stop an upload: the
    executor prints that the path is invalid and still hands the transfer
    to the bridge, without a stream, under the last component of the path. *)
Theorem upload_file_missing_source (bucket : option string) (p : string) (w : world) :
  fs w !! abspath (cwd w) p = None ->
  exists status w' opts name,
    upload_file bucket (Some p) w = (Val status, w') /\
    stdout w' = stdout w ++ ["Invalid file path: " +:+ p +:+ nl] /\
    trace w' = trace w ++ [Enter_upload_file bucket (Some p);
                           Bridge_store_file (handles w) opts (log_level w =? 0)] /\
    opt_fd opts = None /\ opt_bucket_id opts = bucket /\
    opt_file_name opts = Some name /\ lacks slash name = true /\
    (p = name \/ exists dir, p = dir +:+ "/" +:+ name) /\
    watchers w' = watchers w ++ [Build_watcher upload_handler (Some (handles w))].
Proof.
  intros Hnone. exists 0, (after_upload_file bucket p w), (env_opts w bucket p), (basename p).
  split; [apply upload_file_some |].
  destruct (basename_parts p) as [Hl Hp].
  fields w. cbn in Hnone. unfold after_upload_file, env_opts. cbn.
  rewrite Hnone. repeat split; try reflexivity; assumption.
Qed.

Lemma unanswered_lines lines :
  forallb unanswered lines = true -> forallb console_line lines = true.
Proof.
  induction lines as [|line lines IH]; [reflexivity |]. cbn [forallb]. intros H.
  apply andb_true_iff in H as [Hl H]. unfold unanswered in Hl.
  apply andb_true_iff in Hl as [Hl _]. now rewrite Hl, IH.
Qed.

Lemma overwrite_loop_decides (p : string) : forall bad rounds input line rest w,
  (negb (String.eqb input "y") && negb (String.eqb input "n"))%bool = true ->
  forallb unanswered bad = true ->
  console_line line = true ->
  undecided line = false ->
  (length bad < rounds)%nat ->
  stdin w = bad ++ line :: rest ->
  overwrite_loop rounds p input w
  = (Val (reply line),
     with_stdout (fun o => o ++ repeat (overwrite_question p) (S (length bad)))
       (with_stdin rest w)).
Proof.
  induction bad as [|b bad IH]; intros rounds input line rest w Hi Hbad Hcl Hline Hr Hin.
  - destruct rounds as [|rounds]; [simpl in Hr; lia |].
    cbn [overwrite_loop]. rewrite Hi.
    unfold bind at 1. unfold printf, modify. unfold bind at 1.
    rewrite (get_input_line line rest) by (try assumption; fields w; exact Hin).
    unfold undecided in Hline.
    destruct rounds; cbn [overwrite_loop]; rewrite Hline; fields w; reflexivity.
  - cbn [forallb] in Hbad. apply andb_true_iff in Hbad as [Hb Hbad].
    unfold unanswered in Hb. apply andb_true_iff in Hb as [Hbl Hb].
    destruct rounds as [|rounds]; [simpl in Hr; lia |].
    cbn [overwrite_loop]. rewrite Hi.
    unfold bind at 1. unfold printf, modify. unfold bind at 1.
    rewrite (get_input_line b (bad ++ line :: rest)) by (try assumption; fields w; exact Hin).
    rewrite (IH rounds (reply b) line rest); try assumption.
    + fields w. cbn [with_stdin with_stdout length repeat]. rewrite <- app_assoc. reflexivity.
    + simpl in Hr. lia.
    + fields w. reflexivity.
Qed.

Lemma overwrite_loop_hangs (p : string) : forall lines rounds input w,
  (negb (String.eqb input "y") && negb (String.eqb input "n"))%bool = true ->
  forallb unanswered lines = true ->
  stdin w = lines ->
  exists w', overwrite_loop rounds p input w = (Stop Hang, w')
             /\ fs w' = fs w /\ trace w' = trace w /\ watchers w' = watchers w.
Proof.
  intros lines rounds. revert lines.
  induction rounds as [|rounds IH]; intros lines input w Hi Hl Hin.
  - cbn [overwrite_loop]. rewrite Hi. exists w. repeat split.
  - cbn [overwrite_loop]. rewrite Hi.
    unfold bind at 1. unfold printf, modify. unfold bind at 1.
    destruct lines as [|b lines].
    + rewrite get_input_eof by (fields w; exact Hin).
      destruct (IH [] "" (with_stdout (fun o => o ++ [overwrite_question p]) w))
        as (w' & Hrun & Hf & Ht & Hw); [reflexivity | reflexivity | fields w; exact Hin |].
      exists w'. split; [exact Hrun |]. fields w. auto.
    + cbn [forallb] in Hl. apply andb_true_iff in Hl as [Hb Hl].
      unfold unanswered in Hb. apply andb_true_iff in Hb as [Hbl Hb].
      rewrite (get_input_line b lines) by (try assumption; fields w; exact Hin).
      destruct (IH lines (reply b)
                  (with_stdin lines (with_stdout (fun o => o ++ [overwrite_question p]) w)))
        as (w' & Hrun & Hf & Ht & Hw); [exact Hb | exact Hl | fields w; reflexivity |].
      exists w'. split; [exact Hrun |]. fields w. auto.
Qed.

(** X14: when the destination exists, the question is asked again after
    every console line that reads as neither [y] nor [n]; once the line
    reads [n] the executor returns 1: the file is as it was, no watcher is
    started and nothing is handed to the bridge.  A line reads as the C
    string [get_input] leaves: what comes before a zero byte, without the
    line end. *)
Theorem download_file_declined (bucket file : option string) (p : string) (n : node)
    (bad : list string) (line : string) (rest : list string) (w : world) :
  fs w !! abspath (cwd w) p = Some n ->
  forallb unanswered bad = true ->
  console_line line = true ->
  reply line = "n" ->
  stdin w = bad ++ line :: rest ->
  download_file bucket file (Some p) w
  = (Val 1,
     with_stdout
       (fun o => o ++ overwrite_warning p :: repeat (overwrite_question p) (S (length bad))
                   ++ [nl +:+ "Canceled overwriting of [" +:+ p +:+ "]." +:+ nl])
       (with_stdin rest
          (with_trace (fun t => t ++ [Enter_download_file bucket file (Some p)]) w))).
Proof.
  intros Hn Hbad Hcl Hline Hin.
  assert (Hu : undecided line = false) by (unfold undecided; now rewrite Hline).
  unfold download_file, access, stat.
  unfold bind at 1. unfold record, modify.
  unfold bind at 1. unfold bind at 1. unfold bind at 1. unfold bind at 1. unfold get.
  assert (E : fs (with_trace (fun t => t ++ [Enter_download_file bucket file (Some p)]) w)
              !! abspath (cwd (with_trace (fun t => t ++ [Enter_download_file bucket file (Some p)]) w)) p
              = Some n) by (fields w; exact Hn).
  rewrite E. unfold ret at 1. cbv iota beta.
  unfold bind at 1. unfold bind at 1. unfold printf at 1. unfold modify at 1.
  unfold bind at 1. unfold bind at 1.
  rewrite (overwrite_loop_decides p bad _ "" line rest); try assumption; try reflexivity.
  - rewrite Hline. cbn [String.eqb Ascii.eqb Bool.eqb]. cbv iota.
    unfold bind at 1. unfold printf, modify, ret. cbv iota beta.
    f_equal. fields w. cbn [with_stdin with_stdout with_trace].
    f_equal. rewrite <- !app_assoc. reflexivity.
  - pose proof (input_chars_lines bad (line :: rest) (unanswered_lines bad Hbad)).
    fields w. cbn -[input_chars] in Hin |- *. rewrite Hin. lia.
  - fields w. exact Hin.
Qed.

(** X15: when the destination is a regular file, once a console line
    reads [y], after lines that read as neither [y] nor [n], the file is
    emptied and the transfer is handed to the bridge with it; the lines
    after that one are left unread. *)
Theorem download_file_overwrites (bucket file : option string) (p content : string)
    (bad : list string) (line : string) (rest : list string) (w : world) :
  fs w !! abspath (cwd w) p = Some (Reg content) ->
  forallb unanswered bad = true ->
  console_line line = true ->
  reply line = "y" ->
  stdin w = bad ++ line :: rest ->
  download_file bucket file (Some p) w
  = (Val 0,
     after_download_file bucket file p
       (with_stdout
          (fun o => o ++ overwrite_warning p :: repeat (overwrite_question p) (S (length bad)))
          (with_stdin rest w))).
Proof.
  intros Hn Hbad Hcl Hline Hin.
  assert (Hu : undecided line = false) by (unfold undecided; now rewrite Hline).
  unfold download_file, access, stat.
  unfold bind at 1. unfold record, modify.
  unfold bind at 1. unfold bind at 1. unfold bind at 1. unfold bind at 1. unfold get.
  assert (E : fs (with_trace (fun t => t ++ [Enter_download_file bucket file (Some p)]) w)
              !! abspath (cwd (with_trace (fun t => t ++ [Enter_download_file bucket file (Some p)]) w)) p
              = Some (Reg content)) by (fields w; exact Hn).
  rewrite E. unfold ret at 1. cbv iota beta.
  unfold bind at 1. unfold bind at 1. unfold printf at 1. unfold modify at 1.
  unfold bind at 1. unfold bind at 1.
  rewrite (overwrite_loop_decides p bad _ "" line rest); try assumption; try reflexivity.
  - rewrite Hline. cbn [String.eqb Ascii.eqb Bool.eqb]. cbv iota.
    fields w. cbn in Hn.
    unfold unlink, fopen_w, stat, after_download_file, uv_signal_start,
      storj_bridge_resolve_file, set_sig_data.
    unfold_m. run. rewrite Hn. run. rewrite lookup_delete_eq. run.
    unfold_world. run.
    rewrite set_sig_data_last, <- ?app_assoc, insert_delete_eq. reflexivity.
  - pose proof (input_chars_lines bad (line :: rest) (unanswered_lines bad Hbad)).
    fields w. cbn -[input_chars] in Hin |- *. rewrite Hin. lia.
  - fields w. exact Hin.
Qed.

(** X16: when the destination exists and the input ends after console
    lines none of which reads [y] or [n], the question is asked for ever:
    the executor never returns, and it has touched neither the file nor
    the bridge. *)
Theorem download_file_waits_for_an_answer (bucket file : option string) (p : string)
    (n : node) (w : world) :
  fs w !! abspath (cwd w) p = Some n ->
  forallb unanswered (stdin w) = true ->
  exists w',
    download_file bucket file (Some p) w = (Stop Hang, w') /\
    fs w' = fs w /\ watchers w' = watchers w /\
    trace w' = trace w ++ [Enter_download_file bucket file (Some p)].
Proof.
  intros Hn Hbad.
  unfold download_file, access, stat.
  unfold bind at 1. unfold record, modify.
  unfold bind at 1. unfold bind at 1. unfold bind at 1. unfold bind at 1. unfold get.
  assert (E : fs (with_trace (fun t => t ++ [Enter_download_file bucket file (Some p)]) w)
              !! abspath (cwd (with_trace (fun t => t ++ [Enter_download_file bucket file (Some p)]) w)) p
              = Some n) by (fields w; exact Hn).
  rewrite E. unfold ret at 1. cbv iota beta.
  unfold bind at 1. unfold bind at 1. unfold printf at 1. unfold modify at 1.
  unfold bind at 1. unfold bind at 1.
  match goal with
  | |- context [overwrite_loop ?r p "" ?v] =>
      destruct (overwrite_loop_hangs p (stdin w) r "" v) as (w' & Hrun & Hf & Ht & Hw)
  end; [reflexivity | exact Hbad | fields w; reflexivity |].
  rewrite Hrun. exists w'. split; [reflexivity |].
  rewrite Hf, Ht, Hw. fields w. auto.
Qed.

(** ** Whole invocations *)

Lemma cli_download_file_accepts (dest bname name : string) (w : world) :
  bname <> "" -> name <> "" -> lacks slash bname = true -> lacks slash name = true ->
  (name = "*" -> exists walk dotdot, fs w !! abspath (cwd w) dest = Some (Dir walk dotdot)) ->
  cli_download_file (Some dest) ("storj://" +:+ bname +:+ "/" +:+ name) w
  = (Val 0, download_request dest bname name w).
Proof.
  intros Hb Hn Lb Ln Hdir. unfold cli_download_file. unfold bind at 1.
  destruct (validate_cmd_tokenize_valid 10 bname name w ltac:(lia) Hb Hn Lb Ln) as [_ ->].
  open_world w. unfold download_request, check_file_path, stat, storj_bridge_get_buckets.
  unfold_m. run.
  destruct (String.eqb name "*") eqn:E; [| reflexivity].
  apply String.eqb_eq in E. destruct (Hdir E) as (walk & dotdot & Hd).
  cbn in Hd. run. rewrite Hd. run. reflexivity.
Qed.


Lemma list_files_loop_named (name : string) : forall l w,
  file_name (cli w) = Some name ->
  curr_cmd_req (cli w) = Some "download-file" ->
  list_files_loop None l w = (Val tt, matched (last_match name l) w).
Proof.
  induction l as [|file rest IH]; intros w Hn Hc; [reflexivity |].
  cbn [list_files_loop last_match]. unfold bind at 1.
  assert (Hstep : list_files_step None file w
                  = (Val tt, if String.eqb name (f_filename file)
                             then matched (Some (f_id file)) w else w)).
  { open_world w. cbn in Hn, Hc. subst. unfold list_files_step. unfold_m. run.
    destruct (String.eqb name (f_filename file)); reflexivity. }
  rewrite Hstep. rewrite IH.
  - destruct (last_match name rest) as [id|];
      destruct (String.eqb name (f_filename file)); open_world w; reflexivity.
  - destruct (String.eqb name (f_filename file)); open_world w; exact Hn.
  - destruct (String.eqb name (f_filename file)); open_world w; exact Hc.
Qed.

Section Invocations.

Variable storj_strerror : Z -> string.
Variable STORJ_FILE_DECRYPTION_ERROR : Z.

Lemma resolve_then_list (breq : get_buckets_request_t) pre b post (bname cmd : string) (w : world) :
  bucket_name (cli w) = Some bname ->
  curr_cmd_req (cli w) = Some "download-file" ->
  buckets breq = pre ++ b :: post ->
  Forall (fun x => b_name x <> bname) pre ->
  b_name b = bname ->
  get_bucket_id_callback breq 0 w
  = (Val tt,
     with_trace (fun t => t ++ [Bridge_list_files (Some (b_id b))])
       (resolved_world b "list-files-1" (with_stdout (fun o => o ++ buckets_report breq) w))).
Proof.
  intros Hn Hc Hb Hpre Hbn.
  rewrite (get_bucket_id_callback_match breq w bname pre b post "download-file" "list-files-1");
    try assumption; try reflexivity.
  rewrite (queue_next_list_files _ "download-file");
    [| open_world w; exact Hc | now right | open_world w; reflexivity].
  open_world w. reflexivity.
Qed.


Lemma read_item_first (line : string) (more : list string) :
  fits 0 line = true -> few_tokens (cut_last line newline) ->
  read_item (line :: more) 1 = Some (tokenize colon (cut_last line newline)).
Proof.
  intros Hfit Hfew. unfold read_item. cbn [read_download_list]. rewrite Hfit.
  change (0 + 1 >=? 1) with true. cbv iota. unfold few_tokens in Hfew. now rewrite Hfew.
Qed.

Lemma list_files_callback_stale (lreq : list_files_request_t) (name content line : string)
    (more : list string) (w : world) :
  lf_status_code lreq = 200 ->
  curr_cmd_req (cli w) = Some "download-file" ->
  file_name (cli w) = Some name ->
  name <> "*" ->
  total_files (cli w) = 0 ->
  fs w !! abspath (cwd w) "dwnld_list.txt" = Some (Reg content) ->
  split_lines content = line :: more ->
  fits 0 line = true -> few_tokens (cut_last line newline) ->
  list_files_callback lreq 0 w
  = (Stop (Exit 0),
     with_stdout (fun o => o ++ ["***** done downloading files  *****" +:+ nl])
       (with_cli (fun c => set_next_cmd_req (Some "download-file-1") (set_curr_up_file 1 c))
          (matched (last_match name (files lreq))
             (with_cli (set_file_id None)
                (with_stdout (fun o => o ++ no_files_report lreq) w))))).
Proof.
  intros Hs Hc Hn Hstar Htot Hfile Hsplit Hfit Hfew.
  unfold list_files_callback, no_files_report.
  assert (Hneq : String.eqb name "*" = false) by (now apply String.eqb_neq).
  unfold bind at 1. unfold when at 1. cbn [negb Z.eqb]. unfold ret at 1.
  rewrite Hs. cbn [Z.eqb Pos.eqb negb].
  unfold bind at 1. unfold when at 1. unfold ret at 1.
  unfold bind at 1.
  transitivity
    ((list_files_loop None (files lreq) ;;
      cs <- get cli ;;
      downloading <- strcmp0 (curr_cmd_req cs) (Some "download-file") ;;
      if downloading then
        set_cli (set_curr_up_file 1) ;;
        set_cli (set_next_cmd_req (Some "download-file-1")) ;;
        queue_next_cli_cmd
      else
        kind <- check_file_path "dwnld_list.txt" ;;
        when (kind =? CLI_VALID_REGULAR_FILE)
          (removed <- remove "dwnld_list.txt" ;;
           when removed (printf ("file deleted " +:+ nl +:+ nl))))
       (with_cli (set_file_id None) (with_stdout (fun o => o ++ no_files_report lreq) w))).
  { unfold no_files_report. open_world w. cbn in Hn. subst.
    unfold_m. destruct (req_total_files lreq =? 0); run; rewrite Hneq; run;
      rewrite ?app_nil_r; reflexivity. }
  unfold bind at 1. rewrite (list_files_loop_named name);
    [| open_world w; exact Hn | open_world w; exact Hc].
  destruct (last_match name (files lreq)) as [id|]; open_world w;
    simpl in Hc, Hn, Hfile, Htot; subst;
    unfold queue_next_cli_cmd, fopen_r, stat; unfold_m; run; rewrite Hfile; run;
    rewrite Hsplit, (read_item_first line more Hfit Hfew); run; reflexivity.
Qed.



(** X19: a file [dwnld_list.txt] left in the working directory ends the
    download of a named file before it starts: once the files of the bucket
    are listed the queue manager reads the list instead, finds its cursor
    past the count, reports that the downloads are done and leaves with
    status 0; no transfer is handed to the bridge and no file is written. *)
Theorem stale_list_file_ends_a_named_download
    (dest bname name : string) (breq : get_buckets_request_t)
    (pre : list storj_bucket_meta_t) (b : storj_bucket_meta_t) (post : list storj_bucket_meta_t)
    (lreq : list_files_request_t) (content line : string) (more : list string) (w : world) :
  bname <> "" -> name <> "" -> name <> "*" ->
  lacks slash bname = true -> lacks slash name = true ->
  buckets breq = pre ++ b :: post ->
  Forall (fun x => b_name x <> bname) pre -> b_name b = bname ->
  lf_status_code lreq = 200 ->
  total_files (cli w) = 0 ->
  fs w !! abspath (cwd w) "dwnld_list.txt" = Some (Reg content) ->
  split_lines content = line :: more ->
  fits 0 line = true -> few_tokens (cut_last line newline) ->
  exists w',
    (cli_download_file (Some dest) ("storj://" +:+ bname +:+ "/" +:+ name) ;;
     uv_run storj_strerror STORJ_FILE_DECRYPTION_ERROR
       [get_buckets_done breq 0; list_files_done lreq 0]) w
    = (Stop (Exit 0), w') /\
    trace w' = trace w ++ [Bridge_get_buckets; Bridge_list_files (Some (b_id b))] /\
    fs w' = fs w /\ watchers w' = watchers w.
Proof.
  intros Hb Hn Hstar Lb Ln Hbs Hpre Hbn Hs Htot Hfile Hsplit Hfit Hfew.
  unfold bind at 1. rewrite cli_download_file_accepts; try assumption; [| congruence].
  cbn [uv_run deliver]. unfold bind at 1.
  rewrite (resolve_then_list breq pre b post bname);
    try assumption; try (open_world w; reflexivity).
  unfold bind at 1.
  rewrite (list_files_callback_stale lreq name content line more);
    try assumption; try (open_world w; first [reflexivity | assumption]).
  eexists. split; [reflexivity |].
  destruct (last_match name (files lreq)); open_world w; simpl; rewrite <- app_assoc;
    repeat split.
Qed.

(** X20: the download of every file of a bucket that holds none is
    undefined: the list that is written is empty, the queue manager reads
    no line from it and cuts into tokens a line it has not read. *)
Theorem wildcard_download_of_an_empty_bucket
    (dir bname : string) (breq : get_buckets_request_t)
    (pre : list storj_bucket_meta_t) (b : storj_bucket_meta_t) (post : list storj_bucket_meta_t)
    (lreq : list_files_request_t) (walk : list string) (dotdot : string) (w : world) :
  bname <> "" -> lacks slash bname = true ->
  buckets breq = pre ++ b :: post ->
  Forall (fun x => b_name x <> bname) pre -> b_name b = bname ->
  lf_status_code lreq = 200 ->
  files lreq = [] ->
  fs w !! abspath (cwd w) dir = Some (Dir walk dotdot) ->
  (forall l d, fs w !! abspath (cwd w) "dwnld_list.txt" <> Some (Dir l d)) ->
  exists w',
    (cli_download_file (Some dir) ("storj://" +:+ bname +:+ "/*") ;;
     uv_run storj_strerror STORJ_FILE_DECRYPTION_ERROR
       [get_buckets_done breq 0; list_files_done lreq 0]) w
    = (Stop Undefined, w') /\
    trace w' = trace w ++ [Bridge_get_buckets; Bridge_list_files (Some (b_id b))] /\
    fs w' !! abspath (cwd w) "dwnld_list.txt" = Some (Reg "").
Proof.
  intros Hb Lb Hbs Hpre Hbn Hs Hfiles Hdir Hnd.
  unfold bind at 1.
  change ("storj://" +:+ bname +:+ "/*") with ("storj://" +:+ bname +:+ "/" +:+ "*").
  rewrite cli_download_file_accepts; try assumption; try reflexivity; try discriminate.
  2: intros _; eauto.
  cbn [uv_run deliver]. unfold bind at 1.
  rewrite (resolve_then_list breq pre b post bname);
    try assumption; try (open_world w; reflexivity).
  unfold bind at 1.
  rewrite list_files_callback_wildcard; try assumption; try (open_world w; reflexivity).
  2: rewrite Hfiles; reflexivity.
  2: { intros ? ?. open_world w. unfold resolved_world, download_request.
       cbn -[abspath lookup] in Hnd |- *. apply Hnd. }
  2: { rewrite Hfiles. unfold int_max. simpl. lia. }
  rewrite Hfiles. open_world w. unfold resolved_world, download_request.
  unfold queue_next_cli_cmd, fopen_r, stat. unfold_m. run.
  rewrite lookup_insert_eq. run.
  eexists. split; [reflexivity |]. simpl. rewrite <- app_assoc.
  split; [reflexivity |]. apply lookup_insert_eq.
Qed.

End Invocations.

(** ** The upload of a directory *)

Lemma listed_path_parts p :
  listed_path p = true ->
  lacks newline p = true /\ Z.of_nat (String.length p) + 2 <= line_row.
Proof.
  unfold listed_path. intros H. apply andb_true_iff in H as [Hl Hn].
  split; [exact Hl | now apply Z.leb_le].
Qed.

Lemma split_lines_walk_text walk :
  forallb listed_path walk = true ->
  split_lines (walk_text walk) = map (fun p => p +:+ nl) walk.
Proof.
  induction walk as [|p rest IH]; [reflexivity |]. cbn [forallb walk_text map].
  intros H. apply andb_true_iff in H as [Hp Hr].
  destruct (listed_path_parts _ Hp) as [Hl Hn].
  rewrite append_assoc, split_lines_line; [now rewrite IH | exact Hl |].
  unfold line_row, line_size in *. lia.
Qed.

Lemma upload_items_walk_text walk :
  forallb listed_path walk = true -> upload_items (walk_text walk) = walk.
Proof.
  intros Hall. unfold upload_items. rewrite split_lines_walk_text by exact Hall.
  induction walk as [|p rest IH]; [reflexivity |].
  cbn [forallb] in Hall. apply andb_true_iff in Hall as [Hp Hr].
  destruct (listed_path_parts _ Hp) as [Hl _].
  cbn [map]. rewrite cut_line by exact Hl. now rewrite IH.
Qed.

Lemma fput_lines_writes fd : forall walk c w,
  fs w !! fd = Some (Reg c) ->
  fput_lines fd walk w = (Val tt, with_fs (insert fd (Reg (c +:+ walk_text walk))) w).
Proof.
  induction walk as [|p rest IH]; intros c w Hfd.
  - cbn [fput_lines walk_text]. rewrite append_nil_r. unfold ret. f_equal.
    fields w. cbn in Hfd |- *. now rewrite insert_id.
  - cbn [fput_lines walk_text]. unfold bind at 1. unfold fputs, modify.
    rewrite Hfd. rewrite (IH (c +:+ p +:+ nl)).
    + f_equal. fields w. cbn. rewrite insert_insert_eq, !append_assoc. reflexivity.
    + fields w. cbn. apply lookup_insert_eq.
Qed.

Lemma abspath_relative dir name :
  String.prefix "/" name = false -> abspath dir name = dir +:+ "/" +:+ name.
Proof. intros H. unfold abspath. now rewrite H. Qed.

Lemma abspath_absolute dir d name :
  String.prefix "/" d = true -> abspath dir (d +:+ name) = d +:+ name.
Proof.
  intros H. unfold abspath.
  destruct d as [|a d]; [discriminate |]. rewrite append_cons.
  cbn [String.prefix] in *. destruct (ascii_dec "/" a); [| discriminate].
  now destruct (d +:+ name).
Qed.

Lemma file_exists_regular p c w :
  fs w !! abspath (cwd w) p = Some (Reg c) ->
  file_exists p w = (Val CLI_VALID_REGULAR_FILE, w).
Proof.
  intros H. unfold file_exists, stat. unfold_m. fields w. cbn -[abspath lookup] in *.
  now rewrite H.
Qed.

Lemma file_exists_directory dir walk dotdot w :
  fs w !! abspath (cwd w) dir = Some (Dir walk dotdot) ->
  (forall a b, fs w !! (cwd w +:+ "/output.txt") <> Some (Dir a b)) ->
  file_exists dir w
  = (Val CLI_VALID_DIR,
     with_cwd dotdot
       (with_fs (insert (cwd w +:+ "/output.txt") (Reg (walk_text walk)))
          (with_stdout (fun o => o ++ ["file_path = " +:+ dir +:+ nl +:+ nl; "directory" +:+ nl])
             w))).
Proof.
  intros Hdir Hout.
  assert (Hne : abspath (cwd w) dir <> cwd w +:+ "/output.txt").
  { intros E. rewrite E in Hdir. now apply (Hout walk dotdot). }
  unfold file_exists, stat, fopen_w, printdir, stat.
  fields w. cbn -[abspath lookup] in *. unfold_m. run. rewrite Hdir. run.
  rewrite (abspath_relative cwd0 "output.txt") by reflexivity.
  change (cwd0 +:+ "/" +:+ "output.txt") with (cwd0 +:+ "/output.txt").
  destruct (fs0 !! (cwd0 +:+ "/output.txt")) as [[c | a b | k]|] eqn:E;
    try (exfalso; now apply (Hout a b)); run.
  all: rewrite lookup_insert_ne by (intros E'; apply Hne; symmetry; exact E'); rewrite Hdir; run.
  all: rewrite (fput_lines_writes _ walk "") by (cbn; apply lookup_insert_eq).
  all: unfold_world; cbn; rewrite insert_insert_eq, <- app_assoc; reflexivity.
Qed.

(** X21: a directory of more than 256 files cannot be uploaded: while
    [cli_upload_file] counts the lines of the list it has written, the 257th
    is read past the end of [line], which is undefined; nothing has been
    asked of the bridge. *)
Theorem directory_upload_past_256_files (dir uri : string) (walk : list string)
    (dotdot : string) (w : world) :
  fs w !! abspath (cwd w) dir = Some (Dir walk dotdot) ->
  (forall l d, fs w !! (cwd w +:+ "/output.txt") <> Some (Dir l d)) ->
  environ w !! "PWD" = Some (cwd w) ->
  String.prefix "/" (cwd w) = true ->
  forallb listed_path walk = true ->
  line_row < Z.of_nat (length walk) ->
  exists w',
    cli_upload_file dir uri w = (Stop Undefined, w') /\
    trace w' = trace w /\
    fs w' !! (cwd w +:+ "/output.txt") = Some (Reg (walk_text walk)).
Proof.
  intros Hdir Hout Hpwd Habs Hall Hlen.
  assert (Hfit : rows_fit 0 (map (fun p => p +:+ nl) walk) = false).
  { destruct (rows_fit 0 (map (fun p => p +:+ nl) walk)) eqn:E; [| reflexivity].
    apply rows_fit_length in E; [| unfold line_row; lia].
    rewrite length_map in E. lia. }
  unfold cli_upload_file. unfold bind at 1.
  rewrite (file_exists_directory dir walk dotdot) by assumption.
  fields w. cbn -[abspath lookup] in *. subst.
  unfold getenv. unfold_m. run. rewrite Hpwd. run.
  repeat (rewrite !(abspath_absolute _ cwd0 "/output.txt" Habs), ?lookup_insert_eq; run).
  rewrite split_lines_walk_text by exact Hall.
  rewrite Hfit. run.
  eexists. split; [reflexivity |]. split; [reflexivity |]. apply lookup_insert_eq.
Qed.

(** ** Lines of the console *)

Lemma until_zero_lacks s : lacks zero s = true -> until_zero s = s.
Proof.
  induction s as [|a s IH]; [reflexivity |]. cbn [lacks until_zero]. intros H.
  apply andb_true_iff in H as [Ha Hs]. apply negb_true_iff in Ha.
  now rewrite Ha, IH.
Qed.

Lemma fgets_loop_last s : forall fuel room,
  s <> "" -> lacks newline s = true ->
  (String.length s <= fuel)%nat -> Z.of_nat (String.length s) <= room ->
  fgets_loop fuel room [s] = (s, []).
Proof.
  induction s as [|a s IH]; intros fuel room Hne Hs Hfuel Hroom; [congruence |].
  change (String.length (String a s)) with (S (String.length s)) in Hfuel, Hroom.
  destruct fuel as [|fuel]; [lia |]. cbn [fgets_loop].
  replace (room <=? 0) with false by lia.
  cbn [lacks] in Hs. apply andb_true_iff in Hs as [Ha Hs]. apply negb_true_iff in Ha.
  destruct s as [|b s].
  - cbn [next_char]. rewrite Ha.
    destruct fuel; cbn [fgets_loop next_char]; [reflexivity |].
    now destruct (room - 1 <=? 0).
  - cbn [next_char]. rewrite Ha.
    rewrite (IH fuel (room - 1)); [reflexivity | discriminate | exact Hs | lia | lia].
Qed.

(** X23: [get_input] returns a line without its line end, be it a
    newline, a carriage return and a newline, or none at the end of the
    input, when the line holds no zero byte and fits the buffer of
    [BUFSIZ] bytes with its line end. *)
Theorem get_input_strips_the_line_end (s ending : string) (rest : list string) (w : world) :
  lacks zero s = true -> lacks newline s = true -> lacks carriage_return s = true ->
  Z.of_nat (String.length (s +:+ ending)) < BUFSIZ ->
  In ending line_ends ->
  (ending = "" -> s <> "" /\ rest = []) ->
  stdin w = (s +:+ ending) :: rest ->
  get_input w = (Val s, with_stdin rest w).
Proof.
  intros Hz Hn Hr Hlen Hin Hlast Hs. rewrite get_input_reply, Hs. unfold reply.
  destruct Hin as [<- | [<- | [<- | []]]].
  - destruct (Hlast eq_refl) as [Hne ->]. rewrite append_nil_r in Hlen |- *.
    unfold fgets_stdin. rewrite (fgets_loop_last s); try assumption;
      [| cbn [input_chars]; lia | lia].
    cbn [fst snd]. rewrite (until_zero_lacks s Hz), (cut_last_lacks newline s Hn).
    now rewrite (cut_last_lacks carriage_return s Hr).
  - rewrite fgets_stdin_line.
    + cbn [fst snd]. rewrite until_zero_lacks by (now rewrite lacks_append, Hz).
      rewrite cut_line by exact Hn. now rewrite (cut_last_lacks carriage_return s Hr).
    + unfold console_line. apply andb_true_iff. split; [| now apply Z.ltb_lt].
      clear -Hn. induction s as [|a s IH]; [reflexivity |].
      cbn [lacks] in Hn. apply andb_true_iff in Hn as [Ha Hn]. apply negb_true_iff in Ha.
      rewrite append_cons. cbn [ends_line]. rewrite Ha. now apply IH.
  - change (s +:+ String carriage_return nl) with (s +:+ String carriage_return "" +:+ nl)
      in Hlen |- *.
    rewrite <- append_assoc in Hlen |- *.
    assert (Hn' : lacks newline (s +:+ String carriage_return "") = true)
      by (now rewrite lacks_append, Hn).
    rewrite fgets_stdin_line.
    + cbn [fst snd]. rewrite until_zero_lacks
        by (now rewrite !lacks_append, Hz).
      rewrite cut_line by exact Hn'.
      now rewrite (cut_last_last carriage_return s "").
    + unfold console_line. apply andb_true_iff. split; [| now apply Z.ltb_lt].
      clear -Hn'. induction (s +:+ String carriage_return "") as [|a t IH]; [reflexivity |].
      cbn [lacks] in Hn'. apply andb_true_iff in Hn' as [Ha Hn']. apply negb_true_iff in Ha.
      rewrite append_cons. cbn [ends_line]. rewrite Ha. now apply IH.
Qed.

(** ** The list of a directory *)

(** X24: checking a path that is a directory writes the walk of the
    directory to [output.txt] in the working directory, whatever that file
    held, and leaves the process in the directory [..] leads to; the list
    reads back as the paths of the walk, in order. *)
Theorem file_exists_lists_the_directory (dir : string) (walk : list string) (dotdot : string)
    (w : world) :
  fs w !! abspath (cwd w) dir = Some (Dir walk dotdot) ->
  (forall l d, fs w !! (cwd w +:+ "/output.txt") <> Some (Dir l d)) ->
  forallb listed_path walk = true ->
  exists w' content,
    file_exists dir w = (Val CLI_VALID_DIR, w') /\
    fs w' !! (cwd w +:+ "/output.txt") = Some (Reg content) /\
    upload_items content = walk /\
    cwd w' = dotdot.
Proof.
  intros Hdir Hout Hall. rewrite (file_exists_directory dir walk dotdot w Hdir Hout).
  eexists _, (walk_text walk). split; [reflexivity |].
  split; [fields w; cbn; apply lookup_insert_eq |].
  split; [now apply upload_items_walk_text | fields w; reflexivity].
Qed.

(** ** Commands that are refused *)

Lemma validate_cmd_tokenize_no_prefix_frame entries s w :
  String.prefix "storj://" s = false ->
  exists r extra,
    validate_cmd_tokenize entries s w = (Val (r, []), with_stdout (fun o => o ++ extra) w).
Proof.
  intros Hp. unfold validate_cmd_tokenize, strpos.
  destruct (strstr s "storj://") as [[|n]|] eqn:E.
  - apply strstr_zero in E. congruence.
  - unfold_m. run. exists (Z.of_nat (S n)), []. now rewrite with_stdout_nil.
  - unfold_m. run. eexists _, _. reflexivity.
Qed.

(** X25: a download whose source names no bucket and file, because it
    does not start with [storj://] or because it ends with the bucket, is
    refused with -1: the arguments are reported missing and nothing is asked
    of the bridge. *)
Theorem cli_download_file_needs_bucket_and_name (dest : option string) (uri : string)
    (w : world) :
  String.prefix "storj://" uri = false
  \/ (exists bname, uri = "storj://" +:+ bname /\ bname <> "" /\ lacks slash bname = true) ->
  exists w' extra,
    cli_download_file dest uri w = (Val (-1), w') /\
    stdout w' = stdout w ++ extra ++ [missing_arguments] /\
    trace w' = trace w /\ fs w' = fs w /\ watchers w' = watchers w.
Proof.
  intros [Hp | (bname & -> & Hb & Lb)]; unfold cli_download_file; unfold bind at 1.
  - destruct (validate_cmd_tokenize_no_prefix_frame 10 uri w Hp) as (r & extra & ->).
    open_world w. unfold_m. run. eexists _, extra. split; [reflexivity |].
    simpl. rewrite <- app_assoc. repeat split.
  - assert (H310 : (3 < 10)%nat) by lia. assert (Hx : "x" <> "") by discriminate.
    destruct (validate_cmd_tokenize_valid 10 bname "x" w H310 Hb Hx Lb eq_refl) as [-> _].
    open_world w. unfold_m. run. eexists _, []. split; [reflexivity |]. repeat split.
Qed.

(** X26: a download of every file of a bucket whose destination is not a
    directory is refused with -1, and nothing is asked of the bridge. *)
Theorem cli_download_file_wildcard_needs_a_directory (dest bname : string) (w : world) :
  bname <> "" -> lacks slash bname = true ->
  (forall l d, fs w !! abspath (cwd w) dest <> Some (Dir l d)) ->
  exists w' extra,
    cli_download_file (Some dest) ("storj://" +:+ bname +:+ "/*") w = (Val (-1), w') /\
    stdout w' = stdout w ++ extra
                ++ ["storj;// cp target '" +:+ dest +:+ "' is not a directory" +:+ nl] /\
    trace w' = trace w /\ fs w' = fs w /\ watchers w' = watchers w.
Proof.
  intros Hb Lb Hdir. unfold cli_download_file. unfold bind at 1.
  assert (H310 : (3 < 10)%nat) by lia. assert (Hx : "*" <> "") by discriminate.
  change ("storj://" +:+ bname +:+ "/*") with ("storj://" +:+ bname +:+ "/" +:+ "*").
  destruct (validate_cmd_tokenize_valid 10 bname "*" w H310 Hb Hx Lb eq_refl) as [_ ->].
  open_world w. unfold check_file_path, stat. unfold_m. run. simpl in Hdir.
  match goal with
  | |- context [?m !! abspath ?c dest] => destruct (m !! abspath c dest) as [[c0 | l d | k]|] eqn:E
  end; try (exfalso; now apply (Hdir l d)); run.
  - eexists _, []. split; [reflexivity |]. repeat split.
  - eexists _, [_]. split; [reflexivity |]. simpl. rewrite <- app_assoc. repeat split.
  - eexists _, []. split; [reflexivity |]. repeat split.
Qed.

(** X27: the upload of one file under another name is refused: a
    destination whose file name is neither the basename of the local path
    nor a dot gives -1, and nothing is asked of the bridge. *)
Theorem single_upload_refuses_another_name (path content bname other : string) (w : world) :
  fs w !! abspath (cwd w) path = Some (Reg content) ->
  bname <> "" -> other <> "" -> lacks slash bname = true -> lacks slash other = true ->
  other <> basename path -> other <> "." ->
  exists w',
    cli_upload_file path ("storj://" +:+ bname +:+ "/" +:+ other) w = (Val (-1), w') /\
    stdout w' = stdout w ++ ["Invalid upload target filename - ";
                             "Use same filename as source or '.' or blank " +:+ nl] /\
    trace w' = trace w /\ fs w' = fs w /\ watchers w' = watchers w.
Proof.
  intros Hfs Hb Ho Lb Lo Hbase Hdot. unfold cli_upload_file. unfold bind at 1.
  rewrite (file_exists_regular path content w Hfs).
  cbn [Z.eqb CLI_VALID_REGULAR_FILE CLI_UNKNOWN_FILE_ATTR CLI_NO_SUCH_FILE_OR_DIR orb Pos.eqb].
  unfold bind at 1. rewrite get_filename_separator_basename. unfold bind at 1.
  assert (H310 : (3 < 10)%nat) by lia.
  destruct (validate_cmd_tokenize_valid 10 bname other w H310 Hb Ho Lb Lo) as [_ ->].
  assert (E1 : String.eqb (basename path) other = false) by (apply String.eqb_neq; congruence).
  assert (E2 : String.eqb other "." = false) by (now apply String.eqb_neq).
  open_world w. unfold_m. run. rewrite E1, E2. run.
  eexists. split; [reflexivity |]. simpl. rewrite <- app_assoc. repeat split.
Qed.

(** ** The console and whole invocations at the scenarios *)

(** A password of six characters. *)
Lemma get_password_reads_the_line_witness :
  all_typed "secret" = true /\
  get_password star (typing ["secret" +:+ nl])
  = (Val (list_ascii_of_string "secret"),
     with_stdout (fun o => o ++ mask_echo star (String.length "secret"))
       (with_stdin [] (typing ["secret" +:+ nl]))).
Proof.
  split; [reflexivity |].
  apply (get_password_reads_the_line star "secret" [] (typing ["secret" +:+ nl]));
    [reflexivity | simpl; lia | reflexivity].
Defined.

(** A line of 513 characters. *)
Lemma get_password_cuts_a_long_line_witness :
  Z.of_nat (String.length long_line) = 511 /\
  get_password star (typing [long_line +:+ "bc"])
  = (Val (list_ascii_of_string long_line),
     with_stdout (fun o => o ++ mask_echo star 511) (with_stdin ["c"] (typing [long_line +:+ "bc"]))).
Proof.
  split; [reflexivity |].
  apply (get_password_cuts_a_long_line star long_line "b" "c" [] (typing [long_line +:+ "bc"]));
    [vm_compute; reflexivity | reflexivity | reflexivity | discriminate | reflexivity].
Defined.

(** [pasx], an erase character, [s]. *)
Lemma get_password_erases_witness :
  get_password star (typing ["pas" +:+ String "x" (String DEL ("s" +:+ nl))])
  = (Val (list_ascii_of_string ("pas" +:+ "s")),
     with_stdout
       (fun o => o ++ mask_echo star (S (String.length "pas")) ++ erase_echo star
                   ++ mask_echo star (String.length "s"))
       (with_stdin [] (typing ["pas" +:+ String "x" (String DEL ("s" +:+ nl))]))).
Proof.
  apply (get_password_erases star "pas" "s" "x" DEL []
           (typing ["pas" +:+ String "x" (String DEL ("s" +:+ nl))]));
    [reflexivity | reflexivity | reflexivity | left; reflexivity | simpl; lia | reflexivity].
Defined.

(** A passphrase accepted at the second attempt. *)
Lemma get_password_verify_accepts_witness :
  mismatch ("secret", "secrte") /\
  get_password_verify "Unlock passphrase: " 0
    (typing ["secret" +:+ nl; "secrte" +:+ nl; "secret" +:+ nl; "secret" +:+ nl])
  = (Val (0, "secret"),
     with_stdout
       (fun o => o ++ flat_map (miss_echo "Unlock passphrase: ") [("secret", "secrte")]
                   ++ attempt_echo "Unlock passphrase: " ("secret", "secret"))
       (with_stdin []
          (typing ["secret" +:+ nl; "secrte" +:+ nl; "secret" +:+ nl; "secret" +:+ nl]))).
Proof.
  assert (Hm : mismatch ("secret", "secrte"))
    by (unfold mismatch; cbn [fst snd]; split; [reflexivity | split; [reflexivity | discriminate]]).
  split; [exact Hm |].
  apply (get_password_verify_accepts "Unlock passphrase: " [("secret", "secrte")] "secret" []
           (typing ["secret" +:+ nl; "secrte" +:+ nl; "secret" +:+ nl; "secret" +:+ nl]));
    [constructor; [exact Hm | constructor] | simpl; lia | reflexivity | reflexivity].
Defined.

(** Four attempts that do not match. *)
Lemma get_password_verify_gives_up_witness :
  mismatch ("a", "b") /\
  get_password_verify "Unlock passphrase: " 0
    (typing (attempt_lines [("a", "b"); ("a", "b"); ("a", "b"); ("a", "b")]))
  = (Val (1, "a"),
     with_stdout
       (fun o => o ++ flat_map (miss_echo "Unlock passphrase: ")
                        [("a", "b"); ("a", "b"); ("a", "b")]
                   ++ attempt_echo "Unlock passphrase: " ("a", "b")
                   ++ [nl +:+ "Passphrases did not match. "; nl])
       (with_stdin []
          (typing (attempt_lines [("a", "b"); ("a", "b"); ("a", "b"); ("a", "b")])))).
Proof.
  assert (Hm : mismatch ("a", "b"))
    by (unfold mismatch; cbn [fst snd]; split; [reflexivity | split; [reflexivity | discriminate]]).
  split; [exact Hm |].
  apply (get_password_verify_gives_up "Unlock passphrase: "
           [("a", "b"); ("a", "b"); ("a", "b")] "a" "b" []
           (typing (attempt_lines [("a", "b"); ("a", "b"); ("a", "b"); ("a", "b")])));
    [repeat (constructor; [exact Hm |]); constructor | reflexivity | exact Hm | reflexivity].
Defined.

(** A strength that is refused, one the generator fails for, and one it
    succeeds for. *)
Lemma generate_mnemonic_only_returns_success_witness :
  generate_mnemonic mnemonic_sample 1 [] (typing ["100" +:+ nl; "128" +:+ nl; "256" +:+ nl])
  = (Val (0, Some "mnemonic of strength 256", [128; 256]),
     snd (generate_mnemonic mnemonic_sample 1 []
            (typing ["100" +:+ nl; "128" +:+ nl; "256" +:+ nl]))) /\
  exists new, [128; 256] = [] ++ new /\ new <> [] /\ forallb valid_strength new = true.
Proof.
  assert (Hrun : generate_mnemonic mnemonic_sample 1 []
                   (typing ["100" +:+ nl; "128" +:+ nl; "256" +:+ nl])
                 = (Val (0, Some "mnemonic of strength 256", [128; 256]),
                    snd (generate_mnemonic mnemonic_sample 1 []
                           (typing ["100" +:+ nl; "128" +:+ nl; "256" +:+ nl]))))
    by (vm_compute; reflexivity).
  split; [exact Hrun |].
  exact (proj2 (proj2 (generate_mnemonic_only_returns_success mnemonic_sample 1 []
                         (typing ["100" +:+ nl; "128" +:+ nl; "256" +:+ nl])
                         0 (Some "mnemonic of strength 256") [128; 256] _ Hrun))).
Defined.

(** The second call of the generator, after two lines that are no
    strength. *)
Lemma generate_mnemonic_takes_the_first_valid_strength_witness :
  answer ("192" +:+ nl) = Some 192 /\
  generate_mnemonic mnemonic_sample 0 [128]
    (typing ["abc" +:+ nl; "129" +:+ nl; "192" +:+ nl; "256" +:+ nl])
  = (Val (0, Some "mnemonic of strength 192", [128] ++ [192]),
     with_stdout (fun o => o ++ strength_intro
                             :: repeat "Strength: " (S (length ["abc" +:+ nl; "129" +:+ nl])))
       (with_stdin ["256" +:+ nl]
          (typing ["abc" +:+ nl; "129" +:+ nl; "192" +:+ nl; "256" +:+ nl]))).
Proof.
  split; [reflexivity |].
  apply (generate_mnemonic_takes_the_first_valid_strength mnemonic_sample 0 [128]
           ["abc" +:+ nl; "129" +:+ nl] ("192" +:+ nl) 192 ["256" +:+ nl] 1
           "mnemonic of strength 192"
           (typing ["abc" +:+ nl; "129" +:+ nl; "192" +:+ nl; "256" +:+ nl]));
    [reflexivity | reflexivity | reflexivity | reflexivity | reflexivity | discriminate
    | reflexivity].
Defined.



(** A proxy scheme of seven characters. *)
Lemma bridge_address_long_scheme_witness :
  main_bridge_address (Some ("socks" +:+ String "5" "h://localhost:1080")) world0
  = (Val (Some "socks", None, if String.eqb "socks" "https" then 443 else 80), world0).
Proof.
  apply (bridge_address_long_scheme "socks" "5" "h://localhost:1080" world0);
    reflexivity.
Defined.

(** An upload from a path that does not exist. *)
Lemma upload_file_missing_source_witness :
  fs world0 !! abspath (cwd world0) "/data/none.txt" = None /\
  exists status w' opts name,
    upload_file (Some "b1") (Some "/data/none.txt") world0 = (Val status, w') /\
    stdout w' = stdout world0 ++ ["Invalid file path: " +:+ "/data/none.txt" +:+ nl] /\
    trace w' = trace world0 ++ [Enter_upload_file (Some "b1") (Some "/data/none.txt");
                                Bridge_store_file (handles world0) opts
                                  (log_level world0 =? 0)] /\
    opt_fd opts = None /\ opt_bucket_id opts = Some "b1" /\
    opt_file_name opts = Some name /\ lacks slash name = true /\
    ("/data/none.txt" = name \/ exists dir, "/data/none.txt" = dir +:+ "/" +:+ name) /\
    watchers w' = watchers world0
                  ++ [Build_watcher upload_handler (Some (handles world0))].
Proof.
  split; [reflexivity |].
  apply (upload_file_missing_source (Some "b1") "/data/none.txt" world0). reflexivity.
Defined.

(** An answer that is none, then [n]. *)
Lemma download_file_declined_witness :
  forallb unanswered ["maybe" +:+ nl] = true /\
  download_file (Some "b1") (Some "f2") (Some "/tmp/report.pdf")
    (answering ["maybe" +:+ nl; "n" +:+ nl])
  = (Val 1,
     with_stdout
       (fun o => o ++ overwrite_warning "/tmp/report.pdf"
                   :: repeat (overwrite_question "/tmp/report.pdf")
                        (S (length ["maybe" +:+ nl]))
                   ++ [nl +:+ "Canceled overwriting of [" +:+ "/tmp/report.pdf" +:+ "]." +:+ nl])
       (with_stdin []
          (with_trace
             (fun t => t ++ [Enter_download_file (Some "b1") (Some "f2")
                               (Some "/tmp/report.pdf")])
             (answering ["maybe" +:+ nl; "n" +:+ nl])))).
Proof.
  split; [reflexivity |].
  apply (download_file_declined (Some "b1") (Some "f2") "/tmp/report.pdf" (Reg "old")
           ["maybe" +:+ nl] ("n" +:+ nl) [] (answering ["maybe" +:+ nl; "n" +:+ nl]));
    [vm_compute; reflexivity | reflexivity | reflexivity | reflexivity | reflexivity].
Defined.

(** An empty line, then [y] with a carriage return. *)
Lemma download_file_overwrites_witness :
  reply ("y" +:+ String carriage_return nl) = "y" /\
  download_file (Some "b1") (Some "f2") (Some "/tmp/report.pdf")
    (answering [nl; "y" +:+ String carriage_return nl])
  = (Val 0,
     after_download_file (Some "b1") (Some "f2") "/tmp/report.pdf"
       (with_stdout
          (fun o => o ++ overwrite_warning "/tmp/report.pdf"
                      :: repeat (overwrite_question "/tmp/report.pdf") (S (length [nl])))
          (with_stdin [] (answering [nl; "y" +:+ String carriage_return nl])))).
Proof.
  split; [reflexivity |].
  apply (download_file_overwrites (Some "b1") (Some "f2") "/tmp/report.pdf" "old"
           [nl] ("y" +:+ String carriage_return nl) []
           (answering [nl; "y" +:+ String carriage_return nl]));
    [vm_compute; reflexivity | reflexivity | reflexivity | reflexivity | reflexivity].
Defined.

(** An input that ends after [yes]. *)
Lemma download_file_waits_for_an_answer_witness :
  forallb unanswered (stdin (answering ["yes" +:+ nl])) = true /\
  exists w',
    download_file (Some "b1") (Some "f2") (Some "/tmp/report.pdf") (answering ["yes" +:+ nl])
    = (Stop Hang, w') /\
    fs w' = fs (answering ["yes" +:+ nl]) /\
    watchers w' = watchers (answering ["yes" +:+ nl]) /\
    trace w' = trace (answering ["yes" +:+ nl])
               ++ [Enter_download_file (Some "b1") (Some "f2") (Some "/tmp/report.pdf")].
Proof.
  split; [reflexivity |].
  apply (download_file_waits_for_an_answer (Some "b1") (Some "f2") "/tmp/report.pdf"
           (Reg "old") (answering ["yes" +:+ nl]));
    [vm_compute; reflexivity | reflexivity].
Defined.



(** [y] typed on a console that ends its lines with a carriage return and
    a newline. *)
Lemma get_input_strips_the_line_end_witness :
  In (String carriage_return nl) line_ends /\
  get_input (typing ["y" +:+ String carriage_return nl; "n" +:+ nl])
  = (Val "y", with_stdin ["n" +:+ nl] (typing ["y" +:+ String carriage_return nl; "n" +:+ nl])).
Proof.
  split; [right; right; left; reflexivity |].
  apply (get_input_strips_the_line_end "y" (String carriage_return nl) ["n" +:+ nl]
           (typing ["y" +:+ String carriage_return nl; "n" +:+ nl]));
    [reflexivity | reflexivity | reflexivity | reflexivity
    | right; right; left; reflexivity | discriminate | reflexivity].
Defined.

(** The directory of two files. *)
Lemma file_exists_lists_the_directory_witness :
  fs directory_world !! abspath (cwd directory_world) "/data/dir"
  = Some (Dir two_files_walk "/data") /\
  exists w' content,
    file_exists "/data/dir" directory_world = (Val CLI_VALID_DIR, w') /\
    fs w' !! (cwd directory_world +:+ "/output.txt") = Some (Reg content) /\
    upload_items content = two_files_walk /\
    cwd w' = "/data".
Proof.
  split; [reflexivity |].
  apply (file_exists_lists_the_directory "/data/dir" two_files_walk "/data" directory_world);
    [reflexivity | intros l d; vm_compute; discriminate | reflexivity].
Defined.

(** A source without the scheme, and a source that ends with the bucket. *)
Lemma cli_download_file_needs_bucket_and_name_witness :
  String.prefix "storj://" "docs/a.txt" = false /\
  (exists w' extra,
      cli_download_file (Some "/tmp/a.txt") "docs/a.txt" world0 = (Val (-1), w') /\
      stdout w' = stdout world0 ++ extra ++ [missing_arguments] /\
      trace w' = trace world0 /\ fs w' = fs world0 /\ watchers w' = watchers world0) /\
  (exists w' extra,
      cli_download_file (Some "/tmp/a.txt") ("storj://" +:+ "docs") world0 = (Val (-1), w') /\
      stdout w' = stdout world0 ++ extra ++ [missing_arguments] /\
      trace w' = trace world0 /\ fs w' = fs world0 /\ watchers w' = watchers world0).
Proof.
  split; [reflexivity |]. split.
  - apply (cli_download_file_needs_bucket_and_name (Some "/tmp/a.txt") "docs/a.txt" world0).
    left. reflexivity.
  - apply (cli_download_file_needs_bucket_and_name (Some "/tmp/a.txt") ("storj://" +:+ "docs")
             world0).
    right. exists "docs". repeat split. discriminate.
Defined.

(** Every file of [docs] into a path that does not exist. *)
Lemma cli_download_file_wildcard_needs_a_directory_witness :
  exists w' extra,
    cli_download_file (Some "/tmp/all") ("storj://" +:+ "docs" +:+ "/*") world0
    = (Val (-1), w') /\
    stdout w' = stdout world0 ++ extra
                ++ ["storj;// cp target '" +:+ "/tmp/all" +:+ "' is not a directory" +:+ nl] /\
    trace w' = trace world0 /\ fs w' = fs world0 /\ watchers w' = watchers world0.
Proof.
  apply (cli_download_file_wildcard_needs_a_directory "/tmp/all" "docs" world0);
    [discriminate | reflexivity | intros l d; vm_compute; discriminate].
Defined.

(** [f.txt] to be stored as [g.txt]. *)
Lemma single_upload_refuses_another_name_witness :
  basename "/data/f.txt" = "f.txt" /\
  exists w',
    cli_upload_file "/data/f.txt" ("storj://" +:+ "docs" +:+ "/" +:+ "g.txt") one_file_world
    = (Val (-1), w') /\
    stdout w' = stdout one_file_world
                ++ ["Invalid upload target filename - ";
                    "Use same filename as source or '.' or blank " +:+ nl] /\
    trace w' = trace one_file_world /\ fs w' = fs one_file_world /\
    watchers w' = watchers one_file_world.
Proof.
  split; [reflexivity |].
  apply (single_upload_refuses_another_name "/data/f.txt" "x" "docs" "g.txt" one_file_world);
    try reflexivity; try discriminate.
Defined.

(** The download of [a.txt] from [docs] beside an old list. *)
Lemma stale_list_file_ends_a_named_download_witness :
  fs stale_list_world !! abspath (cwd stale_list_world) "dwnld_list.txt"
  = Some (Reg ("f9:old.bin" +:+ nl)) /\
  exists w',
    (cli_download_file (Some "/tmp/a.txt") ("storj://" +:+ "docs" +:+ "/" +:+ "a.txt") ;;
     uv_run strerror_sample decryption_error_sample
       [get_buckets_done two_buckets 0; list_files_done docs_listing 0]) stale_list_world
    = (Stop (Exit 0), w') /\
    trace w' = trace stale_list_world
               ++ [Bridge_get_buckets; Bridge_list_files (Some (b_id docs_bucket))] /\
    fs w' = fs stale_list_world /\ watchers w' = watchers stale_list_world.
Proof.
  split; [reflexivity |].
  apply (stale_list_file_ends_a_named_download strerror_sample decryption_error_sample
           "/tmp/a.txt" "docs" "a.txt" two_buckets [photos_bucket] docs_bucket []
           docs_listing ("f9:old.bin" +:+ nl) ("f9:old.bin" +:+ nl) [] stale_list_world);
    try reflexivity; try discriminate.
  repeat constructor. discriminate.
Defined.

(** Every file of a bucket that holds none. *)
Lemma wildcard_download_of_an_empty_bucket_witness :
  files empty_listing = [] /\
  exists w',
    (cli_download_file (Some "/tmp/") ("storj://" +:+ "docs" +:+ "/*") ;;
     uv_run strerror_sample decryption_error_sample
       [get_buckets_done two_buckets 0; list_files_done empty_listing 0]) tmp_directory_world
    = (Stop Undefined, w') /\
    trace w' = trace tmp_directory_world
               ++ [Bridge_get_buckets; Bridge_list_files (Some (b_id docs_bucket))] /\
    fs w' !! abspath (cwd tmp_directory_world) "dwnld_list.txt" = Some (Reg "").
Proof.
  split; [reflexivity |].
  apply (wildcard_download_of_an_empty_bucket strerror_sample decryption_error_sample
           "/tmp/" "docs" two_buckets [photos_bucket] docs_bucket [] empty_listing
           [] "/" tmp_directory_world);
    try reflexivity; try discriminate.
  repeat constructor. discriminate.
Defined.

(** The upload of a directory of 257 files. *)
Lemma directory_upload_past_256_files_witness :
  line_row < Z.of_nat (length long_walk) /\
  exists w',
    cli_upload_file "/data/big" "storj://docs" big_directory_world = (Stop Undefined, w') /\
    trace w' = trace big_directory_world /\
    fs w' !! (cwd big_directory_world +:+ "/output.txt") = Some (Reg (walk_text long_walk)).
Proof.
  split; [reflexivity |].
  apply (directory_upload_past_256_files "/data/big" "storj://docs" long_walk "/data"
           big_directory_world);
    [reflexivity | intros l d; vm_compute; discriminate | reflexivity | reflexivity
    | vm_compute; reflexivity | reflexivity].
Defined.
